(** * Gmunden transparency database: the result-verification pipeline

    A shallow embedding of the query interpreter
    ([gmunden_complete_system/backend/nlp_processor.py], [ai/nlp_processor.py])
    and of the two fact checkers
    ([gmunden_complete_system/backend/fact_checker.py], [ai/fact_checker.py]),
    with the properties of the specification stated over it.

    Python values are modelled as they are at run time: [str] is a sequence
    of Unicode code points, [int] is [Z], [float] is the kernel's binary64
    [float], a [dict] is an insertion-ordered association list, the two
    SQLite tables of the known-facts store are finite maps keyed by the
    fingerprint.  Exceptions are an explicit sum type. *)

From Stdlib Require Import ZArith NArith List String Ascii Bool Lia Floats Uint63.
From stdpp Require Import gmap strings.
Import ListNotations.
Open Scope Z_scope.

(** ** Text *)

Module Text.

(** A character is its code point; a Python [str] is the list of them. *)
Definition char := N.
Definition pystr := list char.

(** Source literals are stored as UTF-8 bytes; [u] reads one back as the
    code points Python sees. *)
Fixpoint utf8_decode (bs : list N) : pystr :=
  match bs with
  | [] => []
  | b :: r =>
      if (b <? 128)%N then b :: utf8_decode r
      else if (b <? 224)%N then
        match r with
        | c1 :: r' => ((b - 192) * 64 + (c1 - 128))%N :: utf8_decode r'
        | _ => []
        end
      else if (b <? 240)%N then
        match r with
        | c1 :: c2 :: r' =>
            ((b - 224) * 4096 + (c1 - 128) * 64 + (c2 - 128))%N :: utf8_decode r'
        | _ => []
        end
      else
        match r with
        | c1 :: c2 :: c3 :: r' =>
            ((b - 240) * 262144 + (c1 - 128) * 4096 + (c2 - 128) * 64 + (c3 - 128))%N
              :: utf8_decode r'
        | _ => []
        end
  end.

Definition u (s : string) : pystr :=
  utf8_decode (map N_of_ascii (list_ascii_of_string s)).

(** [str.encode()]: the UTF-8 bytes of a string. *)
Definition utf8_encode_char (c : char) : list N :=
  if (c <? 128)%N then [c]
  else if (c <? 2048)%N then [192 + c / 64; 128 + c mod 64]%N
  else if (c <? 65536)%N then [224 + c / 4096; 128 + (c / 64) mod 64; 128 + c mod 64]%N
  else [240 + c / 262144; 128 + (c / 4096) mod 64; 128 + (c / 64) mod 64; 128 + c mod 64]%N.

Definition encode (s : pystr) : list N := flat_map utf8_encode_char s.

(** *** Character tables

    The tables are Unicode's for U+0000..U+00FF, the characters of German
    text.  Above that range the white-space table is complete, [lower]
    knows the four letters whose lower case is a Latin-1 letter, and every
    other code point counts as a caseless symbol: right for the euro sign
    and typographic punctuation, not for the letters and digits of other
    scripts, which Python's [\w], [\d], [str.lower], [int()] and [float()]
    know as well (the first decimal digit outside ASCII is U+0660).  A
    statement that depends on how such characters are read is stated for
    the texts without them. *)

Definition in_range (lo hi c : N) : bool := ((lo <=? c) && (c <=? hi))%N.

(** [\d] *)
Definition is_digit (c : char) : bool := in_range 48 57 c.

(** [str.isspace], [\s], and what [str.strip()] removes. *)
Definition is_space (c : char) : bool :=
  in_range 9 13 c || in_range 28 32 c || (c =? 133)%N || (c =? 160)%N
  || (c =? 5760)%N || in_range 8192 8202 c || (c =? 8232)%N || (c =? 8233)%N
  || (c =? 8239)%N || (c =? 8287)%N || (c =? 12288)%N.

(** [\w]: alphanumeric or underscore. *)
Definition is_word (c : char) : bool :=
  is_digit c || in_range 65 90 c || in_range 97 122 c || (c =? 95)%N
  || (c =? 170)%N || (c =? 178)%N || (c =? 179)%N || (c =? 181)%N
  || (c =? 185)%N || (c =? 186)%N || in_range 188 190 c
  || in_range 192 214 c || in_range 216 246 c || in_range 248 255 c.

Definition lower_char (c : char) : char :=
  if in_range 65 90 c then (c + 32)%N
  else if in_range 192 214 c || in_range 216 222 c then (c + 32)%N
  else if (c =? 376)%N then 255%N
  else if (c =? 7838)%N then 223%N
  else if (c =? 8490)%N then 107%N
  else if (c =? 8491)%N then 229%N
  else c.

(** [str.lower()] *)
Definition lower (s : pystr) : pystr := map lower_char s.

(** *** String operations *)

Definition str_eqb (a b : pystr) : bool := bool_decide (a = b).

Fixpoint starts_with (p s : pystr) : bool :=
  match p, s with
  | [], _ => true
  | a :: p', b :: s' => (a =? b)%N && starts_with p' s'
  | _ :: _, [] => false
  end.

(** [needle in hay] *)
Fixpoint contains (needle hay : pystr) : bool :=
  starts_with needle hay
  || match hay with
     | [] => false
     | _ :: hay' => contains needle hay'
     end.

(** [hay.find(needle)], the index of the first occurrence. *)
Fixpoint find_from (needle hay : pystr) (i : nat) : option nat :=
  if starts_with needle hay then Some i
  else match hay with
       | [] => None
       | _ :: hay' => find_from needle hay' (S i)
       end.

Definition find (needle hay : pystr) : option nat := find_from needle hay 0.

(** [s.replace(old, new)] for a non-empty [old]: left to right, without
    overlap. *)
Fixpoint replace_fuel (fuel : nat) (old new s : pystr) : pystr :=
  match fuel with
  | O => s
  | S fuel' =>
      match s with
      | [] => []
      | c :: s' =>
          if starts_with old s
          then new ++ replace_fuel fuel' old new (drop (length old) s)
          else c :: replace_fuel fuel' old new s'
      end
  end.

Definition replace (old new s : pystr) : pystr :=
  replace_fuel (length s) old new s.

Fixpoint lstrip (s : pystr) : pystr :=
  match s with
  | c :: s' => if is_space c then lstrip s' else s
  | [] => []
  end.
Definition rstrip (s : pystr) : pystr := rev (lstrip (rev s)).

(** [str.strip()] *)
Definition strip (s : pystr) : pystr := rstrip (lstrip s).

(** [sep.join(parts)] *)
Fixpoint join (sep : pystr) (parts : list pystr) : pystr :=
  match parts with
  | [] => []
  | [p] => p
  | p :: rest => p ++ sep ++ join sep rest
  end.

(** [s[i:j]] for [0 <= i]. *)
Definition slice (i j : nat) (s : pystr) : pystr := take (j - i) (drop i s).

(** Decimal digits of a natural number, as [str(n)] prints them. *)
Fixpoint digits_fuel (fuel : nat) (n : N) (acc : pystr) : pystr :=
  match fuel with
  | O => acc
  | S fuel' =>
      let acc' := (48 + n mod 10)%N :: acc in
      if (n <? 10)%N then acc' else digits_fuel fuel' (n / 10)%N acc'
  end.

Definition str_of_N (n : N) : pystr := digits_fuel (S (N.to_nat (N.log2 n))) n [].

(** [str(z)] for an [int]. *)
Definition str_of_Z (z : Z) : pystr :=
  if z <? 0 then 45%N :: str_of_N (Z.to_N (- z)) else str_of_N (Z.to_N z).

(** [any(k in text for k in keys)] *)
Definition any_in (keys : list pystr) (text : pystr) : bool :=
  existsb (fun k => contains k text) keys.

(** [x in xs] for a list or set of strings. *)
Definition mem (x : pystr) (xs : list pystr) : bool := existsb (str_eqb x) xs.

End Text.
Import Text.

(** ** Regular expressions

    The patterns of the source are written as syntax trees and run by a
    backtracking matcher with Python's priorities: alternatives from left to
    right, greedy repetition, the leftmost match first. *)

Module Re.

Inductive regex :=
| Eps
| Chr (c : char)
| Cls (p : char -> bool)
| Seq (a b : regex)
| Alt (a b : regex)
| Star (a : regex)
| Grp (i : nat) (a : regex)
| WordB.

(** A position in the subject: the character before it and what follows. *)
Record pos := mkpos { before : option char; rest : pystr }.

Definition caps := list (nat * pystr).

Definition word_at (c : option char) : bool :=
  match c with Some x => is_word x | None => false end.

Definition chr_eqb (ci : bool) (c x : char) : bool :=
  if ci then (lower_char c =? lower_char x)%N else (c =? x)%N.

(** [run ci r p cs k]: match [r] at [p], then hand the position reached and
    the groups captured to [k]; [ci] is [re.IGNORECASE]. *)
Fixpoint run {A} (ci : bool) (r : regex) (p : pos) (cs : caps)
    (k : pos -> caps -> option A) : option A :=
  match r with
  | Eps => k p cs
  | Chr c =>
      match rest p with
      | x :: s' => if chr_eqb ci c x then k (mkpos (Some x) s') cs else None
      | [] => None
      end
  | Cls f =>
      match rest p with
      | x :: s' => if f x then k (mkpos (Some x) s') cs else None
      | [] => None
      end
  | Seq a b => run ci a p cs (fun p' cs' => run ci b p' cs' k)
  | Alt a b =>
      match run ci a p cs k with
      | Some x => Some x
      | None => run ci b p cs k
      end
  | Star a =>
      (fix loop (n : nat) (p : pos) (cs : caps) : option A :=
         match n with
         | O => k p cs
         | S n' =>
             match run ci a p cs (fun p' cs' =>
                     if (length (rest p') <? length (rest p))%nat
                     then loop n' p' cs' else None) with
             | Some x => Some x
             | None => k p cs
             end
         end) (S (length (rest p))) p cs
  | Grp i a =>
      run ci a p cs (fun p' cs' =>
        k p' ((i, take (length (rest p) - length (rest p')) (rest p)) :: cs'))
  | WordB =>
      if xorb (word_at (before p)) (word_at (head (rest p))) then k p cs else None
  end.

(** One match: its text, its groups, and the position after it. *)
Record rmatch := mkmatch { whole : pystr; groups : caps; after : pos }.

Definition match_at (ci : bool) (r : regex) (p : pos) : option rmatch :=
  run ci r p [] (fun p' cs =>
    Some (mkmatch (take (length (rest p) - length (rest p')) (rest p)) cs p')).

(** [m.group(i)]; a group that took no part reads as the empty string, as in
    the lists [findall] returns. *)
Fixpoint group (i : nat) (cs : caps) : pystr :=
  match cs with
  | [] => []
  | (j, s) :: cs' => if (i =? j)%nat then s else group i cs'
  end.

Definition step (p : pos) : pos :=
  match rest p with
  | x :: s' => mkpos (Some x) s'
  | [] => p
  end.

(** Matches from left to right without overlap, as [finditer] yields them. *)
Fixpoint scan (fuel : nat) (ci : bool) (r : regex) (p : pos) : list rmatch :=
  match fuel with
  | O => []
  | S fuel' =>
      match match_at ci r p with
      | Some m =>
          m :: match whole m, rest p with
               | [], [] => []
               | [], _ :: _ => scan fuel' ci r (step p)
               | _ :: _, _ => scan fuel' ci r (after m)
               end
      | None =>
          match rest p with
          | [] => []
          | _ :: _ => scan fuel' ci r (step p)
          end
      end
  end.

Definition finditer (ci : bool) (r : regex) (s : pystr) : list rmatch :=
  scan (S (length s)) ci r (mkpos None s).

(** [re.search] *)
Definition search (ci : bool) (r : regex) (s : pystr) : option rmatch :=
  head (finditer ci r s).

(** [re.findall] for a pattern without a group: the matched texts. *)
Definition findall0 (ci : bool) (r : regex) (s : pystr) : list pystr :=
  map whole (finditer ci r s).

(** [re.findall] for a pattern with exactly one group: Python returns the
    text of that group, not of the whole match. *)
Definition findall1 (ci : bool) (r : regex) (s : pystr) : list pystr :=
  map (fun m => group 1 (groups m)) (finditer ci r s).

(** [re.sub(r, repl, s)] with a literal replacement. *)
Fixpoint sub_scan (fuel : nat) (r : regex) (repl : pystr) (p : pos) : pystr :=
  match fuel with
  | O => rest p
  | S fuel' =>
      match match_at false r p with
      | Some m =>
          match whole m, rest p with
          | [], [] => repl
          | [], x :: _ => repl ++ x :: sub_scan fuel' r repl (step p)
          | _ :: _, _ => repl ++ sub_scan fuel' r repl (after m)
          end
      | None =>
          match rest p with
          | [] => []
          | x :: _ => x :: sub_scan fuel' r repl (step p)
          end
      end
  end.

Definition sub (r : regex) (repl s : pystr) : pystr :=
  sub_scan (S (length s)) r repl (mkpos None s).

(** *** Pattern syntax *)

Fixpoint lit (s : pystr) : regex :=
  match s with
  | [] => Eps
  | [c] => Chr c
  | c :: s' => Seq (Chr c) (lit s')
  end.

Definition txt (s : string) : regex := lit (u s).

Fixpoint seqs (rs : list regex) : regex :=
  match rs with
  | [] => Eps
  | [r] => r
  | r :: rs' => Seq r (seqs rs')
  end.

Fixpoint alts (rs : list regex) : regex :=
  match rs with
  | [] => Eps
  | [r] => r
  | r :: rs' => Alt r (alts rs')
  end.

(** [a+], [a?], [a{n}], [a{n,}], [a{n,m}] *)
Definition plus (a : regex) : regex := Seq a (Star a).
Definition opt (a : regex) : regex := Alt a Eps.

Fixpoint rep (n : nat) (a : regex) : regex :=
  match n with
  | O => Eps
  | 1%nat => a
  | S n' => Seq a (rep n' a)
  end.

Definition rep_min (n : nat) (a : regex) : regex := Seq (rep n a) (Star a).

Fixpoint rep_upto (n : nat) (a : regex) : regex :=
  match n with
  | O => Eps
  | S n' => opt (Seq a (rep_upto n' a))
  end.

Definition rep_range (n m : nat) (a : regex) : regex :=
  Seq (rep n a) (rep_upto (m - n) a).

(** [.], [\d], [\w], [\s], [[lo-hi]] *)
Definition dot : regex := Cls (fun c => negb (c =? 10)%N).
Definition digit : regex := Cls is_digit.
Definition wordc : regex := Cls is_word.
Definition space : regex := Cls is_space.
Definition range (lo hi : string) : regex :=
  Cls (fun c => match u lo, u hi with
                | [a], [b] => in_range a b c
                | _, _ => false
                end).

End Re.

(** ** Numbers

    [int] is [Z].  [float] is binary64; comparisons between an [int] and a
    [float] are exact, as in CPython, through the float's value
    [m * 2^e]. *)

Module Num.

Inductive fvalue :=
| FNaN
| FInf (negative : bool)
| FFin (m e : Z).

Definition fvalue_of (f : float) : fvalue :=
  match Prim2SF f with
  | S754_zero _ => FFin 0 0
  | S754_infinity s => FInf s
  | S754_nan => FNaN
  | S754_finite s m e => FFin (if s then Z.neg m else Z.pos m) e
  end.

(** The order of [m * 2^e] and the integer [z]. *)
Definition cmp_fin (m e z : Z) : comparison :=
  if 0 <=? e then (m * 2 ^ e ?= z) else (m ?= z * 2 ^ (- e)).

(** [None] for a NaN, which is unordered. *)
Definition float_cmp_Z (f : float) (z : Z) : option comparison :=
  match fvalue_of f with
  | FNaN => None
  | FInf true => Some Lt
  | FInf false => Some Gt
  | FFin m e => Some (cmp_fin m e z)
  end.

(** [int(f)]: truncation toward zero; [None] where Python raises. *)
Definition trunc (f : float) : option Z :=
  match fvalue_of f with
  | FFin m e => Some (if 0 <=? e then m * 2 ^ e else Z.quot m (2 ^ (- e)))
  | _ => None
  end.

(** [round(f)]: to the nearest integer, ties to the even one. *)
Definition round_half_even (f : float) : option Z :=
  match fvalue_of f with
  | FFin m e =>
      Some (if 0 <=? e then m * 2 ^ e
            else let d := 2 ^ (- e) in
                 let q := m / d in
                 let r := m mod d in
                 if (d <? 2 * r) || ((2 * r =? d) && Z.odd q) then q + 1 else q)
  | _ => None
  end.

(** The binary64 nearest to [n / d] for [0 <= n] and [0 < d], ties to even. *)
Definition nearest_pos (n d : Z) : float :=
  if n =? 0 then 0%float
  else
    let e0 := Z.log2 n - Z.log2 d - 53 in
    let q0 := if 0 <=? e0 then n / (d * 2 ^ e0) else (n * 2 ^ (- e0)) / d in
    let e1 := if 2 ^ 53 <=? q0 then e0 + 1 else e0 in
    let e := Z.max e1 (-1074) in
    let num := if 0 <=? e then n else n * 2 ^ (- e) in
    let den := if 0 <=? e then d * 2 ^ e else d in
    let q := num / den in
    let r := num mod den in
    let q' := if (den <? 2 * r) || ((2 * r =? den) && Z.odd q) then q + 1 else q in
    Z.ldexp (of_uint63 (Uint63.of_Z q')) e.

Definition nearest (n d : Z) : float :=
  if n <? 0 then (- nearest_pos (- n) d)%float else nearest_pos n d.

(** [float(z)] and the true division [a / b] of two [int]s. *)
Definition float_of_Z (z : Z) : float := nearest z 1.

Definition true_div (a b : Z) : option float :=
  if b =? 0 then None
  else Some (if b <? 0 then nearest (- a) (- b) else nearest a b).

(** *** [repr] of a float: the shortest digits that read back as it *)

(** [cmp_scaled a b k c]: the order of [a / b] and [c * 10^k]. *)
Definition cmp_scaled (a b k c : Z) : comparison :=
  if 0 <=? k then (a ?= c * 10 ^ k * b) else (a * 10 ^ (- k) ?= c * b).

(** The largest [p] with [10^p <= a / b], searched from a close guess. *)
Fixpoint adjust_log10 (fuel : nat) (a b p : Z) : Z :=
  match fuel with
  | O => p
  | S fuel' =>
      match cmp_scaled a b p 1 with
      | Lt => adjust_log10 fuel' a b (p - 1)
      | _ =>
          match cmp_scaled a b (p + 1) 1 with
          | Lt => p
          | _ => adjust_log10 fuel' a b (p + 1)
          end
      end
  end.

Definition floor_log10 (a b : Z) : Z :=
  adjust_log10 8 a b (((Z.log2 a - Z.log2 b) * 30103) / 100000).

(** [floor ((a / b) / 10^k)] *)
Definition floor_scaled (a b k : Z) : Z :=
  if 0 <=? k then a / (b * 10 ^ k) else (a * 10 ^ (- k)) / b.

(** The digits [D] and exponent [k] with [D * 10^k] inside the rounding
    interval [(lo, hi)] of the float [v] (all three over the denominator
    [b]), for the fewest digits, and nearest to [v] among those. *)
Fixpoint shortest (fuel : nat) (n : Z) (lo v hi b p : Z) (closed : bool)
    : Z * Z :=
  let k := p - n + 1 in
  let dl := floor_scaled v b k in
  let inside (c : Z) :=
    match cmp_scaled lo b k c, cmp_scaled hi b k c with
    | Lt, Gt => true
    | Eq, Gt | Lt, Eq => closed
    | _, _ => false
    end in
  (* twice the distance to [v], in units of [10^k / b] *)
  let below := if 0 <=? k then v - dl * 10 ^ k * b else v * 10 ^ (- k) - dl * b in
  let unit := if 0 <=? k then 10 ^ k * b else b in
  let pick :=
    match inside dl, inside (dl + 1) with
    | true, true =>
        if (2 * below <? unit) || ((2 * below =? unit) && Z.even dl)
        then Some dl else Some (dl + 1)
    | true, false => Some dl
    | false, true => Some (dl + 1)
    | false, false => None
    end in
  match pick, fuel with
  | Some d, _ => (d, k)
  | None, O => (dl, k)
  | None, S fuel' => shortest fuel' (n + 1) lo v hi b p closed
  end.

Fixpoint strip_zeros (fuel : nat) (d k : Z) : Z * Z :=
  match fuel with
  | O => (d, k)
  | S fuel' =>
      if (d mod 10 =? 0) && negb (d =? 0) then strip_zeros fuel' (d / 10) (k + 1)
      else (d, k)
  end.

(** The digits of a positive float and the position of the decimal point
    before, inside or after them. *)
Definition digits_of (m e : Z) : pystr * Z :=
  let boundary := (m =? 2 ^ 52) && (-1074 <? e) in
  let s := e - 2 in
  let scale := if 0 <=? s then 2 ^ s else 1 in
  let b := if 0 <=? s then 1 else 2 ^ (- s) in
  let v := 4 * m * scale in
  let lo := (if boundary then 4 * m - 1 else 4 * m - 2) * scale in
  let hi := (4 * m + 2) * scale in
  let p := floor_log10 v b in
  let '(d, k) := shortest 17 1 lo v hi b p (Z.even m) in
  let '(d, k) := strip_zeros 20 d k in
  let ds := str_of_N (Z.to_N d) in
  (ds, k + Z.of_nat (length ds)).

Definition zeros (n : Z) : pystr := repeat 48%N (Z.to_nat n).

Definition format_digits (ds : pystr) (decpt : Z) : pystr :=
  if (decpt <=? -4) || (16 <? decpt) then
    let x := decpt - 1 in
    let xs := str_of_N (Z.to_N (Z.abs x)) in
    take 1 ds
    ++ (match drop 1 ds with [] => [] | r => 46%N :: r end)
    ++ [101%N; (if x <? 0 then 45%N else 43%N)]
    ++ (if (length xs <? 2)%nat then 48%N :: xs else xs)
  else if decpt <=? 0 then
    [48%N; 46%N] ++ zeros (- decpt) ++ ds
  else if Z.of_nat (length ds) <=? decpt then
    ds ++ zeros (decpt - Z.of_nat (length ds)) ++ [46%N; 48%N]
  else
    take (Z.to_nat decpt) ds ++ 46%N :: drop (Z.to_nat decpt) ds.

(** [repr(f)] and [str(f)] *)
Definition float_repr (f : float) : pystr :=
  match Prim2SF f with
  | S754_nan => u "nan"
  | S754_infinity s => if s then u "-inf" else u "inf"
  | S754_zero s => if s then u "-0.0" else u "0.0"
  | S754_finite s m e =>
      let '(ds, decpt) := digits_of (Z.pos m) e in
      (if s then [45%N] else []) ++ format_digits ds decpt
  end.

(** *** [int(s)] and [float(s)] for a string *)

(** A run of digits, single underscores allowed between two digits; the
    digits read and the rest. *)
Fixpoint digit_run (s : pystr) (acc : list Z) (after_digit : bool)
    : list Z * pystr :=
  match s with
  | c :: s' =>
      if is_digit c then digit_run s' (acc ++ [Z.of_N c - 48]) true
      else if (c =? 95)%N && after_digit then
        match s' with
        | c' :: _ => if is_digit c' then digit_run s' acc false else (acc, s)
        | [] => (acc, s)
        end
      else (acc, s)
  | [] => (acc, s)
  end.

Definition horner (ds : list Z) : Z := fold_left (fun a d => 10 * a + d) ds 0.

Definition split_sign (s : pystr) : bool * pystr :=
  match s with
  | 45%N :: s' => (true, s')
  | 43%N :: s' => (false, s')
  | _ => (false, s)
  end.

(** [sys.get_int_max_str_digits()]: the longest run of digits that [int()]
    reads, 4300 unless the interpreter is told otherwise (CPython from 3.11
    on, and the later releases of 3.7 to 3.10). *)
Definition max_str_digits : Z := 4300.

(** What [int(s)] makes of a string: the number, or one of its two
    [ValueError]s.  A misplaced underscore is found while the digits are
    counted, before the limit is tested; anything else behind the digits is
    found after it. *)
Inductive int_reading :=
| IntValue (z : Z)
| TooManyDigits (digits : Z)
| NotAnInt.

Definition read_int (s : pystr) : int_reading :=
  let '(neg, body) := split_sign (strip s) in
  let '(ds, rest) := digit_run body [] false in
  match rest with
  | 95%N :: _ => NotAnInt
  | _ =>
      if max_str_digits <? Z.of_nat (length ds) then TooManyDigits (Z.of_nat (length ds))
      else
        match ds, rest with
        | _ :: _, [] => IntValue (if neg then - horner ds else horner ds)
        | _, _ => NotAnInt
        end
  end.

(** [int(s)]; [None] is the [ValueError]. *)
Definition int_of_str (s : pystr) : option Z :=
  match read_int s with
  | IntValue z => Some z
  | _ => None
  end.

(** [float(s)]; [None] is the [ValueError]. *)
Definition float_of_str (s : pystr) : option float :=
  let '(neg, body) := split_sign (strip s) in
  let signed (f : float) := if neg then (- f)%float else f in
  let low := lower body in
  if str_eqb low (u "inf") || str_eqb low (u "infinity") then Some (signed infinity)
  else if str_eqb low (u "nan") then Some nan
  else
    let '(ip, r1) := digit_run body [] false in
    let '(fp, r2) :=
      match r1 with
      | 46%N :: r => digit_run r [] false
      | _ => ([], r1)
      end in
    let dotted := match r1 with 46%N :: _ => true | _ => false end in
    match ip ++ fp with
    | [] => None
    | ds =>
        let mant := horner ds in
        let fl := Z.of_nat (length fp) in
        let finish (x : Z) :=
          let k := x - fl in
          Some (signed (if 0 <=? k then nearest_pos (mant * 10 ^ k) 1
                        else nearest_pos mant (10 ^ (- k)))) in
        match r2 with
        | [] => finish 0
        | c :: r =>
            if (c =? 101)%N || (c =? 69)%N then
              let '(xneg, xbody) := split_sign r in
              match digit_run xbody [] false with
              | ((_ :: _) as xs, []) => finish (if xneg then - horner xs else horner xs)
              | _ => None
              end
            else None
        end
    end.

End Num.

(** ** MD5

    [hashlib.md5(data).hexdigest()], after RFC 1321, over 32-bit words held
    in [Z]. *)

Module MD5.

Definition mask : Z := 2 ^ 32 - 1.
Definition add32 (a b : Z) : Z := (a + b) mod 2 ^ 32.
Definition rotl (x c : Z) : Z :=
  Z.lor (Z.land (Z.shiftl x c) mask) (Z.shiftr x (32 - c)).
Definition not32 (x : Z) : Z := Z.lxor x mask.

Definition K : list Z :=
  [ 3614090360; 3905402710; 606105819; 3250441966;
    4118548399; 1200080426; 2821735955; 4249261313;
    1770035416; 2336552879; 4294925233; 2304563134;
    1804603682; 4254626195; 2792965006; 1236535329;
    4129170786; 3225465664; 643717713; 3921069994;
    3593408605; 38016083; 3634488961; 3889429448;
    568446438; 3275163606; 4107603335; 1163531501;
    2850285829; 4243563512; 1735328473; 2368359562;
    4294588738; 2272392833; 1839030562; 4259657740;
    2763975236; 1272893353; 4139469664; 3200236656;
    681279174; 3936430074; 3572445317; 76029189;
    3654602809; 3873151461; 530742520; 3299628645;
    4096336452; 1126891415; 2878612391; 4237533241;
    1700485571; 2399980690; 4293915773; 2240044497;
    1873313359; 4264355552; 2734768916; 1309151649;
    4149444226; 3174756917; 718787259; 3951481745 ].

Definition shifts : list Z :=
  [ 7; 12; 17; 22; 7; 12; 17; 22; 7; 12; 17; 22; 7; 12; 17; 22;
    5; 9; 14; 20; 5; 9; 14; 20; 5; 9; 14; 20; 5; 9; 14; 20;
    4; 11; 16; 23; 4; 11; 16; 23; 4; 11; 16; 23; 4; 11; 16; 23;
    6; 10; 15; 21; 6; 10; 15; 21; 6; 10; 15; 21; 6; 10; 15; 21 ].

Definition nthZ (l : list Z) (i : nat) : Z := nth i l 0.

(** Little-endian bytes of a word, and back. *)
Fixpoint le_bytes (n : nat) (x : Z) : list Z :=
  match n with
  | O => []
  | S n' => x mod 256 :: le_bytes n' (x / 256)
  end.

Fixpoint words (fuel : nat) (bs : list Z) : list Z :=
  match fuel, bs with
  | S fuel', b0 :: b1 :: b2 :: b3 :: r =>
      (b0 + 256 * b1 + 65536 * b2 + 16777216 * b3) :: words fuel' r
  | _, _ => []
  end.

Definition pad (msg : list Z) : list Z :=
  let n := Z.of_nat (length msg) in
  let zeros := Z.to_nat ((55 - n) mod 64) in
  msg ++ 128 :: repeat 0 zeros ++ le_bytes 8 (8 * n).

Definition round (m : list Z) (st : Z * Z * Z * Z) (i : nat) : Z * Z * Z * Z :=
  let '(a, b, c, d) := st in
  let zi := Z.of_nat i in
  let '(f, g) :=
    if (i <? 16)%nat then (Z.lor (Z.land b c) (Z.land (not32 b) d), zi)
    else if (i <? 32)%nat then
      (Z.lor (Z.land d b) (Z.land (not32 d) c), (5 * zi + 1) mod 16)
    else if (i <? 48)%nat then (Z.lxor (Z.lxor b c) d, (3 * zi + 5) mod 16)
    else (Z.lxor c (Z.lor b (not32 d)), (7 * zi) mod 16) in
  let f' := add32 (add32 (add32 f a) (nthZ K i)) (nthZ m (Z.to_nat g)) in
  (d, add32 b (rotl f' (nthZ shifts i)), b, c).

Definition block (st : Z * Z * Z * Z) (m : list Z) : Z * Z * Z * Z :=
  let '(a0, b0, c0, d0) := st in
  let '(a, b, c, d) := fold_left (round m) (seq 0 64) st in
  (add32 a0 a, add32 b0 b, add32 c0 c, add32 d0 d).

Fixpoint blocks (fuel : nat) (ws : list Z) : list (list Z) :=
  match fuel, ws with
  | S fuel', _ :: _ => take 16 ws :: blocks fuel' (drop 16 ws)
  | _, _ => []
  end.

Definition digest (msg : list Z) : list Z :=
  let bs := pad msg in
  let ws := words (length bs) bs in
  let '(a, b, c, d) :=
    fold_left block (blocks (length ws) ws)
      (1732584193, 4023233417, 2562383102, 271733878) in
  le_bytes 4 a ++ le_bytes 4 b ++ le_bytes 4 c ++ le_bytes 4 d.

Definition hex_digit (x : Z) : N :=
  Z.to_N (if x <? 10 then 48 + x else 87 + x).

Definition hexdigest (msg : list N) : pystr :=
  flat_map (fun b => [hex_digit (b / 16); hex_digit (b mod 16)])
           (digest (map Z.of_N msg)).

End MD5.

(** ** Python values *)

Module Py.

(** The values a field of a record can hold.  [PObj] is any other object
    (a [datetime], a database id): it has a class name and a [str()], it is
    true, it is neither number nor string, and [json.dumps(..., default=str)]
    writes its [str()]. *)
Inductive value :=
| PNone
| PBool (b : bool)
| PInt (z : Z)
| PFloat (f : float)
| PStr (s : pystr)
| PObj (cls text : pystr).

(** A [dict] with string keys, in insertion order. *)
Definition dict := list (pystr * value).

(** [d.get(k)]; [k in d] is [has k d], and [d[k]] is read only behind it. *)
Fixpoint get (k : pystr) (d : dict) : option value :=
  match d with
  | [] => None
  | (k', v) :: d' => if str_eqb k k' then Some v else get k d'
  end.

Definition has (k : pystr) (d : dict) : bool :=
  match get k d with Some _ => true | None => false end.

(** *** Exceptions *)

Inductive exn_class := TypeError | ValueError | OverflowError | AttributeError.

Record exn := Raise { exn_cls : exn_class; exn_msg : pystr }.

Inductive res (A : Type) :=
| Ok (a : A)
| Err (e : exn).
Arguments Ok {A} a.
Arguments Err {A} e.

Definition bind {A B} (m : res A) (k : A -> res B) : res B :=
  match m with
  | Ok a => k a
  | Err e => Err e
  end.

Notation "'do' x <- m ; k" := (bind m (fun x => k))
  (at level 10, x name, m at level 100, k at level 200).

(** *** Built-in behaviour *)

Definition type_name (v : value) : pystr :=
  match v with
  | PNone => u "NoneType"
  | PBool _ => u "bool"
  | PInt _ => u "int"
  | PFloat _ => u "float"
  | PStr _ => u "str"
  | PObj cls _ => cls
  end.

(** [bool(v)] *)
Definition truthy (v : value) : bool :=
  match v with
  | PNone => false
  | PBool b => b
  | PInt z => negb (z =? 0)
  | PFloat f => negb (PrimFloat.eqb f 0)
  | PStr s => match s with [] => false | _ => true end
  | PObj _ _ => true
  end.

(** [isinstance(v, int)] ([bool] is a subclass of [int]), and
    [isinstance(v, (int, float))]. *)
Definition is_int (v : value) : bool :=
  match v with PBool _ | PInt _ => true | _ => false end.

Definition is_number (v : value) : bool :=
  match v with PBool _ | PInt _ | PFloat _ => true | _ => false end.

(** [str(v)], which is also what an f-string writes for [{v}].  (An [int]
    of more than 4300 digits, which CPython refuses to write with a
    [ValueError], is written out here.) *)
Definition str (v : value) : pystr :=
  match v with
  | PNone => u "None"
  | PBool b => if b then u "True" else u "False"
  | PInt z => str_of_Z z
  | PFloat f => Num.float_repr f
  | PStr s => s
  | PObj _ text => text
  end.

(** [int(v)] for a value that is not an [int]: only whether and how it
    fails matters to the callers. *)
Definition int_conv (v : value) : res unit :=
  match v with
  | PBool _ | PInt _ => Ok tt
  | PFloat f =>
      match Num.fvalue_of f with
      | Num.FFin _ _ => Ok tt
      | Num.FNaN => Err (Raise ValueError (u "cannot convert float NaN to integer"))
      | Num.FInf _ =>
          Err (Raise OverflowError (u "cannot convert float infinity to integer"))
      end
  | PStr s =>
      match Num.int_of_str s with
      | Some _ => Ok tt
      | None => Err (Raise ValueError (u "invalid literal for int() with base 10"))
      end
  | PNone | PObj _ _ =>
      Err (Raise TypeError
             (u "int() argument must be a string, a bytes-like object or a real number"))
  end.

(** [float(v)], likewise. *)
Definition float_conv (v : value) : res unit :=
  match v with
  | PBool _ | PInt _ | PFloat _ => Ok tt
  | PStr s =>
      match Num.float_of_str s with
      | Some _ => Ok tt
      | None => Err (Raise ValueError (u "could not convert string to float"))
      end
  | PNone | PObj _ _ =>
      Err (Raise TypeError (u "float() argument must be a string or a real number"))
  end.

(** The order of a value and an [int]: [None] when the types are not
    ordered (a [TypeError]), [Some None] for a NaN. *)
Definition cmp_int (v : value) (z : Z) : option (option comparison) :=
  match v with
  | PBool b => Some (Some ((if b then 1 else 0) ?= z))
  | PInt x => Some (Some (x ?= z))
  | PFloat f => Some (Num.float_cmp_Z f z)
  | _ => None
  end.

Definition not_supported (op l r : pystr) : exn :=
  Raise TypeError
    ([39%N] ++ op ++ u "' not supported between instances of '" ++ l
     ++ u "' and '" ++ r ++ [39%N]).

Definition holds (ok : comparison -> bool) (c : option comparison) : bool :=
  match c with Some c => ok c | None => false end.

(** [z <= v] *)
Definition int_le (z : Z) (v : value) : res bool :=
  match cmp_int v z with
  | Some c => Ok (holds (fun c => match c with Lt => false | _ => true end) c)
  | None => Err (not_supported (u "<=") (u "int") (type_name v))
  end.

(** [v <= z] *)
Definition le_int (v : value) (z : Z) : res bool :=
  match cmp_int v z with
  | Some c => Ok (holds (fun c => match c with Gt => false | _ => true end) c)
  | None => Err (not_supported (u "<=") (type_name v) (u "int"))
  end.

(** [v < z] *)
Definition lt_int (v : value) (z : Z) : res bool :=
  match cmp_int v z with
  | Some c => Ok (holds (fun c => match c with Lt => true | _ => false end) c)
  | None => Err (not_supported (u "<") (type_name v) (u "int"))
  end.

(** [v > z] *)
Definition gt_int (v : value) (z : Z) : res bool :=
  match cmp_int v z with
  | Some c => Ok (holds (fun c => match c with Gt => true | _ => false end) c)
  | None => Err (not_supported (u ">") (type_name v) (u "int"))
  end.

(** [z != v]: values of unrelated types are unequal. *)
Definition int_ne (z : Z) (v : value) : bool :=
  match cmp_int v z with
  | Some (Some Eq) => false
  | _ => true
  end.

(** *** [json.dumps(d, default=str)] *)

Definition hex4 (c : N) : pystr :=
  map (fun i => MD5.hex_digit (Z.of_N ((c / 16 ^ i) mod 16))) [3; 2; 1; 0]%N.

Definition json_escape (c : char) : pystr :=
  if (c =? 34)%N then u "\" ++ [34%N]
  else if (c =? 92)%N then u "\\"
  else if (c =? 10)%N then u "\n"
  else if (c =? 13)%N then u "\r"
  else if (c =? 9)%N then u "\t"
  else if (c =? 8)%N then u "\b"
  else if (c =? 12)%N then u "\f"
  else if in_range 32 126 c then [c]
  else if (c <? 65536)%N then u "\u" ++ hex4 c
  else
    let v := (c - 65536)%N in
    u "\u" ++ hex4 (55296 + v / 1024) ++ u "\u" ++ hex4 (56320 + v mod 1024).

Definition json_string (s : pystr) : pystr :=
  [34%N] ++ flat_map json_escape s ++ [34%N].

Definition json_value (v : value) : pystr :=
  match v with
  | PNone => u "null"
  | PBool b => if b then u "true" else u "false"
  | PInt z => str_of_Z z
  | PFloat f =>
      match Num.fvalue_of f with
      | Num.FNaN => u "NaN"
      | Num.FInf s => if s then u "-Infinity" else u "Infinity"
      | Num.FFin _ _ => Num.float_repr f
      end
  | PStr s => json_string s
  | PObj _ text => json_string text
  end.

Definition json_item (kv : pystr * value) : pystr :=
  json_string (fst kv) ++ u ": " ++ json_value (snd kv).

Definition json_dumps (d : dict) : pystr :=
  u "{" ++ join (u ", ") (map json_item d) ++ u "}".

(** [sort_keys=True]: the items in the order of their keys. *)
Fixpoint str_ltb (a b : pystr) : bool :=
  match a, b with
  | _, [] => false
  | [], _ :: _ => true
  | x :: a', y :: b' => (x <? y)%N || ((x =? y)%N && str_ltb a' b')
  end.

Fixpoint insert_sorted (kv : pystr * value) (d : dict) : dict :=
  match d with
  | [] => [kv]
  | kv' :: d' =>
      if str_ltb (fst kv) (fst kv') then kv :: d else kv' :: insert_sorted kv d'
  end.

Definition sort_items (d : dict) : dict := fold_right insert_sorted [] d.

Definition json_dumps_sorted (d : dict) : pystr := json_dumps (sort_items d).

End Py.

(** ** The fact checker of the complete system
    ([gmunden_complete_system/backend/fact_checker.py]) *)

Module FactChecker.
Import Py.

(** [FactCheckResult] *)
Record FactCheckResult := {
  is_verified : bool;
  confidence : float;
  source : pystr;
  verification_method : pystr;
  issues : list pystr;
  metadata : option (nat * pystr)   (* checks_performed, query *)
}.

(** *** The known-facts database

    The two tables, each with a UNIQUE hash column, so that
    [INSERT OR REPLACE] is an insertion into a map.  The row ids and the
    date columns (the wall clock) are left out.  [FailingDb] is a
    connection whose statements raise (closed, locked, unreadable file);
    [NoDb] is [known_facts_db = None], the state [_setup_known_facts_db]
    leaves behind when it fails. *)

Record FactRow := {
  fact_data : pystr;
  fact_method : pystr;
  fact_confidence : float;
  fact_source : pystr
}.

Record SuspiciousRow := {
  entry_data : pystr;
  suspicion_reason : pystr;
  resolved : bool
}.

Record Store := {
  verified_facts : gmap pystr FactRow;
  suspicious_entries : gmap pystr SuspiciousRow
}.

Inductive Db :=
| NoDb
| FailingDb
| OpenDb (st : Store).

Definition empty_store : Store :=
  {| verified_facts := ∅; suspicious_entries := ∅ |}.

(** *** [_initialize_fact_rules] *)

(** A suspicious pattern: its source text and its syntax. *)
Definition suspicious_patterns : list (string * Re.regex) :=
  let d := Re.digit in
  [ ("betrag.*[1-9]\d{8,}",
     Re.seqs [Re.txt "betrag"; Re.Star Re.dot; Re.range "1" "9"; Re.rep_min 8 d]);
    ("betrag.*-[1-9]\d{7,}",
     Re.seqs [Re.txt "betrag"; Re.Star Re.dot; Re.txt "-"; Re.range "1" "9";
              Re.rep_min 7 d]);
    ("jahr.*(19[0-8]\d|20[3-9]\d)",
     Re.seqs [Re.txt "jahr"; Re.Star Re.dot;
              Re.Grp 1 (Re.Alt (Re.seqs [Re.txt "19"; Re.range "0" "8"; d])
                               (Re.seqs [Re.txt "20"; Re.range "3" "9"; d]))]);
    ("datum.*19[0-8]\d",
     Re.seqs [Re.txt "datum"; Re.Star Re.dot; Re.txt "19"; Re.range "0" "8"; d]);
    ("beschreibung.*(alien|ufo|zeitreise|magie)",
     Re.seqs [Re.txt "beschreibung"; Re.Star Re.dot;
              Re.Grp 1 (Re.alts [Re.txt "alien"; Re.txt "ufo"; Re.txt "zeitreise";
                                 Re.txt "magie"])]);
    ("beschreibung.*(milliarde|billion)",
     Re.seqs [Re.txt "beschreibung"; Re.Star Re.dot;
              Re.Grp 1 (Re.Alt (Re.txt "milliarde") (Re.txt "billion"))]);
    ("kategorie.*(weltraum|mars|mond)",
     Re.seqs [Re.txt "kategorie"; Re.Star Re.dot;
              Re.Grp 1 (Re.alts [Re.txt "weltraum"; Re.txt "mars"; Re.txt "mond"])])
  ]%string.

Inductive valid_range :=
| Between (lo hi : Z)            (* a tuple *)
| OneOf (values : list pystr).   (* a set *)

(** The upper bound of [jahr] is [datetime.now().year + 1], read once when
    the checker is built. *)
Definition max_single_expense : Z := 10000000.

Definition valid_ranges (year_now : Z) : list (pystr * valid_range) :=
  [ (u "jahr", Between 2000 (year_now + 1));
    (u "betrag", Between (-1000000) max_single_expense);
    (u "kategorie",
     OneOf (map u ["infrastruktur"; "personal"; "kultur"; "umwelt";
                   "bildung"; "soziales"; "verwaltung"; "sonstiges"]%string)) ].

(** [plausibility_rules]: category, [min_amount], [max_amount]. *)
Definition plausibility_rules : list (pystr * (Z * Z)) :=
  [ (u "personal", (1000, 500000));
    (u "infrastruktur", (100, 5000000));
    (u "kultur", (50, 100000)) ].

Fixpoint rule_of (category : pystr) (rules : list (pystr * (Z * Z)))
    : option (Z * Z) :=
  match rules with
  | [] => None
  | (c, r) :: rules' => if str_eqb category c then Some r else rule_of category rules'
  end.

(** The checker object: the year it was built in and its database. *)
Record Checker := {
  year_now : Z;
  known_facts_db : Db
}.

(** What a check returns: [{'valid': ..., 'issues': ...}]. *)
Record check := { valid : bool; check_issues : list pystr }.

Definition check_of (found : list pystr) : check :=
  {| valid := match found with [] => true | _ => false end; check_issues := found |}.

(** *** [_check_data_structure] *)

Definition required_fields : list pystr := [u "beschreibung"].

Definition missing_or_empty (result : dict) (field : pystr) : bool :=
  match get field result with
  | Some v => negb (truthy v)
  | None => true
  end.

Definition _check_data_structure (result : dict) : res check :=
  let issues1 :=
    flat_map (fun field =>
                if missing_or_empty result field
                then [u "Pflichtfeld '" ++ field ++ u "' fehlt oder leer"] else [])
             required_fields in
  do issues2 <-
    match get (u "jahr") result with
    | Some v =>
        if truthy v && negb (is_int v) then
          match int_conv v with
          | Ok _ => Ok []
          | Err (Raise ValueError _) | Err (Raise TypeError _) =>
              Ok [u "Jahr ist kein gültiger Integer"]
          | Err e => Err e
          end
        else Ok []
    | None => Ok []
    end;
  do issues3 <-
    match get (u "betrag") result with
    | Some PNone | None => Ok []
    | Some v =>
        if negb (is_number v) then
          match float_conv v with
          | Ok _ => Ok []
          | Err (Raise ValueError _) | Err (Raise TypeError _) =>
              Ok [u "Betrag ist keine gültige Zahl"]
          | Err e => Err e
          end
        else Ok []
    end;
  Ok (check_of (issues1 ++ issues2 ++ issues3)).

(** *** [_check_value_ranges] *)

Definition str_of_range (lo hi : Z) : pystr :=
  u "(" ++ str_of_Z lo ++ u ", " ++ str_of_Z hi ++ u ")".

(** One turn of the loop over [valid_ranges]: the issues it appends. *)
Definition range_issue (result : dict) (entry : pystr * valid_range)
    : res (list pystr) :=
  let '(field, range) := entry in
  match get field result with
  | None | Some PNone => Ok []
  | Some value =>
      match range with
      | Between lo hi =>
          do above <- int_le lo value;
          do inside <- (if above then le_int value hi else Ok false);
          Ok (if inside then []
              else [field ++ u " (" ++ str value ++ u ") außerhalb gültigen Bereichs "
                    ++ str_of_range lo hi])
      | OneOf values =>
          Ok (if mem (lower (str value)) (map lower values) then []
              else [field ++ u " ('" ++ str value ++ u "') nicht in gültigen Werten"])
      end
  end.

Fixpoint range_issues (result : dict) (ranges : list (pystr * valid_range))
    : res (list pystr) :=
  match ranges with
  | [] => Ok []
  | entry :: ranges' =>
      do here <- range_issue result entry;
      do later <- range_issues result ranges';
      Ok (here ++ later)
  end.

Definition _check_value_ranges (c : Checker) (result : dict) : res check :=
  do found <- range_issues result (valid_ranges (year_now c));
  Ok (check_of found).

Section Checks.

(** [datetime.fromisoformat(s).year], [None] when the call raises.  The
    accepted formats depend on the interpreter's version, and the checker
    only compares the year, so the parser is a parameter. *)
Variable fromisoformat_year : pystr -> option Z.

(** *** [_check_plausibility] *)

Definition suspicious_words : list pystr :=
  map u ["fake"; "test"; "dummy"; "beispiel"; "placeholder"]%string.

Definition amount_issues (result : dict) : res (list pystr) :=
  match get (u "kategorie") result, get (u "betrag") result with
  | Some kategorie, Some amount =>
      let category := lower (str kategorie) in
      match rule_of category plausibility_rules, amount with
      | None, _ | _, PNone => Ok []
      | Some (min_amount, max_amount), _ =>
          do low <- lt_int amount min_amount;
          do high <- gt_int amount max_amount;
          Ok ((if low
               then [u "Betrag " ++ str amount ++ u "€ zu niedrig für Kategorie '"
                     ++ category ++ u "'"] else [])
              ++ (if high
                  then [u "Betrag " ++ str amount ++ u "€ zu hoch für Kategorie '"
                        ++ category ++ u "'"] else []))
      end
  | _, _ => Ok []
  end.

Definition date_issues (result : dict) : list pystr :=
  match get (u "jahr") result, get (u "datum") result with
  | Some year, Some (PStr datum) =>
      match fromisoformat_year (replace (u "Z") (u "+00:00") datum) with
      | Some date_year =>
          if int_ne date_year year
          then [u "Jahr " ++ str year ++ u " stimmt nicht mit Datum " ++ datum
                ++ u " überein"]
          else []
      | None => []
      end
  | _, _ => []
  end.

Definition description_issues (result : dict) : list pystr :=
  match get (u "beschreibung") result with
  | Some v =>
      let desc := lower (str v) in
      (if (length (strip desc) <? 3)%nat then [u "Beschreibung zu kurz"] else [])
      ++ (if any_in suspicious_words desc
          then [u "Beschreibung enthält verdächtige Begriffe"] else [])
  | None => []
  end.

Definition _check_plausibility (result : dict) : res check :=
  do amounts <- amount_issues result;
  Ok (check_of (amounts ++ date_issues result ++ description_issues result)).

(** *** [_check_suspicious_patterns] *)

Definition _check_suspicious_patterns (result : dict) : check :=
  let result_str := lower (json_dumps result) in
  check_of
    (flat_map (fun pattern : string * Re.regex =>
                 match Re.search false (snd pattern) result_str with
                 | Some _ => [u "Verdächtiges Muster erkannt: " ++ u (fst pattern)]
                 | None => []
                 end)
              suspicious_patterns).

(** *** [_calculate_result_hash] *)

Definition hash_fields : list pystr :=
  [u "jahr"; u "kategorie"; u "beschreibung"; u "betrag"].

Definition hash_data (result : dict) : dict :=
  flat_map (fun field =>
              match get field result with
              | Some v => [(field, v)]
              | None => []
              end)
           hash_fields.

Definition hash_string (result : dict) : pystr :=
  json_dumps_sorted (hash_data result).

Definition _calculate_result_hash (result : dict) : pystr :=
  MD5.hexdigest (encode (hash_string result)).

(** *** [_find_similar_facts_confidence] *)

Definition _find_similar_facts_confidence (result : dict) : float :=
  if has (u "kategorie") result && has (u "jahr") result then 0.8%float
  else if has (u "kategorie") result || has (u "jahr") result then 0.6%float
  else 0.5%float.

(** *** [_check_consistency_with_known_facts]: confidence and issues *)

Definition _check_consistency_with_known_facts (c : Checker) (result : dict)
    : float * list pystr :=
  match known_facts_db c with
  | NoDb => (1.0%float, [])
  | FailingDb => (0.8%float, [])
  | OpenDb st =>
      let result_hash := _calculate_result_hash result in
      match verified_facts st !! result_hash with
      | Some verified_fact => (fact_confidence verified_fact, [])
      | None =>
          match suspicious_entries st !! result_hash with
          | Some entry =>
              if resolved entry then
                let similar := _find_similar_facts_confidence result in
                (similar,
                 if (0.8 <=? similar)%float then []
                 else [u "Keine ähnlichen verifizierten Fakten gefunden"])
              else
                (0.3%float,
                 [u "Bereits als verdächtig markiert: " ++ suspicion_reason entry])
          | None =>
              let similar := _find_similar_facts_confidence result in
              (similar,
               if (0.8 <=? similar)%float then []
               else [u "Keine ähnlichen verifizierten Fakten gefunden"])
          end
      end
  end.

(** *** [_check_query_relevance] *)

Definition word_pattern : Re.regex := Re.seqs [Re.WordB; Re.plus Re.wordc; Re.WordB].

(** [set(xs)], as the list of its distinct members. *)
Fixpoint to_set (xs : list pystr) : list pystr :=
  match xs with
  | [] => []
  | x :: xs' => if mem x xs' then to_set xs' else x :: to_set xs'
  end.

Definition stopwords : list pystr :=
  map u ["der"; "die"; "das"; "und"; "oder"; "für"; "von"; "mit"; "zu"; "in"; "auf"]%string.

Definition words_of (text : pystr) : list pystr :=
  List.filter (fun w => negb (mem w stopwords)) (to_set (Re.findall0 false word_pattern text)).

(** The [relevant] entry of the answer. *)
Definition _check_query_relevance (result : dict) (query : pystr) : bool :=
  let query_lower := lower query in
  let result_text :=
    lower (join (u " ") (map str (List.filter truthy (map snd result)))) in
  let query_words := words_of query_lower in
  let result_words := words_of result_text in
  match query_words with
  | [] => true
  | _ =>
      let matches := List.filter (fun w => mem w result_words) query_words in
      match Num.true_div (Z.of_nat (length matches)) (Z.of_nat (length query_words)) with
      | Some relevance_score => (0.3 <=? relevance_score)%float
      | None => true
      end
  end.

(** *** [_store_verified_fact] and [_log_suspicious_entry] *)

Definition _store_verified_fact (c : Checker) (result : dict)
    (verification_methods : list pystr) : Checker :=
  match known_facts_db c with
  | OpenDb st =>
      let row := {| fact_data := json_dumps result;
                    fact_method := join (u "+") verification_methods;
                    fact_confidence := 0.9%float;
                    fact_source := u "gmunden_fact_checker" |} in
      {| year_now := year_now c;
         known_facts_db :=
           OpenDb {| verified_facts :=
                       <[_calculate_result_hash result := row]> (verified_facts st);
                     suspicious_entries := suspicious_entries st |} |}
  | _ => c
  end.

Definition _log_suspicious_entry (c : Checker) (result : dict) (found : list pystr)
    : Checker :=
  match known_facts_db c with
  | OpenDb st =>
      let row := {| entry_data := json_dumps result;
                    suspicion_reason := join (u "; ") found;
                    resolved := false |} in
      {| year_now := year_now c;
         known_facts_db :=
           OpenDb {| verified_facts := verified_facts st;
                     suspicious_entries :=
                       <[_calculate_result_hash result := row]> (suspicious_entries st) |} |}
  | _ => c
  end.

(** *** [_verify_single_result] *)

Definition verification_methods : list pystr :=
  map u ["structural"; "range"; "plausibility"; "pattern"; "consistency"; "relevance"]%string.

(** The running pair [(issues, confidence)] after a check: a check that
    failed extends the issues and multiplies the confidence. *)
Definition penalise (failed : bool) (found : list pystr) (factor : float)
    (acc : list pystr * float) : list pystr * float :=
  if failed then (fst acc ++ found, (snd acc * factor)%float) else acc.

(** The body of the [try]: the issues and the confidence after the six
    checks, or the exception one of them raised. *)
Definition run_checks (c : Checker) (result : dict) (query : pystr)
    : res (list pystr * float) :=
  let acc := ([], 1.0%float) in
  do structural_check <- _check_data_structure result;
  let acc := penalise (negb (valid structural_check))
                      (check_issues structural_check) 0.7 acc in
  do range_check <- _check_value_ranges c result;
  let acc := penalise (negb (valid range_check)) (check_issues range_check) 0.6 acc in
  do plausibility_check <- _check_plausibility result;
  let acc := penalise (negb (valid plausibility_check))
                      (check_issues plausibility_check) 0.8 acc in
  let pattern_check := _check_suspicious_patterns result in
  let acc := penalise (negb (valid pattern_check)) (check_issues pattern_check) 0.3 acc in
  let consistency_check := _check_consistency_with_known_facts c result in
  let acc := penalise (fst consistency_check <? 1.0)%float (snd consistency_check)
                      (fst consistency_check) acc in
  let relevant := _check_query_relevance result query in
  let acc := penalise (negb relevant) [u "Ergebnis nicht relevant für Anfrage"] 0.9 acc in
  Ok acc.

Definition str_exn (e : exn) : pystr := exn_msg e.

Definition _verify_single_result (c : Checker) (result : dict) (query : pystr)
    : FactCheckResult * Checker :=
  match run_checks c result query with
  | Ok (found, conf) =>
      let verified := (0.7 <=? conf)%float && (length found <=? 2)%nat in
      let c' := if verified && (0.9 <=? conf)%float
                then _store_verified_fact c result verification_methods else c in
      ({| is_verified := verified;
          confidence := conf;
          source := u "gmunden_fact_checker";
          verification_method := join (u "+") verification_methods;
          issues := found;
          metadata := Some (length verification_methods, query) |}, c')
  | Err e =>
      ({| is_verified := false;
          confidence := 0.0%float;
          source := u "error";
          verification_method := u "error";
          issues := [u "Verifikationsfehler: " ++ str_exn e];
          metadata := None |}, c)
  end.

End Checks.

(** *** [verify_results]

    The loop writes into the result objects it was given.  A candidate is
    the [dict] with a flag telling whether it takes item assignment (a
    plain [dict] does; an immutable [dict] subclass raises [TypeError]).
    Each position of the batch is an object of its own.  After the call a
    field holds the value it had or one of the two dictionaries the loop
    attaches. *)

Record candidate := { fields : dict; writable : bool }.

(** [verification_stats] *)
Record stats := { total : nat; verified : nat; suspicious : nat; filtered : nat }.

Inductive field_value :=
| Plain (v : value)
  (* {'verified': True, 'confidence', 'verification_method', 'source'} *)
| FactCheckVerified (conf : float) (method src : pystr)
  (* {'verified': False, 'confidence', 'issues', 'warning'} *)
| FactCheckUnverified (conf : float) (found : list pystr) (warning : pystr)
| VerificationStats (s : stats).

Definition record := list (pystr * field_value).

Definition plain (d : dict) : record := map (fun kv => (fst kv, Plain (snd kv))) d.

(** [d[k] = v] on a dictionary: in place for a key it has, at the end for a
    new one. *)
Fixpoint set_item (k : pystr) (v : field_value) (d : record) : record :=
  match d with
  | [] => [(k, v)]
  | (k', v') :: d' => if str_eqb k k' then (k, v) :: d' else (k', v') :: set_item k v d'
  end.

Fixpoint item (k : pystr) (d : record) : option field_value :=
  match d with
  | [] => None
  | (k', v) :: d' => if str_eqb k k' then Some v else item k d'
  end.

(** [result[k] = v] on a candidate. *)
Definition assign (r : candidate) (k : pystr) (v : field_value) : res record :=
  if writable r then Ok (set_item k v (plain (fields r)))
  else Err (Raise TypeError (u "object does not support item assignment")).

(** The state of the loop: the list being built, the counters, the checker
    with its database, and the objects handled so far as the loop left
    them. *)
Record loop_state := {
  verified_results : list record;
  verification_stats : stats;
  checker : Checker;
  visited : list record
}.

Definition count_verified (s : stats) : stats :=
  {| total := total s; verified := S (verified s);
     suspicious := suspicious s; filtered := filtered s |}.
Definition count_suspicious (s : stats) : stats :=
  {| total := total s; verified := verified s;
     suspicious := S (suspicious s); filtered := filtered s |}.
Definition count_filtered (s : stats) : stats :=
  {| total := total s; verified := verified s;
     suspicious := suspicious s; filtered := S (filtered s) |}.

(** The annotation the loop attaches for an outcome, if it keeps the
    result. *)
Definition annotation (fc : FactCheckResult) : option field_value :=
  if is_verified fc then
    Some (FactCheckVerified (confidence fc) (verification_method fc) (source fc))
  else if (0.5 <? confidence fc)%float then
    Some (FactCheckUnverified (confidence fc) (issues fc)
            (u "Daten nicht vollständig verifiziert"))
  else None.

Section Batch.

Variable fromisoformat_year : pystr -> option Z.

(** One turn of the loop.  [inr] is an exception leaving the loop, with the
    state it leaves behind. *)
Definition loop_body (query : pystr) (s : loop_state) (result : candidate)
    : loop_state + exn * loop_state :=
  let '(fact_check, c) :=
    _verify_single_result fromisoformat_year (checker s) (fields result) query in
  match annotation fact_check with
  | Some note =>
      match assign result (u "_fact_check") note with
      | Ok annotated =>
          inl {| verified_results := verified_results s ++ [annotated];
                 verification_stats :=
                   (if is_verified fact_check then count_verified else count_suspicious)
                     (verification_stats s);
                 checker := c;
                 visited := visited s ++ [annotated] |}
      | Err e =>
          inr (e, {| verified_results := verified_results s;
                     verification_stats := verification_stats s;
                     checker := c;
                     visited := visited s |})
      end
  | None =>
      inl {| verified_results := verified_results s;
             verification_stats := count_filtered (verification_stats s);
             checker := _log_suspicious_entry c (fields result) (issues fact_check);
             visited := visited s ++ [plain (fields result)] |}
  end.

(** The [for] loop: how it ended, and the results it had not reached. *)
Fixpoint loop (query : pystr) (s : loop_state) (results : list candidate)
    : (loop_state + exn * loop_state) * list candidate :=
  match results with
  | [] => (inl s, [])
  | result :: results' =>
      match loop_body query s result with
      | inl s' => loop query s' results'
      | inr failure => (inr failure, results)
      end
  end.

(** What a call leaves behind: the list it returns, the checker, the
    statistics line it logged, and the exception its [except] caught. *)
Record outcome := {
  returned : list record;
  checker_after : Checker;
  logged_stats : option stats;
  caught : option exn
}.

Definition verify_results (c : Checker) (results : list candidate) (original_query : pystr)
    : outcome :=
  match results with
  | [] =>
      {| returned := []; checker_after := c; logged_stats := None; caught := None |}
  | _ :: _ =>
      let start := {| verified_results := [];
                      verification_stats :=
                        {| total := length results; verified := 0;
                           suspicious := 0; filtered := 0 |};
                      checker := c;
                      visited := [] |} in
      match loop original_query start results with
      | (inl s, _) =>
          {| returned :=
               match verified_results s with
               | [] => []
               | first :: others =>
                   set_item (u "_verification_stats")
                            (VerificationStats (verification_stats s)) first :: others
               end;
             checker_after := checker s;
             logged_stats := Some (verification_stats s);
             caught := None |}
      | (inr (e, s), unreached) =>
          (* [return results]: the list that was passed in, whose objects
             the loop has already written into *)
          {| returned := visited s ++ map (fun r => plain (fields r)) unreached;
             checker_after := checker s;
             logged_stats := None;
             caught := Some e |}
      end
  end.

End Batch.

(** *** [clear_suspicious_entries]

    [UPDATE suspicious_entries SET resolved = TRUE]: every row is marked;
    without a database, or when the statement fails, nothing changes. *)

Definition resolve (row : SuspiciousRow) : SuspiciousRow :=
  {| entry_data := entry_data row;
     suspicion_reason := suspicion_reason row;
     resolved := true |}.

Definition clear_suspicious_entries (c : Checker) : Checker :=
  match known_facts_db c with
  | OpenDb st =>
      {| year_now := year_now c;
         known_facts_db :=
           OpenDb {| verified_facts := verified_facts st;
                     suspicious_entries := resolve <$> suspicious_entries st |} |}
  | _ => c
  end.

End FactChecker.

(** ** The query interpreter of the complete system
    ([gmunden_complete_system/backend/nlp_processor.py]) *)

Module NLP.
Import Py.

(** One reading of [datetime.now()]: its year and its [isoformat()]. *)
Record Clock := { current_year : Z; now_isoformat : pystr }.

(** *** [_load_german_patterns] *)

Definition keyword_table := list (pystr * list pystr).

Definition table (rows : list (string * list string)) : keyword_table :=
  map (fun row => (u (fst row), map u (snd row))) rows.

Definition finance_keywords : keyword_table :=
  table
    [ ("ausgaben", ["ausgaben"; "ausgabe"; "kosten"; "aufwand"; "aufwendungen";
                    "bezahlt"; "gezahlt"]);
      ("einnahmen", ["einnahmen"; "einnahme"; "erlös"; "erlöse"; "einkommen"; "erhalten"]);
      ("budget", ["budget"; "haushalt"; "etat"; "finanzplan"]);
      ("betrag", ["betrag"; "summe"; "höhe"; "wert"; "euro"; "€"]) ]%string.

Definition category_keywords : keyword_table :=
  table
    [ ("infrastruktur",
       ["straße"; "straßen"; "weg"; "wege"; "brücke"; "brücken"; "kanal"; "kanäle";
        "wasserleitung"; "wasserleitungen"; "abwasser"; "infrastruktur"; "bau"; "bauten"]);
      ("personal",
       ["personal"; "gehalt"; "gehälter"; "lohn"; "löhne"; "mitarbeiter"; "angestellte";
        "beamte"; "personalkosten"]);
      ("kultur",
       ["kultur"; "fest"; "feste"; "veranstaltung"; "veranstaltungen"; "museum"; "theater";
        "konzert"; "konzerte"; "stadtfest"]);
      ("umwelt",
       ["umwelt"; "grün"; "grünfläche"; "grünflächen"; "park"; "parks"; "baum"; "bäume";
        "umweltschutz"; "natur"]);
      ("bildung",
       ["schule"; "schulen"; "bildung"; "kindergarten"; "kindergärten"; "unterricht"]);
      ("soziales", ["sozial"; "soziales"; "hilfe"; "unterstützung"; "betreuung"; "pflege"]);
      ("verwaltung", ["verwaltung"; "büro"; "amt"; "ämter"; "rathaus"; "gemeinde"]) ]%string.

Definition document_keywords : keyword_table :=
  table
    [ ("protokoll", ["protokoll"; "protokolle"; "sitzung"; "sitzungen"; "gemeinderat";
                     "beschluss"; "beschlüsse"]);
      ("vertrag", ["vertrag"; "verträge"; "vereinbarung"; "vereinbarungen"; "kontrakt"]);
      ("rechnung", ["rechnung"; "rechnungen"; "beleg"; "belege"; "quittung"; "quittungen"]);
      ("bericht", ["bericht"; "berichte"; "dokumentation"; "studie"; "studien"; "analyse"]) ]%string.

Definition time_keywords_aktuell : list pystr :=
  map u ["aktuell"; "aktueller"; "aktuelle"; "derzeit"; "momentan"; "jetzt"]%string.
Definition time_keywords_vergangen : list pystr :=
  map u ["letztes"; "letzter"; "letzte"; "vergangen"; "vergangenes"; "voriges"; "vorige"]%string.

Definition comparison_mehr : list pystr :=
  map u ["mehr"; "über"; "größer"; "höher"; "mindestens"; "ab"]%string.
Definition comparison_weniger : list pystr :=
  map u ["weniger"; "unter"; "kleiner"; "niedriger"; "höchstens"; "bis"]%string.
Definition comparison_zwischen : list pystr := map u ["zwischen"; "von"; "bis"]%string.

Definition question_keywords : keyword_table :=
  table
    [ ("was", ["was"; "welche"; "welcher"; "welches"]);
      ("wie", ["wie"; "wieviel"; "wie viel"; "wie viele"]);
      ("wann", ["wann"; "ab wann"; "bis wann"]);
      ("wo", ["wo"; "woher"; "wohin"]);
      ("warum", ["warum"; "weshalb"; "wieso"]);
      ("wer", ["wer"; "wen"; "wem"]) ]%string.

(** The group of an amount: [(\d+(?:\.\d{3})*(?:,\d{2})?)] with the given
    leading digits. *)
Definition amount_group (leading : Re.regex) : Re.regex :=
  Re.Grp 1 (Re.seqs [leading;
                     Re.Star (Re.Seq (Re.txt ".") (Re.rep 3 Re.digit));
                     Re.opt (Re.Seq (Re.txt ",") (Re.rep 2 Re.digit))]).

(** [r'\b(19|20)\d{2}\b'] *)
Definition pattern_year : Re.regex :=
  Re.seqs [Re.WordB; Re.Grp 1 (Re.Alt (Re.txt "19") (Re.txt "20")); Re.rep 2 Re.digit;
           Re.WordB].

(** [r'\b(\d{1,3}(?:\.\d{3})*(?:,\d{2})?)\s*(?:euro|€|eur)\b'], IGNORECASE *)
Definition pattern_amount : Re.regex :=
  Re.seqs [Re.WordB; amount_group (Re.rep_range 1 3 Re.digit); Re.Star Re.space;
           Re.alts [Re.txt "euro"; Re.txt "€"; Re.txt "eur"]; Re.WordB].

(** [r'\b(\d+(?:\.\d{3})*(?:,\d{2})?)\b'] *)
Definition pattern_amount_simple : Re.regex :=
  Re.seqs [Re.WordB; amount_group (Re.plus Re.digit); Re.WordB].

(** *** [_normalize_query] *)

Definition replacements : list (pystr * pystr) :=
  map (fun p => (u (fst p), u (snd p)))
      [("ä", "ae"); ("ö", "oe"); ("ü", "ue"); ("ß", "ss"); ("€", "euro"); ("&", "und")]%string.

Definition _normalize_query (query : pystr) : pystr :=
  let normalized := strip (lower query) in
  let normalized :=
    fold_left (fun text p => replace (fst p) (snd p) text) replacements normalized in
  Re.sub (Re.plus Re.space) (u " ") normalized.

(** *** [_detect_intent] *)

(** How many keyword lists of a table have a keyword in the query. *)
Definition indicators (t : keyword_table) (query : pystr) : nat :=
  length (List.filter (fun row => any_in (snd row) query) t).

Definition stats_keywords : list pystr :=
  map u ["statistik"; "übersicht"; "zusammenfassung"; "entwicklung"; "trend";
         "vergleich"]%string.

Definition _detect_intent (query : pystr) : pystr :=
  let finance_indicators := indicators finance_keywords query in
  let document_indicators := indicators document_keywords query in
  let stats_indicators := length (List.filter (fun k => contains k query) stats_keywords) in
  if (1 <=? finance_indicators)%nat then u "financial_search"
  else if (1 <=? document_indicators)%nat then u "document_search"
  else if (1 <=? stats_indicators)%nat then u "statistics_search"
  else if any_in (map u ["protokoll"; "sitzung"; "beschluss"]%string) query
       then u "protocol_search"
  else u "general_search".

(** *** [_extract_years] *)

(** [int(s)], raising [ValueError] as Python does: for a run of more than
    4300 digits, and for a string that is no number (the message of that
    one goes on with the [repr] of [s], which is left out; the patterns
    hand over digits only). *)
Definition too_many_digits (digits : Z) : exn :=
  Raise ValueError
    (u "Exceeds the limit (4300 digits) for integer string conversion: value has "
     ++ str_of_Z digits
     ++ u " digits; use sys.set_int_max_str_digits() to increase the limit").

Definition int (s : pystr) : res Z :=
  match Num.read_int s with
  | Num.IntValue z => Ok z
  | Num.TooManyDigits digits => Err (too_many_digits digits)
  | Num.NotAnInt => Err (Raise ValueError (u "invalid literal for int() with base 10"))
  end.

(** [sys.maxsize] *)
Definition maxsize : Z := 2 ^ 63 - 1.

(** [list(range(a, b))]; a range longer than [sys.maxsize] cannot be turned
    into a list ([OverflowError]).  Below that length the list is built:
    the model has no bound on memory, where CPython raises [MemoryError]
    for a list the machine cannot hold, at a length that depends on the
    machine.  Nothing below is stated about ranges of such lengths, except
    that an exception there is caught like any other. *)
Definition range_list (a b : Z) : res (list Z) :=
  if maxsize <? b - a
  then Err (Raise OverflowError (u "Python int too large to convert to C ssize_t"))
  else Ok (map (fun i => a + Z.of_nat i) (seq 0 (Z.to_nat (b - a)))).

Fixpoint insert_desc (z : Z) (zs : list Z) : list Z :=
  match zs with
  | [] => [z]
  | x :: zs' => if x <? z then z :: zs else x :: insert_desc z zs'
  end.

Fixpoint dedup_Z (zs : list Z) : list Z :=
  match zs with
  | [] => []
  | z :: zs' => if existsb (Z.eqb z) zs' then dedup_Z zs' else z :: dedup_Z zs'
  end.

(** [sorted(list(set(years)), reverse=True)] *)
Definition sorted_desc (years : list Z) : list Z :=
  fold_right insert_desc [] (dedup_Z years).

(** The first loop: the years written in the query.  [findall] hands over
    what the pattern's group matched. *)
Fixpoint direct_years (clock : Clock) (year_matches : list pystr) : res (list Z) :=
  match year_matches with
  | [] => Ok []
  | m :: rest =>
      do year <- int m;
      do later <- direct_years clock rest;
      Ok (if (1990 <=? year) && (year <=? current_year clock + 1)
          then year :: later else later)
  end.

(** [r'letzte[n]?\s+(\d+)\s+jahre'] *)
Definition pattern_last_years : Re.regex :=
  Re.seqs [Re.txt "letzte"; Re.opt (Re.txt "n"); Re.plus Re.space;
           Re.Grp 1 (Re.plus Re.digit); Re.plus Re.space; Re.txt "jahre"].

Definition relative_years (clock : Clock) (query : pystr) : res (list Z) :=
  let current_year := current_year clock in
  if any_in (map u ["letztes jahr"; "voriges jahr"; "vergangenes jahr"]%string) query
  then Ok [current_year - 1]
  else if any_in (map u ["dieses jahr"; "aktuelles jahr"]%string) query
  then Ok [current_year]
  else if contains (u "letzte") query && contains (u "jahre") query then
    match Re.search false pattern_last_years query with
    | Some number_match =>
        do num_years <- int (Re.group 1 (Re.groups number_match));
        range_list (current_year - num_years + 1) (current_year + 1)
    | None => Ok []
    end
  else Ok [].

Definition _extract_years (clock : Clock) (query : pystr) : res (list Z) :=
  do years <- direct_years clock (Re.findall1 false pattern_year query);
  do more <- relative_years clock query;
  Ok (sorted_desc (years ++ more)).

(** *** [_extract_amounts] *)

(** The values of the [entities] dictionary. *)
Inductive entity :=
| EInt (z : Z)
| EInts (zs : list Z)
| EFloat (f : float)
| EStr (s : pystr)
| EStrs (ss : list pystr).

Definition entities := list (pystr * entity).

Fixpoint put (k : pystr) (v : entity) (d : entities) : entities :=
  match d with
  | [] => [(k, v)]
  | (k', v') :: d' => if str_eqb k k' then (k, v) :: d' else (k', v') :: put k v d'
  end.

Definition has_key (k : pystr) (d : entities) : bool :=
  existsb (fun kv => str_eqb k (fst kv)) d.

(** [d.update(other)] *)
Definition update (d other : entities) : entities :=
  fold_left (fun acc kv => put (fst kv) (snd kv) acc) other d.

(** [match.replace('.', '').replace(',', '.')] *)
Definition german_to_decimal (s : pystr) : pystr :=
  replace (u ",") (u ".") (replace (u ".") [] s).

(** One turn of the loop over the matches. *)
Definition amount_step (query : pystr) (amounts : entities) (m : pystr) : entities :=
  match Num.float_of_str (german_to_decimal m) with
  | None => amounts
  | Some amount =>
      let match_pos := match find m query with Some i => i | None => 0%nat end in
      let context_before := lower (slice (match_pos - 20) match_pos query) in
      if any_in (map u ["über"; "mehr als"; "mindestens"; "ab"]%string) context_before
      then put (u "amount_min") (EFloat amount) amounts
      else if any_in (map u ["unter"; "weniger als"; "höchstens"; "bis"]%string)
                     context_before
      then put (u "amount_max") (EFloat amount) amounts
      else if contains (u "zwischen") context_before then
        if negb (has_key (u "amount_min") amounts)
        then put (u "amount_min") (EFloat amount) amounts
        else put (u "amount_max") (EFloat amount) amounts
      else put (u "amount") (EFloat amount) amounts
  end.

Definition _extract_amounts (query : pystr) : entities :=
  let amount_matches :=
    match Re.findall1 true pattern_amount query with
    | [] => Re.findall1 false pattern_amount_simple query
    | found => found
    end in
  fold_left (amount_step query) amount_matches [].

(** *** The other extractors *)

Definition matching_rows (t : keyword_table) (query : pystr) : list pystr :=
  map fst (List.filter (fun row => any_in (snd row) query) t).

Definition _extract_categories (query : pystr) : list pystr :=
  matching_rows category_keywords query.

Definition _extract_document_types (query : pystr) : list pystr :=
  matching_rows document_keywords query.

Definition four_digits : Re.regex := Re.rep 4 Re.digit.

(** [r'zwischen\s+(\d{4})\s+und\s+(\d{4})'], [r'von\s+(\d{4})\s+bis\s+(\d{4})'],
    [r'seit\s+(\d{4})'] *)
Definition pattern_between : Re.regex :=
  Re.seqs [Re.txt "zwischen"; Re.plus Re.space; Re.Grp 1 four_digits; Re.plus Re.space;
           Re.txt "und"; Re.plus Re.space; Re.Grp 2 four_digits].
Definition pattern_from_to : Re.regex :=
  Re.seqs [Re.txt "von"; Re.plus Re.space; Re.Grp 1 four_digits; Re.plus Re.space;
           Re.txt "bis"; Re.plus Re.space; Re.Grp 2 four_digits].
Definition pattern_since : Re.regex :=
  Re.seqs [Re.txt "seit"; Re.plus Re.space; Re.Grp 1 four_digits].

Definition year_pair (query : pystr) (pattern : Re.regex) (time_range : entities)
    : res entities :=
  match Re.search false pattern query with
  | Some m =>
      do start_year <- int (Re.group 1 (Re.groups m));
      do end_year <- int (Re.group 2 (Re.groups m));
      Ok (put (u "year_range") (EInts [start_year; end_year]) time_range)
  | None => Ok time_range
  end.

Definition _extract_time_range (query : pystr) : res entities :=
  do time_range <- year_pair query pattern_between [];
  do time_range <- year_pair query pattern_from_to time_range;
  match Re.search false pattern_since query with
  | Some since_match =>
      do start_year <- int (Re.group 1 (Re.groups since_match));
      Ok (put (u "year_min") (EInt start_year) time_range)
  | None => Ok time_range
  end.

Definition _extract_comparisons (query : pystr) : entities :=
  if any_in comparison_mehr query then [(u "comparison_type", EStr (u "greater_than"))]
  else if any_in comparison_weniger query then [(u "comparison_type", EStr (u "less_than"))]
  else if any_in comparison_zwischen query then [(u "comparison_type", EStr (u "between"))]
  else [].

(** [xs[0] if len(xs) == 1 else xs] *)
Definition one_or_many_Z (zs : list Z) : entity :=
  match zs with [z] => EInt z | _ => EInts zs end.
Definition one_or_many (ss : list pystr) : entity :=
  match ss with [s] => EStr s | _ => EStrs ss end.

(** *** [_extract_entities] *)

Definition _extract_entities (clock : Clock) (query : pystr) : res entities :=
  let entities : entities := [] in
  do years <- _extract_years clock query;
  let entities :=
    match years with [] => entities | _ => put (u "year") (one_or_many_Z years) entities end in
  let entities := update entities (_extract_amounts query) in
  let categories := _extract_categories query in
  let entities :=
    match categories with
    | [] => entities
    | _ => put (u "category") (one_or_many categories) entities
    end in
  let doc_types := _extract_document_types query in
  let entities :=
    match doc_types with
    | [] => entities
    | _ => put (u "document_type") (one_or_many doc_types) entities
    end in
  do time_range <- _extract_time_range query;
  let entities := update entities time_range in
  Ok (update entities (_extract_comparisons query)).

(** *** [_extract_keywords] *)

Definition keyword_stopwords : list pystr :=
  map u ["der"; "die"; "das"; "den"; "dem"; "des"; "ein"; "eine"; "einer"; "eines";
         "und"; "oder"; "aber"; "doch"; "dann"; "also"; "noch"; "nur"; "schon";
         "auch"; "sehr"; "hier"; "dort"; "da"; "so"; "wie"; "was"; "wenn"; "als";
         "bei"; "mit"; "nach"; "vor"; "auf"; "für"; "zu"; "an"; "von"; "in"; "im";
         "ist"; "sind"; "war"; "waren"; "hat"; "haben"; "wird"; "werden"; "kann";
         "könnte"; "soll"; "sollte"; "muss"; "müssen"; "darf"; "dürfen"]%string.

(** The members of a list in the order of their first occurrence. *)
Fixpoint unique (seen xs : list pystr) : list pystr :=
  match xs with
  | [] => []
  | x :: xs' => if mem x seen then unique seen xs' else x :: unique (x :: seen) xs'
  end.

Definition _extract_keywords (query : pystr) : list pystr :=
  let words :=
    Re.findall0 false (Re.seqs [Re.WordB; Re.plus Re.wordc; Re.WordB]) (lower query) in
  let keywords :=
    List.filter (fun word => negb (mem word keyword_stopwords) && (2 <? length word)%nat) words in
  unique [] keywords.

(** *** [_analyze_context] *)

Record Context := {
  question_type : pystr;
  temporal_context : pystr;
  scope : pystr;
  specificity : float
}.

Fixpoint first_row (t : keyword_table) (query : pystr) : option pystr :=
  match t with
  | [] => None
  | (name, keywords) :: t' =>
      if any_in keywords query then Some name else first_row t' query
  end.

Definition _detect_question_type (query : pystr) : pystr :=
  match first_row question_keywords query with
  | Some question_type => question_type
  | None => u "statement"
  end.

Fixpoint entry (k : pystr) (d : entities) : option entity :=
  match d with
  | [] => None
  | (k', v) :: d' => if str_eqb k k' then Some v else entry k d'
  end.

Definition _analyze_temporal_context (clock : Clock) (query : pystr) (found : entities)
    : pystr :=
  match entry (u "year") found with
  | Some (EInts _) => u "multi_year"
  | Some year =>
      let equals (z : Z) := match year with EInt y => y =? z | _ => false end in
      if equals (current_year clock) then u "current"
      else if equals (current_year clock - 1) then u "recent_past"
      else u "historical"
  | None =>
      if any_in time_keywords_aktuell query then u "current"
      else if any_in time_keywords_vergangen query then u "past"
      else u "unspecified"
  end.

Definition _analyze_scope (query : pystr) : pystr :=
  if any_in (map u ["alle"; "gesamt"; "komplett"; "vollständig"]%string) query
  then u "comprehensive"
  else if any_in (map u ["top"; "größte"; "höchste"; "wichtigste"]%string) query
  then u "top_results"
  else if any_in (map u ["einzeln"; "spezifisch"; "bestimmte"]%string) query
  then u "specific"
  else u "general".

(** [min(a, b)]: [b] when it is smaller, [a] otherwise. *)
Definition min (a b : float) : float := if (b <? a)%float then b else a.

Definition add_if (cond : bool) (x score : float) : float :=
  if cond then (score + x)%float else score.

Definition _analyze_specificity (found : entities) : float :=
  let score := 0.0%float in
  let score := add_if (has_key (u "year") found) 0.3 score in
  let score := add_if (has_key (u "category") found) 0.2 score in
  let score := add_if (has_key (u "amount") found || has_key (u "amount_min") found
                       || has_key (u "amount_max") found) 0.2 score in
  let score := add_if (has_key (u "document_type") found) 0.2 score in
  let score := add_if (3 <? length found)%nat 0.1 score in
  min 1.0 score.

Definition _analyze_context (clock : Clock) (query : pystr) (found : entities) : Context :=
  {| question_type := _detect_question_type query;
     temporal_context := _analyze_temporal_context clock query found;
     scope := _analyze_scope query;
     specificity := _analyze_specificity found |}.

(** *** [_calculate_confidence] *)

(** The processor object: whether a spaCy model was loaded. *)
Record Processor := { nlp_model_loaded : bool }.

Definition times (n : nat) (x : float) : float :=
  (Num.float_of_Z (Z.of_nat n) * x)%float.

Definition _calculate_confidence (self : Processor) (intent : pystr) (found : entities)
    (keywords : list pystr) : float :=
  let confidence := 0.5%float in
  let confidence := add_if (negb (str_eqb intent (u "general_search"))) 0.2 confidence in
  let confidence := (confidence + min 0.2 (times (length found) 0.05))%float in
  let confidence := (confidence + min 0.1 (times (length keywords) 0.02))%float in
  let confidence := add_if (nlp_model_loaded self) 0.1 confidence in
  min 1.0 confidence.

(** *** [analyze_query] *)

(** The dictionary returned; the normal answer has no [error], the degraded
    one has neither [normalized_query], [context] nor [timestamp]. *)
Record Analysis := {
  original_query : pystr;
  normalized_query : option pystr;
  intent : pystr;
  found_entities : entities;
  keywords : list pystr;
  context : option Context;
  confidence : float;
  timestamp : option pystr;
  error : option pystr
}.

(** The body of the [try]. *)
Definition analysis (self : Processor) (clock : Clock) (query : pystr) : res Analysis :=
  let normalized := _normalize_query query in
  let intent := _detect_intent normalized in
  do found <- _extract_entities clock normalized;
  let keywords := _extract_keywords normalized in
  let context := _analyze_context clock normalized found in
  Ok {| original_query := query;
        normalized_query := Some normalized;
        intent := intent;
        found_entities := found;
        keywords := keywords;
        context := Some context;
        confidence := _calculate_confidence self intent found keywords;
        timestamp := Some (now_isoformat clock);
        error := None |}.

(** The answer of the [except] branch. *)
Definition degraded (query : pystr) (e : exn) : Analysis :=
  {| original_query := query;
     normalized_query := None;
     intent := u "general_search";
     found_entities := [];
     keywords := [query];
     context := None;
     confidence := 0.5%float;
     timestamp := None;
     error := Some (exn_msg e) |}.

Definition analyze_query (self : Processor) (clock : Clock) (query : pystr) : Analysis :=
  match analysis self clock query with
  | Ok result => result
  | Err e => degraded query e
  end.

End NLP.

(** ** The query interpreter of the first system ([ai/nlp_processor.py])

    The entities that need the spaCy model (locations, organisations) and
    the search terms are outside this embedding; the years and the amounts
    are computed by regular expressions alone. *)

Module GermanNLP.
Import Py.

(** [time_patterns]: [jahr], [jahr_wort], [zeitraum] *)
Definition pattern_jahr : Re.regex :=
  Re.seqs [Re.WordB; Re.Grp 1 (Re.Alt (Re.txt "19") (Re.txt "20")); Re.rep 2 Re.digit;
           Re.WordB].

Definition pattern_jahr_wort : Re.regex :=
  Re.seqs [Re.WordB;
           Re.Grp 1 (Re.alts
             [Re.seqs [Re.txt "letzte"; Re.opt (Re.txt "s"); Re.plus Re.space; Re.txt "jahr"];
              Re.seqs [Re.txt "diese"; Re.opt (Re.txt "s"); Re.plus Re.space; Re.txt "jahr"];
              Re.seqs [Re.txt "vorige"; Re.opt (Re.txt "s"); Re.plus Re.space; Re.txt "jahr"]]);
           Re.WordB].

Definition pattern_zeitraum : Re.regex :=
  Re.seqs [Re.WordB; Re.Grp 1 (Re.Alt (Re.txt "zwischen") (Re.txt "von")); Re.plus Re.space;
           Re.Grp 2 (Re.rep 4 Re.digit); Re.plus Re.space;
           Re.Grp 3 (Re.Alt (Re.txt "und") (Re.txt "bis")); Re.plus Re.space;
           Re.Grp 4 (Re.rep 4 Re.digit); Re.WordB].

Fixpoint ints (texts : list pystr) : res (list Z) :=
  match texts with
  | [] => Ok []
  | t :: rest =>
      do z <- NLP.int t;
      do zs <- ints rest;
      Ok (z :: zs)
  end.

(** The [years] entry that [extract_entities] computes. *)
Definition extract_entities_years (current_year : Z) (query : pystr) : res (list Z) :=
  do years <- ints (Re.findall1 false pattern_jahr query);
  let years :=
    match Re.search false pattern_jahr_wort query with
    | Some _ =>
        if contains (u "letztes jahr") query || contains (u "voriges jahr") query
        then years ++ [current_year - 1]
        else if contains (u "dieses jahr") query then years ++ [current_year]
        else years
    | None => years
    end in
  match Re.search false pattern_zeitraum query with
  | Some zeitraum_match =>
      do start_year <- NLP.int (Re.group 2 (Re.groups zeitraum_match));
      do end_year <- NLP.int (Re.group 4 (Re.groups zeitraum_match));
      NLP.range_list start_year (end_year + 1)
  | None => Ok years
  end.

(** [parse_amount]: a [ValueError] of [float] gives 0.0. *)
Definition parse_amount (amount_str : pystr) : float :=
  match Num.float_of_str (NLP.german_to_decimal amount_str) with
  | Some amount => amount
  | None => 0.0%float
  end.

(** *** [validate_query] *)

(** [r'(\d+(?:\.\d{3})*(?:,\d{2})?)'] *)
Definition pattern_any_amount : Re.regex := NLP.amount_group (Re.plus Re.digit).

(** The dictionary returned. *)
Record QueryValidation := {
  query_is_valid : bool;
  query_warnings : list pystr;
  query_suggestions : list pystr
}.

(** The loop over the year matches: the warnings and the suggestions it
    appends. *)
Fixpoint year_notes (current_year : Z) (year_matches : list pystr)
    : res (list pystr * list pystr) :=
  match year_matches with
  | [] => Ok ([], [])
  | year_str :: rest =>
      do year <- NLP.int year_str;
      do later <- year_notes current_year rest;
      Ok (if (year <? 1990) || (current_year + 1 <? year)
          then ((u "Jahr " ++ str_of_Z year
                 ++ u " liegt außerhalb des erwarteten Bereichs") :: fst later,
                (u "Verfügbare Jahre: 1990-" ++ str_of_Z current_year) :: snd later)
          else later)
  end.

(** [amount > 1000000000] for the float [parse_amount] returns. *)
Definition over_a_billion (amount : float) : bool :=
  match Num.float_cmp_Z amount 1000000000 with
  | Some Gt => true
  | _ => false
  end.

Definition amount_notes (amount_matches : list pystr) : list pystr :=
  flat_map (fun amount_str =>
              if over_a_billion (parse_amount amount_str)
              then [u "Betrag " ++ amount_str
                    ++ u " ist unrealistisch hoch für eine Gemeinde"]
              else [])
           amount_matches.

Definition validate_query (current_year : Z) (query : pystr) : res QueryValidation :=
  do notes <- year_notes current_year (Re.findall1 false pattern_jahr query);
  Ok {| query_is_valid := true;
        query_warnings :=
          fst notes ++ amount_notes (Re.findall1 false pattern_any_amount query);
        query_suggestions := snd notes |}.

End GermanNLP.

(** ** The fact checker of the first system ([ai/fact_checker.py])

    Nothing here is caught on the way up: an exception raised while one
    result is validated ends the whole call.  The warnings and errors are
    kept as the message and the values written into it. *)

Module AiFactChecker.
Import Py.

(** [validation_rules] *)
Definition max_single_expense : Z := 10000000.
Definition min_year : Z := 1990.
Definition valid_categories : list pystr :=
  map u ["infrastruktur"; "personal"; "verwaltung"; "kultur"; "soziales"; "umwelt";
         "bildung"]%string.
Definition valid_types : list pystr :=
  map u ["protokoll"; "bericht"; "beschluss"; "vertrag"; "rechnung"]%string.
Definition max_file_size : Z := 100 * 1024 * 1024.
Definition valid_extensions : list pystr := map u [".pdf"; ".docx"; ".txt"; ".xlsx"]%string.

(** The checker object: [datetime.now()] as read when it was built, which
    fixes [max_year] and [max_date]. *)
Record Checker := { built_year : Z; built_month : Z; built_day : Z }.

Definition max_year (self : Checker) : Z := built_year self + 1.

Inductive message :=
| UnrealisticAmount (betrag : value)
| NegativeAmount
| UnknownCategory (kategorie : pystr)
| YearOutOfRange (jahr : value) (lo hi : Z)
| UnknownDateFormat (datum : pystr)
| DateOutOfRange (datum : pystr)
| UnusualExtension (filename : pystr)
| LargeFile (filesize : value)
| UnknownDocumentType (typ : pystr)
| YearDateMismatch (jahr datum : value)
| HighAmountWithoutProject (betrag : value).

(** What a validator returns. *)
Record validation := {
  is_valid : bool;
  errors : list message;
  warnings : list message
}.

(** [v.lower()]: only a string has the method. *)
Definition lower_of (v : value) : res pystr :=
  match v with
  | PStr s => Ok (lower s)
  | _ => Err (Raise AttributeError
                ([39%N] ++ type_name v ++ u "' object has no attribute 'lower'"))
  end.

(** The integers that round to a finite [float]: those below
    [2^1024 - 2^970] in absolute value. *)
Definition float_limit : Z := 2 ^ 1024 - 2 ^ 970.

(** Writing a number with a float format ([{x:,.2f}]): an [int] too large
    for a [float] cannot be written. *)
Definition format_float (v : value) : res unit :=
  match v with
  | PInt z =>
      if float_limit <=? Z.abs z
      then Err (Raise OverflowError (u "int too large to convert to float"))
      else Ok tt
  | PBool _ | PFloat _ => Ok tt
  | _ => Err (Raise TypeError (u "unsupported format string passed to __format__"))
  end.

(** [filesize / (1024*1024)], written with [:.1f]. *)
Definition megabytes (v : value) : res unit :=
  match v with
  | PInt z =>
      if float_limit * (1024 * 1024) <=? Z.abs z
      then Err (Raise OverflowError (u "integer division result too large for a float"))
      else Ok tt
  | PBool _ | PFloat _ => Ok tt
  | _ => Err (Raise TypeError (u "unsupported operand type(s) for /"))
  end.

(** *** [validate_financial_data] *)

Definition validate_financial_data (result : dict) : res validation :=
  let betrag := match get (u "betrag") result with Some v => v | None => PInt 0 end in
  do too_high <- gt_int betrag max_single_expense;
  do errors1 <-
    (if too_high then do _ <- format_float betrag; Ok [UnrealisticAmount betrag]
     else Ok []);
  do negative <- lt_int betrag 0;
  let warnings1 := if negative then [NegativeAmount] else [] in
  do kategorie <-
    lower_of (match get (u "kategorie") result with Some v => v | None => PStr [] end);
  let warnings2 :=
    match kategorie with
    | [] => []
    | _ => if mem kategorie valid_categories then [] else [UnknownCategory kategorie]
    end in
  Ok {| is_valid := negb too_high; errors := errors1; warnings := warnings1 ++ warnings2 |}.

(** *** [validate_temporal_data] *)

(** [strptime] for the three formats: the pattern of the format, then the
    check that nothing is left over and that the date exists. *)
Definition month_pattern : Re.regex :=
  Re.Grp 2 (Re.alts [Re.Seq (Re.txt "1") (Re.range "0" "2");
                     Re.Seq (Re.txt "0") (Re.range "1" "9");
                     Re.range "1" "9"]).
Definition day_pattern : Re.regex :=
  Re.Grp 3 (Re.alts [Re.Seq (Re.txt "3") (Re.range "0" "1");
                     Re.Seq (Re.range "1" "2") Re.digit;
                     Re.Seq (Re.txt "0") (Re.range "1" "9");
                     Re.range "1" "9";
                     Re.Seq (Re.txt " ") (Re.range "1" "9")]).
Definition year_pattern : Re.regex := Re.Grp 1 (Re.rep 4 Re.digit).

Definition valid_date_formats : list Re.regex :=
  [ Re.seqs [year_pattern; Re.txt "-"; month_pattern; Re.txt "-"; day_pattern];  (* %Y-%m-%d *)
    Re.seqs [day_pattern; Re.txt "."; month_pattern; Re.txt "."; year_pattern];  (* %d.%m.%Y *)
    year_pattern ].                                                              (* %Y *)

Definition leap (y : Z) : bool :=
  (y mod 4 =? 0) && (negb (y mod 100 =? 0) || (y mod 400 =? 0)).

Definition days_in_month (y m : Z) : Z :=
  if m =? 2 then (if leap y then 29 else 28)
  else if (m =? 4) || (m =? 6) || (m =? 9) || (m =? 11) then 30 else 31.

Definition number (s : pystr) (default : Z) : Z :=
  match Num.int_of_str (strip s) with Some z => z | None => default end.

(** [datetime.strptime(s, fmt)] as year, month, day; [None] is the
    [ValueError]. *)
Definition strptime (s : pystr) (fmt : Re.regex) : option (Z * Z * Z) :=
  match Re.match_at true fmt (Re.mkpos None s) with
  | Some m =>
      match Re.rest (Re.after m) with
      | [] =>
          let y := number (Re.group 1 (Re.groups m)) 1900 in
          let mo := number (Re.group 2 (Re.groups m)) 1 in
          let d := number (Re.group 3 (Re.groups m)) 1 in
          if (1 <=? y) && (d <=? days_in_month y mo) then Some (y, mo, d) else None
      | _ => None
      end
  | None => None
  end.

Fixpoint first_format (s : pystr) (formats : list Re.regex) : option (Z * Z * Z) :=
  match formats with
  | [] => None
  | fmt :: formats' =>
      match strptime s fmt with
      | Some date => Some date
      | None => first_format s formats'
      end
  end.

Definition date_ltb (a b : Z * Z * Z) : bool :=
  let '(y1, m1, d1) := a in
  let '(y2, m2, d2) := b in
  (y1 <? y2) || ((y1 =? y2) && ((m1 <? m2) || ((m1 =? m2) && (d1 <? d2)))).

Definition validate_temporal_data (self : Checker) (result : dict) : res validation :=
  do warnings1 <-
    match get (u "jahr") result with
    | Some jahr =>
        do before <- lt_int jahr min_year;
        do outside <- (if before then Ok true else gt_int jahr (max_year self));
        Ok (if outside then [YearOutOfRange jahr min_year (max_year self)] else [])
    | None => Ok []
    end;
  let warnings2 :=
    match get (u "datum") result with
    | Some (PStr datum) =>
        match first_format datum valid_date_formats with
        | None => [UnknownDateFormat datum]
        | Some parsed_date =>
            (* a parsed date is at midnight, so it is after [max_date] exactly
               when its day is after the day the checker was built *)
            if date_ltb parsed_date (1990, 1, 1)
               || date_ltb (built_year self, built_month self, built_day self) parsed_date
            then [DateOutOfRange datum] else []
        end
    | _ => []
    end in
  Ok {| is_valid := true; errors := []; warnings := warnings1 ++ warnings2 |}.

(** *** [validate_document_data] *)

Definition ends_with (suffix s : pystr) : bool :=
  starts_with (rev suffix) (rev s).

Definition validate_document_data (result : dict) : res validation :=
  do warnings1 <-
    match get (u "filename") result with
    | Some filename =>
        do name <- lower_of filename;
        Ok (if existsb (fun ext => ends_with ext name) valid_extensions then []
            else [UnusualExtension (str filename)])
    | None => Ok []
    end;
  do warnings2 <-
    match get (u "filesize") result with
    | Some filesize =>
        do large <- gt_int filesize max_file_size;
        if large then do _ <- megabytes filesize; Ok [LargeFile filesize] else Ok []
    | None => Ok []
    end;
  do warnings3 <-
    match get (u "typ") result with
    | Some v =>
        do typ <- lower_of v;
        Ok (if mem typ valid_types then [] else [UnknownDocumentType typ])
    | None => Ok []
    end;
  Ok {| is_valid := true; errors := []; warnings := warnings1 ++ warnings2 ++ warnings3 |}.

(** *** [validate_consistency] *)

Definition project_words : list pystr :=
  map u ["projekt"; "bau"; "investition"; "sanierung"]%string.

Definition validate_consistency (result : dict) : res validation :=
  let warnings1 :=
    match get (u "jahr") result, get (u "datum") result with
    | Some jahr, Some datum =>
        if contains (str jahr) (str datum) then [] else [YearDateMismatch jahr datum]
    | _, _ => []
    end in
  do warnings2 <-
    match get (u "betrag") result, get (u "beschreibung") result with
    | Some betrag, Some v =>
        do beschreibung <- lower_of v;
        do high <- gt_int betrag 100000;
        if high && negb (any_in project_words beschreibung)
        then do _ <- format_float betrag; Ok [HighAmountWithoutProject betrag]
        else Ok []
    | _, _ => Ok []
    end;
  Ok {| is_valid := true; errors := []; warnings := warnings1 ++ warnings2 |}.

(** *** [verify_single_result] *)

(** A check that runs under a condition; the caller reads its warnings
    only when it is not valid. *)
Definition when (cond : bool) (v : res validation) : res (option validation) :=
  if cond then do r <- v; Ok (Some r) else Ok None.

Definition warnings_if_invalid (r : option validation) : list message :=
  match r with
  | Some v => if is_valid v then [] else warnings v
  | None => []
  end.

Definition verify_single_result (self : Checker) (result : dict) : res validation :=
  do finance_check <- when (has (u "betrag") result) (validate_financial_data result);
  do date_check <-
    when (has (u "datum") result || has (u "jahr") result)
         (validate_temporal_data self result);
  do doc_check <-
    when (has (u "filename") result || has (u "dokument") result)
         (validate_document_data result);
  do consistency_check <- validate_consistency result;
  let failed :=
    match finance_check with Some v => negb (is_valid v) | None => false end in
  Ok {| is_valid := negb failed;
        errors := match finance_check with
                  | Some v => if is_valid v then [] else errors v
                  | None => []
                  end;
        warnings := warnings_if_invalid date_check ++ warnings_if_invalid doc_check
                    ++ warnings_if_invalid (Some consistency_check) |}.

(** *** [verify_results] *)

Record Report := {
  total_results : nat;
  verified_results : nat;
  report_warnings : list message;
  report_errors : list message;
  score : Z;
  confidence : pystr;
  data_quality : pystr
}.

(** The loop over the results: the count of valid ones and the messages of
    the others. *)
Fixpoint tally (self : Checker) (results : list dict)
    (acc : nat * list message * list message) : res (nat * list message * list message) :=
  match results with
  | [] => Ok acc
  | result :: results' =>
      do v <- verify_single_result self result;
      let '(verified, ws, es) := acc in
      tally self results'
            (if is_valid v then (S verified, ws, es)
             else (verified, ws ++ warnings v, es ++ errors v))
  end.

(** [int(x)] for a float: truncation; a NaN or an infinity raises. *)
Definition int_of_float (x : float) : res Z :=
  match Num.trunc x with
  | Some z => Ok z
  | None => Err (Raise ValueError (u "cannot convert float NaN or infinity to integer"))
  end.

(** [(verified / total) * 100], the float percentage. *)
Definition percentage (verified total : nat) : res float :=
  match Num.true_div (Z.of_nat verified) (Z.of_nat total) with
  | Some ratio => Ok (ratio * Num.float_of_Z 100)%float
  | None => Err (Raise ValueError (u "division by zero"))
  end.

(** The labels for a score. *)
Definition labels (score : Z) : pystr * pystr :=
  if 90 <=? score then (u "high", u "excellent")
  else if 70 <=? score then (u "medium", u "good")
  else (u "low", u "questionable").

Definition verify_results (self : Checker) (results : list dict) : res Report :=
  match results with
  | [] =>
      Ok {| total_results := 0; verified_results := 0;
            report_warnings := []; report_errors := [];
            score := 100; confidence := u "low"; data_quality := u "no_data" |}
  | _ :: _ =>
      do counted <- tally self results (0%nat, [], []);
      let '(verified, ws, es) := counted in
      let total := length results in
      do score <-
        (if (0 <? total)%nat
         then do percent <- percentage verified total; int_of_float percent
         else Ok 100);
      Ok {| total_results := total; verified_results := verified;
            report_warnings := ws; report_errors := es;
            score := score;
            confidence := fst (labels score); data_quality := snd (labels score) |}
  end.

(** *** [suggest_data_improvements] *)

Definition suggest_data_improvements (verification_results : Report) : list pystr :=
  (if score verification_results <? 90
   then [u "Überprüfen Sie die Datenquellen auf Vollständigkeit";
         u "Implementieren Sie zusätzliche Validierungsregeln"]
   else [])
  ++ match report_errors verification_results with
     | [] => []
     | _ :: _ => [u "Korrigieren Sie die identifizierten Datenfehler";
                  u "Überprüfen Sie die Datenimport-Prozesse"]
     end
  ++ match report_warnings verification_results with
     | [] => []
     | _ :: _ => [u "Untersuchen Sie die gemeldeten Warnungen";
                  u "Erwägen Sie eine Bereinigung der Datenbestände"]
     end.

End AiFactChecker.


(** * Properties of the backend fact checker *)

Module FactCheckerFacts.
Import Py FactChecker.

Section SingleResult.

Variable fromisoformat_year : pystr -> option Z.

(** The factor a check contributes: none when it passed. *)
Definition factor_of (failed : bool) (factor : float) : list float :=
  if failed then [factor] else [].

(** The multiplicative factors of the six checks, each computed on its own,
    in the order structural, range, plausibility, pattern, consistency,
    relevance. *)
Definition check_factors (c : Checker) (result : dict) (query : pystr)
    : res (list float) :=
  do structural <- _check_data_structure result;
  do range <- _check_value_ranges c result;
  do plausibility <- _check_plausibility fromisoformat_year result;
  let consistency := fst (_check_consistency_with_known_facts c result) in
  Ok (factor_of (negb (valid structural)) 0.7
      ++ factor_of (negb (valid range)) 0.6
      ++ factor_of (negb (valid plausibility)) 0.8
      ++ factor_of (negb (valid (_check_suspicious_patterns result))) 0.3
      ++ factor_of (consistency <? 1.0)%float consistency
      ++ factor_of (negb (_check_query_relevance result query)) 0.9).

Definition product (factors : list float) (start : float) : float :=
  fold_left PrimFloat.mul factors start.

Lemma penalise_confidence failed found factor acc :
  snd (penalise failed found factor acc) = product (factor_of failed factor) (snd acc).
Proof. destruct failed; reflexivity. Qed.

Lemma product_app fs gs start :
  product (fs ++ gs) start = product gs (product fs start).
Proof. apply fold_left_app. Qed.

(** The issues a check contributes: none when it passed. *)
Definition issues_of (failed : bool) (found : list pystr) : list pystr :=
  if failed then found else [].

(** The issues of the six checks, each computed on its own, in the same
    order. *)
Definition check_findings (c : Checker) (result : dict) (query : pystr)
    : res (list pystr) :=
  do structural <- _check_data_structure result;
  do range <- _check_value_ranges c result;
  do plausibility <- _check_plausibility fromisoformat_year result;
  let pattern := _check_suspicious_patterns result in
  let consistency := _check_consistency_with_known_facts c result in
  Ok (issues_of (negb (valid structural)) (check_issues structural)
      ++ issues_of (negb (valid range)) (check_issues range)
      ++ issues_of (negb (valid plausibility)) (check_issues plausibility)
      ++ issues_of (negb (valid pattern)) (check_issues pattern)
      ++ issues_of (fst consistency <? 1.0)%float (snd consistency)
      ++ issues_of (negb (_check_query_relevance result query))
           [u "Ergebnis nicht relevant für Anfrage"]).

Lemma penalise_issues failed found factor acc :
  fst (penalise failed found factor acc) = fst acc ++ issues_of failed found.
Proof. destruct failed; simpl; [reflexivity | rewrite app_nil_r; reflexivity]. Qed.

(** What [run_checks] ends with: the product of the factors and the issues
    of the checks that failed, or the exception of the first check that
    raised. *)
Lemma run_checks_outcome c result query :
  match run_checks fromisoformat_year c result query,
        check_factors c result query, check_findings c result query with
  | Ok acc, Ok factors, Ok found => snd acc = product factors 1.0 /\ fst acc = found
  | Err e, Err e1, Err e2 => e1 = e /\ e2 = e
  | _, _, _ => False
  end.
Proof.
  unfold run_checks, check_factors, check_findings.
  destruct (_check_data_structure result) as [s|e]; cbn [bind]; [|split; reflexivity].
  destruct (_check_value_ranges c result) as [r|e]; cbn [bind]; [|split; reflexivity].
  destruct (_check_plausibility fromisoformat_year result) as [p|e]; cbn [bind];
    [|split; reflexivity].
  split.
  - rewrite !penalise_confidence, !product_app. reflexivity.
  - rewrite !penalise_issues. cbn [fst app]. rewrite <- !app_assoc. reflexivity.
Qed.

(** C1.  For every checker state, candidate result and query the outcome
    satisfies [is_verified = (confidence >= 0.7 and len(issues) <= 2)],
    where the confidence is the product, starting from 1.0, of the factors
    of the six checks that failed, and the issues are the issues of those
    checks, in the order structural, range, plausibility, pattern,
    consistency, relevance (when a check raised: confidence 0.0 and the one
    issue that reports the exception, for which the same equation gives
    [False]).  Both conditions are needed: there is a result with a
    confidence of at least 0.7 and more than two issues, and one with at
    most two issues and a confidence below 0.7, and neither is verified. *)
Theorem verified_iff_confident_and_few_issues :
  (forall (c : Checker) (result : dict) (query : pystr),
     let fc := fst (_verify_single_result fromisoformat_year c result query) in
     is_verified fc = (0.7 <=? confidence fc)%float && (length (issues fc) <=? 2)%nat
     /\ match check_factors c result query, check_findings c result query with
        | Ok factors, Ok found =>
            confidence fc = product factors 1.0 /\ issues fc = found
        | Err e, Err _ =>
            confidence fc = 0%float
            /\ issues fc = [u "Verifikationsfehler: " ++ str_exn e]
        | _, _ => False
        end)
  /\ (exists c result query,
        let fc := fst (_verify_single_result fromisoformat_year c result query) in
        (0.7 <=? confidence fc)%float = true
        /\ (length (issues fc) <=? 2)%nat = false
        /\ is_verified fc = false)
  /\ (exists c result query,
        let fc := fst (_verify_single_result fromisoformat_year c result query) in
        (0.7 <=? confidence fc)%float = false
        /\ (length (issues fc) <=? 2)%nat = true
        /\ is_verified fc = false).
Proof.
  split; [|split].
  - intros c result query.
    pose proof (run_checks_outcome c result query) as H.
    unfold _verify_single_result.
    destruct (run_checks fromisoformat_year c result query) as [[found conf]|e];
      destruct (check_factors c result query) as [factors|e1];
      destruct (check_findings c result query) as [found'|e2];
      try contradiction; simpl in H |- *.
    + split; [reflexivity | exact H].
    + destruct H as [-> _]. split; [reflexivity | split; reflexivity].
  - (* two plausibility issues and a query the result does not answer *)
    exists {| year_now := 2026; known_facts_db := NoDb |},
      [ (u "kategorie", PStr (u "kultur")); (u "betrag", PInt 10);
        (u "beschreibung", PStr (u "ab")) ],
      (u "personal").
    vm_compute. repeat split.
  - (* an amount over the ceiling, and nothing else at fault *)
    exists {| year_now := 2026; known_facts_db := NoDb |},
      [ (u "beschreibung", PStr (u "Straßenreparatur")); (u "betrag", PFloat 25000000) ],
      (u "Straßenreparatur").
    vm_compute. repeat split.
Qed.

(** *** The range check dominates *)

(** The store as the checker itself writes it: [_store_verified_fact] is the
    only writer of [verified_facts], and the confidence it stores is the
    literal 0.9. *)
Definition written_by_checker (db : Db) : Prop :=
  match db with
  | OpenDb st =>
      map_Forall (fun _ row => fact_confidence row = 0.9%float) (verified_facts st)
  | _ => True
  end.

Definition consistency_levels : list float :=
  [1.0; 0.8; 0.9; 0.3; 0.6; 0.5]%float.

Lemma similar_level result :
  In (_find_similar_facts_confidence result) consistency_levels.
Proof.
  unfold _find_similar_facts_confidence, consistency_levels.
  destruct (has (u "kategorie") result), (has (u "jahr") result); simpl; tauto.
Qed.

Lemma consistency_level c result :
  written_by_checker (known_facts_db c) ->
  In (fst (_check_consistency_with_known_facts c result)) consistency_levels.
Proof.
  intros Hdb. unfold _check_consistency_with_known_facts.
  destruct (known_facts_db c) as [| |st]; [simpl; tauto | simpl; tauto |].
  destruct (verified_facts st !! _calculate_result_hash result) as [row|] eqn:Hrow.
  - simpl in *. rewrite (Hdb _ _ Hrow). simpl. tauto.
  - destruct (suspicious_entries st !! _calculate_result_hash result) as [entry|].
    + destruct (resolved entry); [apply similar_level | simpl; tauto].
    + apply similar_level.
Qed.

(** Once the range check has failed, no combination of the other five
    outcomes brings the product back to 0.7. *)
Lemma range_penalty_dominates (b1 b3 b4 b6 : bool) (cc : float) :
  In cc consistency_levels ->
  (0.7 <=? product (factor_of b6 0.9)
             (product (factor_of (cc <? 1.0) cc)
                (product (factor_of b4 0.3)
                   (product (factor_of b3 0.8)
                      (product (factor_of true 0.6)
                         (product (factor_of b1 0.7) 1.0))))))%float = false.
Proof.
  unfold consistency_levels. simpl In.
  intros [<-|[<-|[<-|[<-|[<-|[<-|[]]]]]]];
    destruct b1, b3, b4, b6; vm_compute; reflexivity.
Qed.

(** [value > ceiling] holds in Python. *)
Definition exceeds (v : value) (ceiling : Z) : Prop := gt_int v ceiling = Ok true.

Lemma exceeds_cmp v ceiling :
  exceeds v ceiling -> cmp_int v ceiling = Some (Some Gt).
Proof.
  unfold exceeds, gt_int. destruct (cmp_int v ceiling) as [[[]|]|]; simpl; congruence.
Qed.

Lemma cmp_int_defined v z z' :
  cmp_int v z <> None -> cmp_int v z' <> None.
Proof. destruct v; simpl; congruence. Qed.

Lemma bind_assoc {A B C} (m : res A) (f : A -> res B) (g : B -> res C) :
  bind (bind m f) g = bind m (fun a => bind (f a) g).
Proof. destruct m; reflexivity. Qed.

Lemma over_ceiling_outside v lo hi :
  exceeds v hi ->
  (do above <- int_le lo v; if above then le_int v hi else Ok false) = Ok false.
Proof.
  intros H. apply exceeds_cmp in H.
  assert (Hlo : cmp_int v lo <> None) by (apply (cmp_int_defined v hi); congruence).
  unfold int_le, le_int. rewrite H.
  destruct (cmp_int v lo) as [c|]; [|congruence]. simpl.
  destruct (holds _ c); reflexivity.
Qed.

Lemma over_ceiling_range_fails c result betrag :
  get (u "betrag") result = Some betrag ->
  exceeds betrag max_single_expense ->
  match _check_value_ranges c result with
  | Ok range_check => valid range_check = false
  | Err _ => True
  end.
Proof.
  intros Hget Hover.
  unfold _check_value_ranges, valid_ranges, range_issues.
  destruct (range_issue result (u "jahr", _)) as [l1|e]; cbn [bind]; [|exact I].
  assert (Hb : range_issue result (u "betrag", Between (-1000000) max_single_expense)
               = Ok [u "betrag" ++ u " (" ++ str betrag
                     ++ u ") außerhalb gültigen Bereichs "
                     ++ str_of_range (-1000000) max_single_expense]).
  { unfold range_issue. rewrite Hget.
    assert (Hsome : forall A (x y : A),
               match betrag with PNone => x | _ => y end = y).
    { intros. destruct betrag; try reflexivity.
      unfold exceeds in Hover; simpl in Hover; discriminate. }
    rewrite Hsome, <- bind_assoc, (over_ceiling_outside _ _ _ Hover). reflexivity. }
  rewrite Hb. cbn [bind].
  destruct (range_issue result (u "kategorie", _)) as [l3|e]; cbn [bind]; [|exact I].
  destruct l1; reflexivity.
Qed.

(** C4.  A candidate whose [betrag] exceeds the maximum single expense is
    never verified, whatever its other fields and the query, on a store as
    the checker writes it: the range check multiplies the confidence by 0.6,
    and the other factors cannot bring it back to 0.7. *)
Theorem over_ceiling_never_verified (c : Checker) (result : dict) (query : pystr)
    (betrag : value) :
  written_by_checker (known_facts_db c) ->
  get (u "betrag") result = Some betrag ->
  exceeds betrag max_single_expense ->
  is_verified (fst (_verify_single_result fromisoformat_year c result query)) = false.
Proof.
  intros Hdb Hget Hover.
  pose proof (over_ceiling_range_fails c result betrag Hget Hover) as Hrange.
  unfold _verify_single_result, run_checks.
  destruct (_check_data_structure result) as [s|e]; cbn [bind]; [|reflexivity].
  destruct (_check_value_ranges c result) as [r|e]; cbn [bind]; [|reflexivity].
  destruct (_check_plausibility fromisoformat_year result) as [p|e]; cbn [bind];
    [|reflexivity].
  match goal with
  | |- is_verified (fst (match ?acc with (_, _) => _ end)) = false =>
      pose proof (surjective_pairing acc) as Hacc;
      assert (Hlow : (0.7 <=? snd acc)%float = false);
      [| destruct acc as [found conf]; simpl in Hlow |- *; rewrite Hlow; reflexivity]
  end.
  rewrite !penalise_confidence, Hrange. simpl negb.
  apply range_penalty_dominates, consistency_level, Hdb.
Qed.

(** *** The store stays as the checker writes it *)

Lemma written_by_checker_empty : written_by_checker (OpenDb empty_store).
Proof. apply map_Forall_empty. Qed.

Lemma written_by_checker_store c result methods :
  written_by_checker (known_facts_db c) ->
  written_by_checker (known_facts_db (_store_verified_fact c result methods)).
Proof.
  unfold _store_verified_fact. destruct (known_facts_db c) as [| |st] eqn:Hdb;
    try (rewrite Hdb; trivial).
  simpl. intros H. apply map_Forall_insert_2; [reflexivity | exact H].
Qed.

Lemma written_by_checker_log c result found :
  written_by_checker (known_facts_db c) ->
  written_by_checker (known_facts_db (_log_suspicious_entry c result found)).
Proof.
  unfold _log_suspicious_entry. destruct (known_facts_db c) as [| |st] eqn:Hdb;
    try (rewrite Hdb; trivial).
  simpl. trivial.
Qed.

Lemma written_by_checker_verify c result query :
  written_by_checker (known_facts_db c) ->
  written_by_checker
    (known_facts_db (snd (_verify_single_result fromisoformat_year c result query))).
Proof.
  intros H. unfold _verify_single_result.
  destruct (run_checks fromisoformat_year c result query) as [[found conf]|e]; simpl;
    [|exact H].
  destruct ((0.7 <=? conf)%float && (length found <=? 2)%nat && (0.9 <=? conf)%float);
    [apply written_by_checker_store|]; exact H.
Qed.

(** *** The fingerprint *)

(** What the fingerprint reads of a field: whether the result has it, and
    how [json.dumps(..., default=str)] writes its value. *)
Definition rendering (result : dict) (field : pystr) : option pystr :=
  option_map json_value (get field result).

(** Two dictionaries with the same keys in the same order, whose values are
    written alike. *)
Definition written_alike (d1 d2 : dict) : Prop :=
  Forall2 (fun kv1 kv2 => fst kv1 = fst kv2 /\ json_value (snd kv1) = json_value (snd kv2))
          d1 d2.

Lemma hash_data_alike (r1 r2 : dict) :
  Forall (fun field => rendering r1 field = rendering r2 field) hash_fields ->
  written_alike (hash_data r1) (hash_data r2).
Proof.
  unfold hash_data, written_alike, rendering.
  induction 1 as [|field fields Hf _ IH]; [constructor|].
  simpl. destruct (get field r1) as [v1|], (get field r2) as [v2|]; try discriminate.
  - injection Hf as Hv. constructor; [split; [reflexivity | exact Hv] | exact IH].
  - exact IH.
Qed.

Lemma insert_sorted_alike kv1 kv2 d1 d2 :
  fst kv1 = fst kv2 /\ json_value (snd kv1) = json_value (snd kv2) ->
  written_alike d1 d2 ->
  written_alike (insert_sorted kv1 d1) (insert_sorted kv2 d2).
Proof.
  intros Hkv. induction 1 as [|x1 x2 d1 d2 Hx Hd IH]; simpl.
  - constructor; [exact Hkv | constructor].
  - destruct Hkv as [Hk Hv], Hx as [Hxk Hxv]. rewrite <- Hk, <- Hxk.
    destruct (str_ltb (fst kv1) (fst x1)).
    + constructor; [split; assumption|]. constructor; [split; assumption | exact Hd].
    + constructor; [split; assumption | exact IH].
Qed.

Lemma sort_items_alike d1 d2 :
  written_alike d1 d2 -> written_alike (sort_items d1) (sort_items d2).
Proof.
  unfold sort_items. induction 1 as [|kv1 kv2 d1 d2 Hkv _ IH]; simpl; [constructor|].
  apply insert_sorted_alike; assumption.
Qed.

Lemma json_dumps_alike d1 d2 : written_alike d1 d2 -> json_dumps d1 = json_dumps d2.
Proof.
  intros H. unfold json_dumps.
  assert (Hitems : map json_item d1 = map json_item d2).
  { induction H as [|kv1 kv2 d1 d2 [Hk Hv] _ IH]; [reflexivity|].
    simpl. unfold json_item at 1 3. rewrite Hk, Hv, IH. reflexivity. }
  rewrite Hitems. reflexivity.
Qed.

(** C9 (amended).  Two candidates that agree on [jahr], [kategorie],
    [beschreibung] and [betrag], each absent in both or present in both
    with values that [json.dumps(..., default=str)] writes alike (the same
    value of the same type; an object json cannot serialise counts as its
    [str()]), have the same fingerprint, whatever other fields they carry
    and in whatever order; with [r2 = r1], two calls on one result give the
    same string. *)
Theorem fingerprint_of_agreeing_results (r1 r2 : dict) :
  Forall (fun field => rendering r1 field = rendering r2 field) hash_fields ->
  _calculate_result_hash r1 = _calculate_result_hash r2.
Proof.
  intros H. unfold _calculate_result_hash, hash_string, json_dumps_sorted.
  rewrite (json_dumps_alike _ _ (sort_items_alike _ _ (hash_data_alike r1 r2 H))).
  reflexivity.
Qed.

End SingleResult.

Section Batch.

Variable fromisoformat_year : pystr -> option Z.

Abbreviation verify := (_verify_single_result fromisoformat_year).

(** *** The three tiers, as a specification *)

(** [result['_fact_check'] = note] on a candidate, and a candidate the loop
    did not write into. *)
Definition annotated (r : candidate) (note : field_value) : record :=
  set_item (u "_fact_check") note (plain (fields r)).

Definition untouched (r : candidate) : record := plain (fields r).

Definition suspicious_row (result : dict) (found : list pystr) : SuspiciousRow :=
  {| entry_data := json_dumps result;
     suspicion_reason := join (u "; ") found;
     resolved := false |}.

(** [c'] is [c] after the result was logged as suspicious: with an open
    database, the entry under the result's fingerprint is the result with
    the joined issues as its reason; without one, nothing changes. *)
Definition logged (c : Checker) (result : dict) (found : list pystr) (c' : Checker)
    : Prop :=
  year_now c' = year_now c
  /\ match known_facts_db c with
     | OpenDb st =>
         exists st',
           known_facts_db c' = OpenDb st'
           /\ verified_facts st' = verified_facts st
           /\ suspicious_entries st'
              = <[_calculate_result_hash result := suspicious_row result found]>
                  (suspicious_entries st)
     | db => known_facts_db c' = db
     end.

(** [handled query c results kept seen c']: starting from the checker [c],
    the batch [results] is split three ways; [kept] are the results shown,
    in order, each with its annotation; [seen] are all of them as the pass
    leaves them; [c'] is the checker afterwards. *)
Inductive handled (query : pystr)
    : Checker -> list candidate -> list record -> list record -> Checker -> Prop :=
| handled_none c :
    handled query c [] [] [] c
| handled_verified c r results fc c1 kept seen c2 :
    verify c (fields r) query = (fc, c1) ->
    is_verified fc = true ->
    handled query c1 results kept seen c2 ->
    let shown :=
      annotated r (FactCheckVerified (confidence fc) (verification_method fc) (source fc)) in
    handled query c (r :: results) (shown :: kept) (shown :: seen) c2
| handled_suspicious c r results fc c1 kept seen c2 :
    verify c (fields r) query = (fc, c1) ->
    is_verified fc = false ->
    (0.5 <? confidence fc)%float = true ->
    handled query c1 results kept seen c2 ->
    let shown :=
      annotated r (FactCheckUnverified (confidence fc) (issues fc)
                     (u "Daten nicht vollständig verifiziert")) in
    handled query c (r :: results) (shown :: kept) (shown :: seen) c2
| handled_filtered c r results fc c1 c1' kept seen c2 :
    verify c (fields r) query = (fc, c1) ->
    is_verified fc = false ->
    (0.5 <? confidence fc)%float = false ->
    logged c1 (fields r) (issues fc) c1' ->
    handled query c1' results kept seen c2 ->
    handled query c (r :: results) kept (untouched r :: seen) c2.

(** [verified_results[0]['_verification_stats'] = verification_stats] *)
Definition with_stats (st : stats) (kept : list record) : list record :=
  match kept with
  | [] => []
  | first :: others =>
      set_item (u "_verification_stats") (VerificationStats st) first :: others
  end.

Lemma log_is_logged c result found :
  logged c result found (_log_suspicious_entry c result found).
Proof.
  unfold logged, _log_suspicious_entry.
  destruct (known_facts_db c) as [| |st] eqn:Hdb; simpl; rewrite ?Hdb; split; try reflexivity.
  eexists. split; [reflexivity|]. split; reflexivity.
Qed.

Lemma annotation_some fc note :
  annotation fc = Some note ->
  (is_verified fc = true
   /\ note = FactCheckVerified (confidence fc) (verification_method fc) (source fc))
  \/ (is_verified fc = false /\ (0.5 <? confidence fc)%float = true
      /\ note = FactCheckUnverified (confidence fc) (issues fc)
                  (u "Daten nicht vollständig verifiziert")).
Proof.
  unfold annotation. destruct (is_verified fc); [intros [= <-]; left; auto|].
  destruct (0.5 <? confidence fc)%float; [intros [= <-]; right; auto | discriminate].
Qed.

Lemma annotation_none fc :
  annotation fc = None ->
  is_verified fc = false /\ (0.5 <? confidence fc)%float = false.
Proof.
  unfold annotation. destruct (is_verified fc); [discriminate|].
  destruct (0.5 <? confidence fc)%float; [discriminate | auto].
Qed.

(** The loop, read against the specification: either it reaches the end,
    or it stops at the first result it would keep and cannot write into. *)
Lemma loop_spec query results : forall s,
  match loop fromisoformat_year query s results with
  | (inl s', unreached) =>
      unreached = []
      /\ exists kept seen,
           handled query (checker s) results kept seen (checker s')
           /\ verified_results s' = verified_results s ++ kept
           /\ visited s' = visited s ++ seen
  | (inr (e, s'), unreached) =>
      exists done r rest kept seen c1,
        results = done ++ r :: rest
        /\ unreached = r :: rest
        /\ handled query (checker s) done kept seen c1
        /\ writable r = false
        /\ annotation (fst (verify c1 (fields r) query)) <> None
        /\ checker s' = snd (verify c1 (fields r) query)
        /\ verified_results s' = verified_results s ++ kept
        /\ visited s' = visited s ++ seen
  end.
Proof.
  induction results as [|r results IH]; intros s; simpl.
  - split; [reflexivity|]. exists [], []. rewrite !app_nil_r.
    split; [constructor | split; reflexivity].
  - unfold loop_body.
    destruct (verify (checker s) (fields r) query) as [fc c1] eqn:Hv.
    destruct (annotation fc) as [note|] eqn:Hn.
    + unfold assign. destruct (writable r) eqn:Hw.
      * match goal with |- context [loop _ query ?s1 results] => specialize (IH s1) end.
        destruct (loop fromisoformat_year query _ results) as [[s'|[e s']] unreached];
          simpl in IH.
        -- destruct IH as (-> & kept & seen & Hh & Hk & Hs). split; [reflexivity|].
           exists (annotated r note :: kept), (annotated r note :: seen).
           rewrite Hk, Hs, <- !app_assoc. split; [|split; reflexivity].
           destruct (annotation_some _ _ Hn) as [[Hver ->]|(Hver & Hconf & ->)].
           ++ eapply handled_verified; eauto.
           ++ eapply handled_suspicious; eauto.
        -- destruct IH as (done & r' & rest & kept & seen & c2 & -> & -> & Hh & Hw' & Ha
                           & Hc & Hk & Hs).
           exists (r :: done), r', rest, (annotated r note :: kept),
             (annotated r note :: seen), c2.
           rewrite Hk, Hs, <- !app_assoc.
           repeat split; try reflexivity; try assumption.
           destruct (annotation_some _ _ Hn) as [[Hver ->]|(Hver & Hconf & ->)].
           ++ eapply handled_verified; eauto.
           ++ eapply handled_suspicious; eauto.
      * exists [], r, results, [], [], (checker s). simpl. rewrite !app_nil_r, Hv. simpl.
        repeat split; try reflexivity; try assumption; [constructor | congruence].
    + destruct (annotation_none _ Hn) as [Hver Hconf].
      match goal with |- context [loop _ query ?s1 results] => specialize (IH s1) end.
      destruct (loop fromisoformat_year query _ results) as [[s'|[e s']] unreached];
        simpl in IH.
      * destruct IH as (-> & kept & seen & Hh & Hk & Hs). split; [reflexivity|].
        exists kept, (untouched r :: seen). rewrite Hk, Hs, <- !app_assoc.
        split; [|split; reflexivity].
        eapply handled_filtered; eauto using log_is_logged.
      * destruct IH as (done & r' & rest & kept & seen & c2 & -> & -> & Hh & Hw' & Ha
                        & Hc & Hk & Hs).
        exists (r :: done), r', rest, kept, (untouched r :: seen), c2.
        rewrite Hk, Hs, <- !app_assoc.
        repeat split; try reflexivity; try assumption.
        eapply handled_filtered; eauto using log_is_logged.
Qed.

Lemma handled_seen_length query c results kept seen c' :
  handled query c results kept seen c' -> length seen = length results.
Proof. induction 1; simpl; congruence. Qed.

(** The returned list and the checker of a call are those of a three-way
    split of the batch, with the statistics on the first returned result. *)
Definition split_three_ways (c : Checker) (results : list candidate) (query : pystr)
    : Prop :=
  let o := verify_results fromisoformat_year c results query in
  exists kept seen,
    handled query c results kept seen (checker_after o)
    /\ returned o = match logged_stats o with
                    | Some st => with_stats st kept
                    | None => kept
                    end.

(** C2 (amended).  When no exception leaves the loop, the batch is split
    three ways in order: a verified result is returned with the
    [verified=True] annotation, an unverified one with confidence above 0.5
    is returned with [verified=False] and its issues, every other result is
    left out of the returned list and logged; the log reaches the
    suspicious-entries table when the database is open.  The statistics go
    onto the first returned result. *)
Theorem batch_three_way_split (c : Checker) (results : list candidate) (query : pystr) :
  caught (verify_results fromisoformat_year c results query) = None ->
  split_three_ways c results query.
Proof.
  unfold split_three_ways, verify_results. destruct results as [|r results].
  - simpl. intros _. exists [], []. split; [constructor | reflexivity].
  - match goal with |- context [loop _ query ?s0 ?rs] =>
      pose proof (loop_spec query rs s0) as H;
      destruct (loop fromisoformat_year query s0 rs) as [[s'|[e s']] unreached]
    end; simpl; [|discriminate].
    intros _. destruct H as (_ & kept & seen & Hh & Hk & _). simpl in Hh, Hk.
    exists kept, seen. rewrite Hk. split; [exact Hh | reflexivity].
Qed.

(** The call stopped at a result [r] it could not write into, after a
    three-way pass over the results [done] before it, and returned the
    whole batch as that pass left it. *)
Definition fell_back (c : Checker) (results : list candidate) (query : pystr) : Prop :=
  let o := verify_results fromisoformat_year c results query in
  exists done r rest kept seen c1,
    results = done ++ r :: rest
    /\ handled query c done kept seen c1
    /\ writable r = false
    /\ returned o = seen ++ map untouched (r :: rest)
    /\ length (returned o) = length results
    /\ checker_after o = snd (verify c1 (fields r) query)
    /\ logged_stats o = None.

(** C10 (amended).  When an exception leaves the loop, the call returns the
    list it was given: every result is there, in order, and no statistics
    are attached or logged; but the results handled before the failing one
    are returned as the loop left them, the kept ones with their
    [_fact_check] annotation, and the checker is the one the loop had
    reached, with the entries logged so far. *)
Theorem fallback_returns_written_inputs (c : Checker) (results : list candidate)
    (query : pystr) (e : exn) :
  caught (verify_results fromisoformat_year c results query) = Some e ->
  fell_back c results query.
Proof.
  unfold fell_back, verify_results. destruct results as [|r0 results]; [discriminate|].
  match goal with |- context [loop _ query ?s0 ?rs] =>
    pose proof (loop_spec query rs s0) as H;
    destruct (loop fromisoformat_year query s0 rs) as [[s'|[e' s']] unreached]
  end; simpl; [discriminate|].
  intros _.
  destruct H as (done & r & rest & kept & seen & c1 & Hres & -> & Hh & Hw & _ & Hc & _ & Hs).
  simpl in Hh, Hs.
  assert (Hlen : length (seen ++ map untouched (r :: rest)) = length (r0 :: results)).
  { rewrite Hres, !length_app, (handled_seen_length _ _ _ _ _ _ Hh). simpl.
    rewrite length_map. reflexivity. }
  exists done, r, rest, kept, seen, c1. rewrite Hs.
  repeat split; try assumption; try reflexivity.
Qed.

(** *** The statistics *)

Definition balanced (n : nat) (st : stats) : Prop :=
  (verified st + suspicious st + filtered st = total st)%nat /\ total st = n.

Lemma loop_counts query results : forall s,
  match loop fromisoformat_year query s results with
  | (inl s', _) =>
      total (verification_stats s') = total (verification_stats s)
      /\ (verified (verification_stats s') + suspicious (verification_stats s')
          + filtered (verification_stats s')
          = verified (verification_stats s) + suspicious (verification_stats s)
            + filtered (verification_stats s) + length results)%nat
  | (inr _, _) => True
  end.
Proof.
  induction results as [|r results IH]; intros s; simpl; [lia|].
  unfold loop_body.
  destruct (verify (checker s) (fields r) query) as [fc c1].
  destruct (annotation fc) as [note|].
  - destruct (assign r (u "_fact_check") note) as [rec|e]; [|exact I].
    match goal with |- context [loop _ query ?s1 results] => specialize (IH s1) end.
    destruct (loop fromisoformat_year query _ results) as [[s'|?] ?]; [|exact I].
    simpl in IH. destruct (is_verified fc); simpl in IH; lia.
  - match goal with |- context [loop _ query ?s1 results] => specialize (IH s1) end.
    destruct (loop fromisoformat_year query _ results) as [[s'|?] ?]; [|exact I].
    simpl in IH. lia.
Qed.

(** The statistics a record carries. *)
Definition stats_in (rec : record) : list stats :=
  flat_map (fun kv => match snd kv with VerificationStats st => [st] | _ => [] end) rec.

(** Every statistics object a call produces: the one it logs and the ones
    found on the results it returns. *)
Definition produced_stats (o : outcome) : list stats :=
  match logged_stats o with Some st => [st] | None => [] end
  ++ flat_map stats_in (returned o).

Lemma stats_in_plain d : stats_in (plain d) = [].
Proof. induction d as [|[k v] d IH]; [reflexivity | exact IH]. Qed.

Lemma stats_in_set_item k v rec :
  stats_in rec = [] ->
  stats_in (set_item k v rec) = match v with VerificationStats st => [st] | _ => [] end.
Proof.
  induction rec as [|[k' v'] rec IH]; simpl; intros H.
  - destruct v; reflexivity.
  - destruct (str_eqb k k'); unfold stats_in in *; simpl in *.
    + destruct v'; try discriminate; simpl in H; rewrite H;
        destruct v; reflexivity.
    + destruct v'; try discriminate; simpl in H |- *; apply IH, H.
Qed.

Lemma handled_no_stats query c results kept seen c' :
  handled query c results kept seen c' ->
  Forall (fun rec => stats_in rec = []) kept /\ Forall (fun rec => stats_in rec = []) seen.
Proof.
  induction 1 as [| ? ? ? ? ? ? ? ? ? ? ? [IHk IHs] shown
                  | ? ? ? ? ? ? ? ? ? ? ? ? [IHk IHs] shown
                  | ? ? ? ? ? ? ? ? ? ? ? ? ? ? [IHk IHs]].
  - split; constructor.
  - assert (stats_in shown = [])
      by (unfold shown, annotated; rewrite stats_in_set_item; auto using stats_in_plain).
    split; constructor; assumption.
  - assert (stats_in shown = [])
      by (unfold shown, annotated; rewrite stats_in_set_item; auto using stats_in_plain).
    split; constructor; assumption.
  - split; [assumption|]. constructor; [apply stats_in_plain | assumption].
Qed.

Lemma flat_map_nil {A B} (f : A -> list B) (l : list A) :
  Forall (fun x => f x = []) l -> flat_map f l = [].
Proof. induction 1 as [|x l Hx _ IH]; simpl; [reflexivity | rewrite Hx, IH; reflexivity]. Qed.

Lemma untouched_no_stats (rest : list candidate) :
  flat_map stats_in (map (fun r => plain (fields r)) rest) = [].
Proof.
  induction rest as [|r rest IH]; simpl; [reflexivity|].
  rewrite stats_in_plain. exact IH.
Qed.

(** The results kept are those counted as verified or suspicious. *)
Lemma loop_kept query results : forall s,
  match loop fromisoformat_year query s results with
  | (inl s', _) =>
      (verified (verification_stats s') + suspicious (verification_stats s')
       + length (verified_results s)
       = verified (verification_stats s) + suspicious (verification_stats s)
         + length (verified_results s'))%nat
  | (inr _, _) => True
  end.
Proof.
  induction results as [|r results IH]; intros s; simpl; [lia|].
  unfold loop_body.
  destruct (verify (checker s) (fields r) query) as [fc c1].
  destruct (annotation fc) as [note|].
  - destruct (assign r (u "_fact_check") note) as [rec|e]; [|exact I].
    match goal with |- context [loop _ query ?s1 results] => specialize (IH s1) end.
    destruct (loop fromisoformat_year query _ results) as [[s'|?] ?]; [|exact I].
    simpl in IH. rewrite length_app in IH. destruct (is_verified fc); simpl in IH; lia.
  - match goal with |- context [loop _ query ?s1 results] => specialize (IH s1) end.
    destruct (loop fromisoformat_year query _ results) as [[s'|?] ?]; [|exact I].
    simpl in IH. lia.
Qed.

Lemma item_set_item k v rec : item k (set_item k v rec) = Some v.
Proof.
  assert (Hk : str_eqb k k = true) by (apply bool_decide_eq_true_2; reflexivity).
  induction rec as [|[k' v'] rec IH]; simpl; [rewrite Hk; reflexivity|].
  destruct (str_eqb k k') eqn:Hkk'; simpl; [rewrite Hk; reflexivity|].
  rewrite Hkk'. exact IH.
Qed.

(** C3 (amended).  A call on a non-empty batch that no exception cuts short
    produces statistics: it logs them, and they satisfy
    [verified + suspicious + filtered = total] with [total] the number of
    results passed in and [verified + suspicious] the number of results
    returned; the first returned result carries them under
    [_verification_stats], and no other statistics exist.  For the empty
    batch, and when the call falls back to its input, no statistics are
    produced at all. *)
Theorem statistics_add_up (c : Checker) (results : list candidate) (query : pystr) :
  let o := verify_results fromisoformat_year c results query in
  match results, caught o with
  | _ :: _, None =>
      exists st,
        logged_stats o = Some st
        /\ balanced (length results) st
        /\ (verified st + suspicious st)%nat = length (returned o)
        /\ match returned o with
           | first :: _ => item (u "_verification_stats") first = Some (VerificationStats st)
           | [] => True
           end
        /\ produced_stats o = st :: match returned o with [] => [] | _ :: _ => [st] end
  | _, _ => produced_stats o = []
  end.
Proof.
  unfold verify_results, produced_stats. destruct results as [|r results]; [reflexivity|].
  match goal with |- context [loop _ query ?s0 ?rs] =>
    pose proof (loop_spec query rs s0) as H;
    pose proof (loop_counts query rs s0) as Hc;
    pose proof (loop_kept query rs s0) as Hk';
    destruct (loop fromisoformat_year query s0 rs) as [[s'|[e s']] unreached]
  end; cbn [returned logged_stats caught].
  - destruct H as (_ & kept & seen & Hh & Hk & _). simpl in Hk, Hc, Hk'.
    exists (verification_stats s'). split; [reflexivity|].
    split; [unfold balanced; simpl; lia|].
    rewrite Hk in Hk' |- *. apply handled_no_stats in Hh. destruct Hh as [Hkept _].
    destruct kept as [|first others]; simpl in Hk' |- *.
    + split; [lia|]. split; [exact I | reflexivity].
    + split; [lia|]. split; [apply item_set_item|].
      inversion Hkept as [|? ? Hfirst Hothers]; subst.
      rewrite stats_in_set_item by assumption.
      rewrite (flat_map_nil _ _ Hothers). reflexivity.
  - destruct H as (done & r' & rest & kept & seen & c1 & _ & -> & Hh & _ & _ & _ & _ & Hs).
    simpl in Hs. rewrite Hs. apply handled_no_stats in Hh. destruct Hh as [_ Hseen].
    simpl. rewrite flat_map_app, (flat_map_nil _ _ Hseen). simpl.
    rewrite stats_in_plain, untouched_no_stats. reflexivity.
Qed.

(** A batch of plain dictionaries never falls back, and a non-empty one
    always logs its statistics. *)
Lemma loop_of_writable query results : forall s,
  Forall (fun r => writable r = true) results ->
  exists s', loop fromisoformat_year query s results = (inl s', []).
Proof.
  induction results as [|r results IH]; intros s Hw; simpl; [eauto|].
  inversion Hw as [|? ? Hr Hrest]; subst. unfold loop_body, assign. rewrite Hr.
  destruct (verify (checker s) (fields r) query) as [fc c1].
  destruct (annotation fc); apply IH, Hrest.
Qed.

Lemma writable_batch_completes c results query :
  Forall (fun r => writable r = true) results ->
  caught (verify_results fromisoformat_year c results query) = None
  /\ (results <> [] ->
      logged_stats (verify_results fromisoformat_year c results query) <> None).
Proof.
  intros Hw. unfold verify_results.
  destruct results as [|r results]; [split; [reflexivity | congruence]|].
  match goal with |- context [loop _ query ?s0 ?rs] =>
    destruct (loop_of_writable query rs s0 Hw) as [s' ->]
  end.
  simpl. split; [reflexivity | intros _; discriminate].
Qed.

(** A non-empty batch of plain dictionaries logs statistics that add up to
    its length. *)
Lemma statistics_of_plain_batch c results query :
  Forall (fun r => writable r = true) results ->
  results <> [] ->
  exists st,
    logged_stats (verify_results fromisoformat_year c results query) = Some st
    /\ balanced (length results) st.
Proof.
  intros Hw Hne. unfold verify_results.
  destruct results as [|r results]; [congruence|].
  match goal with |- context [loop _ query ?s0 ?rs] =>
    pose proof (loop_counts query rs s0) as Hc;
    destruct (loop_of_writable query rs s0 Hw) as [s' Hl]
  end.
  rewrite Hl in Hc |- *. simpl in Hc |- *.
  exists (verification_stats s'). split; [reflexivity|].
  unfold balanced. simpl. lia.
Qed.

(** *** The store after a batch *)

Lemma written_by_checker_loop query results : forall s,
  written_by_checker (known_facts_db (checker s)) ->
  match fst (loop fromisoformat_year query s results) with
  | inl s' => written_by_checker (known_facts_db (checker s'))
  | inr (_, s') => written_by_checker (known_facts_db (checker s'))
  end.
Proof.
  induction results as [|r results IH]; intros s H; [exact H|].
  simpl. unfold loop_body.
  pose proof (written_by_checker_verify fromisoformat_year (checker s) (fields r) query H)
    as Hv.
  destruct (_verify_single_result fromisoformat_year (checker s) (fields r) query)
    as [fc c']. simpl in Hv.
  destruct (annotation fc) as [note|].
  - destruct (assign r (u "_fact_check") note) as [a|e]; [apply IH|]; exact Hv.
  - apply IH. simpl. apply written_by_checker_log, Hv.
Qed.

(** A call of [verify_results] leaves the store as the checker writes it,
    however the call ends. *)
Lemma written_by_checker_batch c results query :
  written_by_checker (known_facts_db c) ->
  written_by_checker
    (known_facts_db (checker_after (verify_results fromisoformat_year c results query))).
Proof.
  intros H. unfold verify_results. destruct results as [|r results]; [exact H|].
  match goal with |- context [loop _ query ?s0 ?rs] =>
    pose proof (written_by_checker_loop query rs s0 H) as Hl;
    destruct (loop fromisoformat_year query s0 rs) as [[s'|[e s']] unreached]
  end; exact Hl.
Qed.

End Batch.

(** *** The properties at work on a small batch *)

Definition leap (y : Z) : bool :=
  (y mod 4 =? 0) && (negb (y mod 100 =? 0) || (y mod 400 =? 0)).

Definition days_in_month (y m : Z) : Z :=
  if m =? 2 then (if leap y then 29 else 28)
  else if (m =? 4) || (m =? 6) || (m =? 9) || (m =? 11) then 30 else 31.

(** [datetime.fromisoformat(s).year] for a plain calendar date
    [YYYY-MM-DD], as CPython 3.7 to 3.10 read one; the examples below carry
    no [datum], so nothing in them depends on how other strings are read. *)
Definition isoformat_date_year (s : pystr) : option Z :=
  match s with
  | [y1; y2; y3; y4; 45; m1; m2; 45; d1; d2]%N =>
      if forallb is_digit [y1; y2; y3; y4; m1; m2; d1; d2] then
        let digit (c : N) := Z.of_N c - 48 in
        let y := Num.horner (map digit [y1; y2; y3; y4]) in
        let m := Num.horner (map digit [m1; m2]) in
        let d := Num.horner (map digit [d1; d2]) in
        if (1 <=? y) && (1 <=? m) && (m <=? 12) && (1 <=? d) && (d <=? days_in_month y m)
        then Some y else None
      else None
  | _ => None
  end.

Definition road_query : pystr := u "Wie viel gab die Gemeinde 2023 für Straßen aus?".

Definition road_repair : dict :=
  [ (u "jahr", PInt 2023); (u "kategorie", PStr (u "infrastruktur"));
    (u "beschreibung", PStr (u "Straßenreparatur")); (u "betrag", PFloat 25000) ].

(** A salary entry whose description carries a word of the placeholder
    list. *)
Definition salary_test : dict :=
  [ (u "jahr", PInt 2023); (u "kategorie", PStr (u "personal"));
    (u "beschreibung", PStr (u "Gehalt Test Gemeinde")); (u "betrag", PInt 5000) ].

(** Year out of range, description too short. *)
Definition implausible : dict :=
  [ (u "jahr", PInt 2045); (u "betrag", PFloat 5); (u "beschreibung", PStr (u "x")) ].

Definition over_ceiling : dict :=
  [ (u "jahr", PInt 2023); (u "kategorie", PStr (u "infrastruktur"));
    (u "beschreibung", PStr (u "Straßenreparatur")); (u "betrag", PFloat 25000000) ].

Definition plain_dict (d : dict) : candidate := {| fields := d; writable := true |}.
Definition immutable_dict (d : dict) : candidate := {| fields := d; writable := false |}.

Definition fresh_checker : Checker :=
  {| year_now := 2026; known_facts_db := OpenDb empty_store |}.

Definition checker_without_db : Checker :=
  {| year_now := 2026; known_facts_db := NoDb |}.

Definition no_assignment : exn :=
  Raise TypeError (u "object does not support item assignment").

Lemma over_ceiling_witness :
  written_by_checker (known_facts_db fresh_checker)
  /\ get (u "betrag") over_ceiling = Some (PFloat 25000000)
  /\ exceeds (PFloat 25000000) max_single_expense
  /\ is_verified
       (fst (_verify_single_result isoformat_date_year fresh_checker over_ceiling
               road_query)) = false.
Proof.
  assert (Hdb : written_by_checker (known_facts_db fresh_checker))
    by (apply map_Forall_empty).
  assert (Hover : exceeds (PFloat 25000000) max_single_expense) by reflexivity.
  split; [exact Hdb|]. split; [reflexivity|]. split; [exact Hover|].
  exact (over_ceiling_never_verified isoformat_date_year fresh_checker over_ceiling
           road_query (PFloat 25000000) Hdb eq_refl Hover).
Defined.

(** The same four fields, in another order and among other fields; the
    amount is a [Decimal] in one and its text in the other. *)
Definition road_repair_booked : dict :=
  [ (u "jahr", PInt 2023); (u "kategorie", PStr (u "infrastruktur"));
    (u "beschreibung", PStr (u "Straßenreparatur"));
    (u "betrag", PObj (u "decimal.Decimal") (u "25000.50")) ].

Definition road_repair_from_store : dict :=
  [ (u "_id", PObj (u "bson.objectid.ObjectId") (u "65a1f0c2e13f4b0012ab34cd"));
    (u "betrag", PStr (u "25000.50")); (u "quelle", PStr (u "Rechnungsabschluss"));
    (u "beschreibung", PStr (u "Straßenreparatur"));
    (u "kategorie", PStr (u "infrastruktur")); (u "jahr", PInt 2023) ].

Lemma road_repair_renderings :
  Forall (fun field => rendering road_repair_booked field
                       = rendering road_repair_from_store field) hash_fields.
Proof. repeat (constructor; [vm_compute; reflexivity|]). constructor. Defined.

Lemma fingerprint_witness :
  Forall (fun field => rendering road_repair_booked field
                       = rendering road_repair_from_store field) hash_fields
  /\ _calculate_result_hash road_repair_booked
     = _calculate_result_hash road_repair_from_store.
Proof.
  split; [exact road_repair_renderings|].
  exact (fingerprint_of_agreeing_results road_repair_booked road_repair_from_store
           road_repair_renderings).
Defined.

Example road_repair_fingerprint :
  _calculate_result_hash road_repair_booked = u "89630043c757779e59031cd7362ddade".
Proof. vm_compute. reflexivity. Qed.

(** One result of each tier. *)
Definition mixed_batch : list candidate :=
  [plain_dict road_repair; plain_dict salary_test; plain_dict implausible].

Lemma three_way_split_witness :
  caught (verify_results isoformat_date_year fresh_checker mixed_batch road_query) = None
  /\ split_three_ways isoformat_date_year fresh_checker mixed_batch road_query.
Proof.
  assert (H : caught (verify_results isoformat_date_year fresh_checker mixed_batch
                        road_query) = None) by (vm_compute; reflexivity).
  split; [exact H | exact (batch_three_way_split isoformat_date_year fresh_checker
                             mixed_batch road_query H)].
Defined.

(** The record of a result in the suspicious-entries table. *)
Definition in_suspicious_entries (c : Checker) (result : dict) (found : list pystr)
    : Prop :=
  match known_facts_db c with
  | OpenDb st =>
      suspicious_entries st !! _calculate_result_hash result
      = Some (suspicious_row result found)
  | _ => False
  end.

(** C2, as stated, fails without a database: the result is in the third
    tier and is dropped, and no table holds it. *)
Lemma dropped_without_database_is_not_logged :
  let o := verify_results isoformat_date_year checker_without_db
             [plain_dict implausible] road_query in
  let fc := fst (_verify_single_result isoformat_date_year checker_without_db
                   implausible road_query) in
  annotation fc = None
  /\ returned o = []
  /\ caught o = None
  /\ ~ in_suspicious_entries (checker_after o) implausible (issues fc).
Proof.
  repeat split; try (vm_compute; reflexivity).
  vm_compute. exact (fun H => H).
Qed.

(** With the database open the same result is logged. *)
Example dropped_with_database_is_logged :
  let o := verify_results isoformat_date_year fresh_checker
             [plain_dict implausible] road_query in
  let fc := fst (_verify_single_result isoformat_date_year fresh_checker
                   implausible road_query) in
  returned o = [] /\ in_suspicious_entries (checker_after o) implausible (issues fc).
Proof. split; vm_compute; reflexivity. Qed.

(** A batch whose third result is an immutable mapping that would be kept. *)
Definition batch_with_immutable : list candidate :=
  [plain_dict road_repair; plain_dict implausible; immutable_dict road_repair].

Lemma fallback_witness :
  caught (verify_results isoformat_date_year fresh_checker batch_with_immutable road_query)
  = Some no_assignment
  /\ fell_back isoformat_date_year fresh_checker batch_with_immutable road_query.
Proof.
  assert (H : caught (verify_results isoformat_date_year fresh_checker
                        batch_with_immutable road_query) = Some no_assignment)
    by (vm_compute; reflexivity).
  split; [exact H | exact (fallback_returns_written_inputs isoformat_date_year
                             fresh_checker batch_with_immutable road_query
                             no_assignment H)].
Defined.

(** C10, as stated, fails: the exception leaves the loop at the third
    result, and the list returned is not the input as it was passed in (its
    first result now carries the annotation of a verified result), and the
    second result has been logged to the suspicious-entries table. *)
Lemma fallback_keeps_annotation_and_log :
  let o := verify_results isoformat_date_year fresh_checker batch_with_immutable
             road_query in
  caught o = Some no_assignment
  /\ item (u "_fact_check") (nth 0 (map untouched batch_with_immutable) []) = None
  /\ match item (u "_fact_check") (nth 0 (returned o) []) with
     | Some (FactCheckVerified _ _ _) => True
     | _ => False
     end
  /\ match known_facts_db (checker_after o) with
     | OpenDb st =>
         suspicious_entries empty_store !! _calculate_result_hash implausible = None
         /\ exists row,
              suspicious_entries st !! _calculate_result_hash implausible = Some row
     | _ => False
     end.
Proof.
  split; [vm_compute; reflexivity|]. split; [vm_compute; reflexivity|].
  split; [vm_compute; exact I|].
  vm_compute. split; [reflexivity | eexists; reflexivity].
Qed.

(** C3, as stated, fails for the empty batch and for a batch the call falls
    back on: no statistics are produced for either, nothing is logged and
    no returned result carries any, so there are no counts, with [total] 0
    or 3, that add up. *)
Lemma no_statistics_for_empty_or_abandoned_batch :
  let empty := verify_results isoformat_date_year fresh_checker [] road_query in
  let abandoned := verify_results isoformat_date_year fresh_checker batch_with_immutable
                     road_query in
  returned empty = [] /\ logged_stats empty = None /\ produced_stats empty = []
  /\ length batch_with_immutable = 3%nat
  /\ caught abandoned = Some no_assignment
  /\ length (returned abandoned) = 3%nat
  /\ logged_stats abandoned = None /\ produced_stats abandoned = [].
Proof. repeat split; vm_compute; reflexivity. Qed.

(** Statistics of the mixed batch: one result in each tier. *)
Example mixed_batch_statistics :
  logged_stats (verify_results isoformat_date_year fresh_checker mixed_batch road_query)
  = Some {| total := 3; verified := 1; suspicious := 1; filtered := 1 |}.
Proof. vm_compute. reflexivity. Qed.

(** A confidence of at least 0.7 does not suffice: three plausibility
    issues leave the confidence at 0.8 and the result unverified. *)
Definition three_issues : dict :=
  [ (u "jahr", PInt 2022); (u "datum", PStr (u "2023-05-01"));
    (u "kategorie", PStr (u "kultur")); (u "betrag", PInt 10);
    (u "beschreibung", PStr (u "ab")) ].

Example confident_but_too_many_issues :
  let fc := fst (_verify_single_result isoformat_date_year checker_without_db
                   three_issues (u "kultur 2022")) in
  (0.7 <=? confidence fc)%float = true
  /\ length (issues fc) = 3%nat
  /\ is_verified fc = false.
Proof. vm_compute. repeat split; reflexivity. Qed.

(** A checker whose verified-facts table holds the road repair. *)
Definition checker_with_fact : Checker :=
  _store_verified_fact fresh_checker road_repair verification_methods.

Lemma checker_with_fact_is_written :
  written_by_checker (known_facts_db checker_with_fact).
Proof. apply written_by_checker_store, written_by_checker_empty. Defined.

(** The store of the mixed batch, starting from a table with one row: the
    row is still there after the call, with its confidence of 0.9. *)
Lemma store_after_mixed_batch :
  let after := checker_after (verify_results isoformat_date_year checker_with_fact
                                mixed_batch road_query) in
  written_by_checker (known_facts_db checker_with_fact)
  /\ written_by_checker (known_facts_db after)
  /\ match known_facts_db checker_with_fact, known_facts_db after with
     | OpenDb before, OpenDb st =>
         (exists row, verified_facts before !! _calculate_result_hash road_repair = Some row)
         /\ exists row,
              verified_facts st !! _calculate_result_hash road_repair = Some row
              /\ fact_confidence row = 0.9%float
     | _, _ => False
     end.
Proof.
  split; [exact checker_with_fact_is_written|].
  split; [exact (written_by_checker_batch isoformat_date_year checker_with_fact
                   mixed_batch road_query checker_with_fact_is_written)|].
  vm_compute. split; eexists; [reflexivity | split; reflexivity].
Defined.

Lemma mixed_batch_is_writable : Forall (fun r => writable r = true) mixed_batch.
Proof. repeat constructor. Defined.

Lemma statistics_of_mixed_batch :
  Forall (fun r => writable r = true) mixed_batch
  /\ mixed_batch <> []
  /\ exists st,
       logged_stats (verify_results isoformat_date_year fresh_checker mixed_batch
                       road_query) = Some st
       /\ balanced (length mixed_batch) st.
Proof.
  split; [exact mixed_batch_is_writable|].
  assert (Hne : mixed_batch <> []) by discriminate.
  split; [exact Hne|].
  exact (statistics_of_plain_batch isoformat_date_year fresh_checker mixed_batch
           road_query mixed_batch_is_writable Hne).
Defined.

(** C9, as stated, fails: the fingerprint depends on how a value is typed
    and written.  The year 2023 as an [int], as a [float] and as a [str]
    are equal in Python ([2023 == 2023.0]) or equal once stringified
    ([str(2023) == '2023']), and have three fingerprints; so have [True]
    and [1]. *)
Lemma fingerprint_depends_on_value_type :
  let jahr (v : value) : dict := [(u "jahr", v)] in
  int_ne 2023 (PFloat 2023) = false
  /\ str (PInt 2023) = str (PStr (u "2023"))
  /\ int_ne 1 (PBool true) = false
  /\ _calculate_result_hash (jahr (PInt 2023)) = u "18cae7fe004e2d5388a9401753c77328"
  /\ _calculate_result_hash (jahr (PFloat 2023)) = u "670c7a0a9f9dc5f96c5d936fb12a7a4f"
  /\ _calculate_result_hash (jahr (PStr (u "2023"))) = u "89d27552195b27f4e256f9d4f9a64f42"
  /\ _calculate_result_hash (jahr (PBool true)) = u "8695f25bda85ee8615a146617ab84119"
  /\ _calculate_result_hash (jahr (PInt 1)) = u "c3d049d6d98555b11244bb27f5f9fe7b".
Proof. repeat split; vm_compute; reflexivity. Qed.

End FactCheckerFacts.


(** * Properties of the first system's fact checker *)

Module AiFactCheckerFacts.
Import Py AiFactChecker.

(** Whether a result counts as verified: its validation returns and is
    valid. *)
Definition counts (self : Checker) (result : dict) : bool :=
  match verify_single_result self result with
  | Ok v => is_valid v
  | Err _ => false
  end.

Definition valid_count (self : Checker) (results : list dict) : nat :=
  length (List.filter (counts self) results).

Lemma tally_count self results : forall verified ws es verified' ws' es',
  tally self results (verified, ws, es) = Ok (verified', ws', es') ->
  verified' = (verified + valid_count self results)%nat.
Proof.
  induction results as [|r results IH]; intros verified ws es verified' ws' es' H.
  - simpl in H. injection H as <- _ _. unfold valid_count. simpl. lia.
  - simpl in H. unfold valid_count, counts in *. simpl.
    destruct (verify_single_result self r) as [v|e]; simpl in H; [|discriminate].
    destruct (is_valid v); apply IH in H; simpl; lia.
Qed.

(** [round((verified / total) * 100)], the score the specification
    describes: the percentage rounded to the nearest integer. *)
Definition rounded_percentage (verified total : nat) : option Z :=
  match percentage verified total with
  | Ok percent => Num.round_half_even percent
  | Err _ => None
  end.

(** [int((verified / total) * 100)], the score the code computes: the
    percentage truncated. *)
Definition truncated_percentage (verified total : nat) : option Z :=
  match percentage verified total with
  | Ok percent => Num.trunc percent
  | Err _ => None
  end.

(** C7 (amended).  For a batch with results, the report counts the valid
    results and its score is [int((verified / total) * 100)], the float
    percentage truncated toward zero; for the empty batch the report is the
    sentinel with confidence [low] and data quality [no_data], the division
    is not performed and the score stays at its initial 100. *)
Theorem score_is_truncated_percentage (self : Checker) (results : list dict)
    (report : Report) :
  verify_results self results = Ok report ->
  total_results report = length results
  /\ verified_results report = valid_count self results
  /\ (results <> [] ->
      truncated_percentage (verified_results report) (total_results report)
      = Some (score report))
  /\ (results = [] ->
      score report = 100 /\ confidence report = u "low"
      /\ data_quality report = u "no_data").
Proof.
  unfold verify_results. destruct results as [|r results].
  - intros [= <-]. simpl. repeat split; try reflexivity. congruence.
  - destruct (tally self (r :: results) (0%nat, [], [])) as [[[verified ws] es]|e] eqn:Ht;
      cbn [bind]; [|discriminate].
    apply tally_count in Ht. simpl in Ht.
    change (0 <? length (r :: results))%nat with true. cbn iota.
    unfold truncated_percentage.
    remember (length (r :: results)) as total eqn:Htotal.
    destruct (percentage verified total) as [percent|e] eqn:Hp; cbn [bind]; [|discriminate].
    unfold int_of_float. destruct (Num.trunc percent) as [z|] eqn:Hz; cbn [bind];
      [|discriminate].
    intros [= <-]. cbn [total_results verified_results score].
    rewrite Hp. repeat split; try assumption; try discriminate. intros _; exact Hz.
Qed.

(** *** Two valid results out of three *)

Definition checker_2026 : Checker :=
  {| built_year := 2026; built_month := 11; built_day := 4 |}.

Definition bridge : dict :=
  [ (u "jahr", PInt 2023); (u "betrag", PFloat 25000);
    (u "beschreibung", PStr (u "Brückenbau")) ].

Definition too_expensive : dict := [ (u "betrag", PInt 20000000) ].

Definition two_of_three : list dict := [bridge; bridge; too_expensive].

Definition report_two_of_three : Report :=
  {| total_results := 3; verified_results := 2;
     report_warnings := []; report_errors := [UnrealisticAmount (PInt 20000000)];
     score := 66; confidence := u "low"; data_quality := u "questionable" |}.

Lemma truncated_score_witness :
  verify_results checker_2026 two_of_three = Ok report_two_of_three
  /\ total_results report_two_of_three = length two_of_three
  /\ verified_results report_two_of_three = valid_count checker_2026 two_of_three
  /\ (two_of_three <> [] ->
      truncated_percentage (verified_results report_two_of_three)
                           (total_results report_two_of_three)
      = Some (score report_two_of_three))
  /\ (two_of_three = [] ->
      score report_two_of_three = 100 /\ confidence report_two_of_three = u "low"
      /\ data_quality report_two_of_three = u "no_data").
Proof.
  assert (H : verify_results checker_2026 two_of_three = Ok report_two_of_three)
    by (vm_compute; reflexivity).
  split; [exact H | exact (score_is_truncated_percentage checker_2026 two_of_three
                             report_two_of_three H)].
Defined.

(** C7, as stated, fails: with two valid results out of three the score is
    66, and the percentage rounded to the nearest integer is 67. *)
Lemma score_is_not_rounded :
  verify_results checker_2026 two_of_three = Ok report_two_of_three
  /\ score report_two_of_three = 66
  /\ rounded_percentage (verified_results report_two_of_three)
                        (total_results report_two_of_three) = Some 67.
Proof. repeat split; vm_compute; reflexivity. Qed.

(** The truncation is that of the float: 29 valid results out of 100 give
    28.999999999999996 and the score 28. *)
Example score_29_of_100 :
  truncated_percentage 29 100 = Some 28 /\ rounded_percentage 29 100 = Some 29.
Proof. split; vm_compute; reflexivity. Qed.

(** The empty batch. *)
Example empty_batch_report :
  verify_results checker_2026 []
  = Ok {| total_results := 0; verified_results := 0;
          report_warnings := []; report_errors := [];
          score := 100; confidence := u "low"; data_quality := u "no_data" |}.
Proof. reflexivity. Qed.

End AiFactCheckerFacts.


(** * Properties of the query interpreters *)

Module NLPFacts.
Import Py NLP.

(** C8.  [analyze_query] answers every query string: its answer carries the
    query it was given; when the analysis runs through, it is the analysis
    and has no error note; when the analysis raises, it is the degraded
    answer with intent [general_search], confidence 0.5, the original query
    as the only keyword, no entities, and the exception's text as the error
    note. *)
Theorem analyze_query_always_answers (self : Processor) (clock : Clock) (query : pystr) :
  original_query (analyze_query self clock query) = query
  /\ match analysis self clock query with
     | Ok result =>
         analyze_query self clock query = result /\ error result = None
     | Err e =>
         let answer := analyze_query self clock query in
         intent answer = u "general_search"
         /\ confidence answer = 0.5%float
         /\ keywords answer = [query]
         /\ found_entities answer = []
         /\ error answer = Some (exn_msg e)
     end.
Proof.
  unfold analyze_query.
  destruct (analysis self clock query) as [result|e] eqn:Ha.
  - unfold analysis in Ha.
    destruct (_extract_entities clock (_normalize_query query)) as [found|e];
      cbn [bind] in Ha; [|discriminate].
    injection Ha as <-. simpl. auto.
  - simpl. repeat split; reflexivity.
Qed.

(** *** The degraded answer at work *)

Definition clock_2026 : Clock :=
  {| current_year := 2026; now_isoformat := u "2026-11-04T09:30:00" |}.

Definition processor : Processor := {| nlp_model_loaded := false |}.

(** A count of years no list can hold. *)
Definition endless_years : pystr := u "Ausgaben der letzten 9223372036854775808 Jahre".

Example analysis_can_raise :
  analysis processor clock_2026 endless_years
  = Err (Raise OverflowError (u "Python int too large to convert to C ssize_t"))
  /\ analyze_query processor clock_2026 endless_years
     = degraded endless_years
         (Raise OverflowError (u "Python int too large to convert to C ssize_t")).
Proof. split; vm_compute; reflexivity. Qed.

(** *** The years written in a query *)

(** Every match of a scan is a match at some position. *)
Lemma scan_Forall (P : Re.rmatch -> Prop) ci r :
  (forall p m, Re.match_at ci r p = Some m -> P m) ->
  forall fuel p, Forall P (Re.scan fuel ci r p).
Proof.
  intros HP. induction fuel as [|fuel IH]; intros p; simpl; [constructor|].
  destruct (Re.match_at ci r p) as [m|] eqn:Hm.
  - constructor; [eauto|].
    destruct (Re.whole m); destruct (Re.rest p); auto.
  - destruct (Re.rest p); auto.
Qed.

Lemma take_two (a b : char) (s : pystr) :
  take (length (a :: b :: s) - length s) (a :: b :: s) = [a; b].
Proof.
  replace (length (a :: b :: s) - length s)%nat with 2%nat by (simpl; lia).
  reflexivity.
Qed.

(** The group of the year pattern holds the century. *)
Lemma year_group p m :
  Re.match_at false pattern_year p = Some m ->
  Re.group 1 (Re.groups m) = u "19" \/ Re.group 1 (Re.groups m) = u "20".
Proof.
  unfold Re.match_at, pattern_year. destruct p as [b s].
  change (Re.txt "19") with (Re.Seq (Re.Chr 49%N) (Re.Chr 57%N)).
  change (Re.txt "20") with (Re.Seq (Re.Chr 50%N) (Re.Chr 48%N)).
  change (u "19") with [49%N; 57%N]. change (u "20") with [50%N; 48%N].
  cbn [Re.seqs Re.run Re.rep Re.rest Re.before Re.digit].
  destruct (xorb (Re.word_at b) (Re.word_at (head s))); [|discriminate].
  destruct s as [|c1 [|c2 s]]; cbn [Re.rest Re.chr_eqb];
    try (repeat match goal with |- context [if ?t then _ else _] => destruct t end;
         discriminate).
  rewrite (take_two c1 c2 s).
  destruct (49 =? c1)%N eqn:H1; [destruct (57 =? c2)%N eqn:H2|].
  - apply N.eqb_eq in H1, H2. subst.
    destruct s as [|c3 [|c4 s']]; cbn [Re.rest];
      repeat match goal with |- context [if ?t then _ else _] => destruct t end;
      try discriminate; intros [= <-]; left; reflexivity.
  - apply N.eqb_eq in H1. subst. cbn. discriminate.
  - destruct (50 =? c1)%N eqn:H3; [|discriminate].
    destruct (48 =? c2)%N eqn:H4; [|discriminate].
    apply N.eqb_eq in H3, H4. subst.
    destruct s as [|c3 [|c4 s']]; cbn [Re.rest];
      repeat match goal with |- context [if ?t then _ else _] => destruct t end;
      try discriminate; intros [= <-]; right; reflexivity.
Qed.

Lemma direct_years_none clock (year_matches : list pystr) :
  Forall (fun s => s = u "19" \/ s = u "20") year_matches ->
  direct_years clock year_matches = Ok [].
Proof.
  induction 1 as [|s rest Hs _ IH]; [reflexivity|].
  simpl. rewrite IH. destruct Hs as [-> | ->]; reflexivity.
Qed.

(** For every query, the first loop of [_extract_years] finds no year: what
    [findall] hands over is the century. *)
Lemma direct_years_never_found clock query :
  direct_years clock (Re.findall1 false pattern_year query) = Ok [].
Proof.
  apply direct_years_none. unfold Re.findall1, Re.finditer.
  apply Forall_map.
  apply (scan_Forall (fun m => Re.group 1 (Re.groups m) = u "19"
                               \/ Re.group 1 (Re.groups m) = u "20")).
  apply year_group.
Qed.
(** So [_extract_years] returns the relative years only. *)
Lemma extract_years_is_relative clock query :
  _extract_years clock query
  = do more <- relative_years clock query; Ok (sorted_desc more).
Proof.
  unfold _extract_years. rewrite direct_years_never_found. reflexivity.
Qed.

Definition road_query : pystr := u "Wie viel gab die Gemeinde 2023 für Straßen aus?".

(** C5 fails on the code.  The year pattern has a group, so [findall]
    returns the century the group matched: [_extract_years] converts 20,
    finds it outside [1990, current_year+1] and extracts no year, and the
    interpretation has no [year]; the first system's [extract_entities]
    reports the year 20. *)
Theorem written_year_is_not_extracted :
  Re.findall1 false pattern_year (_normalize_query road_query) = [u "20"]
  /\ _extract_years clock_2026 (_normalize_query road_query) = Ok []
  /\ entry (u "year") (found_entities (analyze_query processor clock_2026 road_query))
     = None
  /\ GermanNLP.extract_entities_years 2026 (lower road_query) = Ok [20].
Proof. repeat split; vm_compute; reflexivity. Qed.

End NLPFacts.


(** * Amounts in German notation *)

Module AmountFacts.
Import Py.

(** An amount as it is written: the leading digits, the groups of three
    digits that follow a period each, and the two decimals after the comma
    if there are any. *)
Record german_amount := {
  leading : list Z;
  thousands : list (Z * Z * Z);
  decimals : option (Z * Z)
}.

Definition is_dec (d : Z) : Prop := 0 <= d <= 9.

Definition group_digits (g : Z * Z * Z) : list Z :=
  let '(a, b, c) := g in [a; b; c].

Definition decimal_digits (a : german_amount) : list Z :=
  match decimals a with
  | Some (x, y) => [x; y]
  | None => []
  end.

Definition integer_digits (a : german_amount) : list Z :=
  leading a ++ flat_map group_digits (thousands a).

Definition well_formed (a : german_amount) : Prop :=
  leading a <> [] /\ Forall is_dec (integer_digits a) /\ Forall is_dec (decimal_digits a).

Definition digit_char (d : Z) : char := Z.to_N (48 + d).

Definition write_digits (ds : list Z) : pystr := map digit_char ds.

(** The string: [10.000,50] for leading [1 0], one group [0 0 0] and the
    decimals [5 0]. *)
Definition write (a : german_amount) : pystr :=
  write_digits (leading a)
  ++ flat_map (fun g => 46%N :: write_digits (group_digits g)) (thousands a)
  ++ match decimals a with
     | Some (x, y) => 44%N :: write_digits [x; y]
     | None => []
     end.

(** The decimal number written, as numerator over a power of ten, and the
    binary64 nearest to it: the float that the same number written as a
    Python literal denotes. *)
Definition numerator (a : german_amount) : Z :=
  Num.horner (integer_digits a ++ decimal_digits a).

Definition denominator (a : german_amount) : Z :=
  10 ^ Z.of_nat (length (decimal_digits a)).

Definition value (a : german_amount) : float :=
  Num.nearest_pos (numerator a) (denominator a).

(** *** [str.replace] of a single character *)

Lemma replace_fuel_char (c : N) (new s : list N) : forall fuel,
  (length s <= fuel)%nat ->
  replace_fuel fuel [c] new s = flat_map (fun x : N => if (c =? x)%N then new else [x]) s.
Proof.
  induction s as [|x s IH]; intros fuel Hfuel.
  - destruct fuel; reflexivity.
  - destruct fuel as [|fuel]; [simpl in Hfuel; lia|].
    simpl in Hfuel. cbn [replace_fuel starts_with flat_map length drop].
    rewrite andb_true_r.
    destruct (c =? x)%N; simpl; rewrite IH by lia; reflexivity.
Qed.

Lemma replace_char (c : N) (new s : list N) :
  replace [c] new s = flat_map (fun x : N => if (c =? x)%N then new else [x]) s.
Proof. unfold replace. apply replace_fuel_char, Nat.le_refl. Qed.

Lemma digit_char_range d : is_dec d -> (48 <= digit_char d <= 57)%N.
Proof. unfold is_dec, digit_char. lia. Qed.

Lemma digit_char_is_digit d : is_dec d -> is_digit (digit_char d) = true.
Proof.
  intros H. apply digit_char_range in H. unfold is_digit, in_range.
  apply andb_true_intro. split; apply N.leb_le; lia.
Qed.

Lemma digit_char_value d : is_dec d -> Z.of_N (digit_char d) - 48 = d.
Proof. unfold is_dec, digit_char. lia. Qed.

(** Digits pass through both replacements. *)
Lemma replace_digits (c : N) (new : list N) ds :
  (c < 48 \/ 57 < c)%N -> Forall is_dec ds ->
  flat_map (fun x : N => if (c =? x)%N then new else [x]) (write_digits ds) = write_digits ds.
Proof.
  intros Hc. induction 1 as [|d ds Hd _ IH]; [reflexivity|].
  simpl. apply digit_char_range in Hd.
  destruct (N.eqb_spec c (digit_char d)); [lia|]. simpl. rewrite IH. reflexivity.
Qed.

Lemma write_digits_app ds es : write_digits (ds ++ es) = write_digits ds ++ write_digits es.
Proof. apply map_app. Qed.

Lemma Forall_group_digits gs :
  Forall is_dec (flat_map group_digits gs) ->
  Forall (fun g => Forall is_dec (group_digits g)) gs.
Proof.
  induction gs as [|g gs IH]; intros H; constructor.
  - simpl in H. apply Forall_app in H. tauto.
  - apply IH. simpl in H. apply Forall_app in H. tauto.
Qed.

(** What the two replacements leave: the digits, with a point before the
    decimals. *)
Definition decimal_text (a : german_amount) : pystr :=
  write_digits (integer_digits a)
  ++ match decimals a with
     | Some (x, y) => 46%N :: write_digits [x; y]
     | None => []
     end.

Lemma german_to_decimal_write a :
  well_formed a -> NLP.german_to_decimal (write a) = decimal_text a.
Proof.
  intros (_ & Hint & Hdec). unfold NLP.german_to_decimal, write, decimal_text.
  change (u ",") with [44%N]. change (u ".") with [46%N].
  rewrite !replace_char. unfold pystr, char in *.
  unfold integer_digits in *. apply Forall_app in Hint. destruct Hint as [Hlead Hgroups].
  rewrite !flat_map_app, write_digits_app.
  rewrite (replace_digits 46 [] _ (or_introl eq_refl) Hlead).
  rewrite (replace_digits 44 _ _ (or_introl eq_refl) Hlead).
  rewrite <- app_assoc. f_equal.
  assert (Hg : flat_map (fun x => if (44 =? x)%N then [46%N] else [x])
                 (flat_map (fun x => if (46 =? x)%N then [] else [x])
                    (flat_map (fun g => 46%N :: write_digits (group_digits g))
                       (thousands a)))
               = write_digits (flat_map group_digits (thousands a))).
  { unfold pystr, char. apply Forall_group_digits in Hgroups.
    induction Hgroups as [|g gs Hg _ IH]; [reflexivity|].
    cbn [flat_map]. rewrite !flat_map_app, write_digits_app, IH. f_equal.
    cbn [flat_map]. change (46 =? 46)%N with true. cbn [app].
    rewrite (replace_digits 46 [] _ (or_introl eq_refl) Hg).
    apply (replace_digits 44 _ _ (or_introl eq_refl) Hg). }
  unfold pystr, char in Hg. rewrite Hg. f_equal.
  unfold decimal_digits in Hdec. destruct (decimals a) as [[x y]|]; [|reflexivity].
  cbn [flat_map]. change (46 =? 44)%N with false. cbn [app flat_map].
  change (44 =? 44)%N with true. cbn [app]. f_equal.
  rewrite (replace_digits 46 [] _ (or_introl eq_refl) Hdec).
  apply (replace_digits 44 _ _ (or_introl eq_refl) Hdec).
Qed.

(** *** [float] of a plain decimal text *)

Lemma lstrip_plain (s : list N) :
  Forall (fun c => is_space c = false) s -> lstrip s = s.
Proof. destruct 1 as [|c s Hc _]; [reflexivity|]. simpl. rewrite Hc. reflexivity. Qed.

Lemma strip_plain (s : list N) :
  Forall (fun c => is_space c = false) s -> strip s = s.
Proof.
  intros H. unfold strip, rstrip. rewrite (lstrip_plain s H).
  rewrite lstrip_plain by (apply Forall_rev; exact H). apply rev_involutive.
Qed.

Lemma dec_cases d : is_dec d ->
  d = 0 \/ d = 1 \/ d = 2 \/ d = 3 \/ d = 4 \/ d = 5 \/ d = 6 \/ d = 7 \/ d = 8 \/ d = 9.
Proof. unfold is_dec. lia. Qed.

Ltac each_digit H :=
  apply dec_cases in H;
  destruct H as [->|[->|[->|[->|[->|[->|[->|[->|[->| ->]]]]]]]]].

Lemma digit_not_space d : is_dec d -> is_space (digit_char d) = false.
Proof. intros H. each_digit H; reflexivity. Qed.

Lemma digits_not_space ds :
  Forall is_dec ds -> Forall (fun c => is_space c = false) (write_digits ds).
Proof.
  induction 1 as [|d ds Hd _ IH]; constructor; [apply digit_not_space, Hd | exact IH].
Qed.

Lemma split_sign_digit d (rest : list N) : is_dec d ->
  Num.split_sign (digit_char d :: rest) = (false, digit_char d :: rest).
Proof. intros H. each_digit H; reflexivity. Qed.

Lemma not_a_word d (rest : list N) (word : string) : is_dec d ->
  match u word with c :: _ => (57 < c)%N | [] => True end ->
  str_eqb (lower (digit_char d :: rest)) (u word) = false.
Proof.
  intros H Hw. apply bool_decide_eq_false. intros E.
  destruct (u word) as [|c w]; [discriminate|].
  injection E as E _. each_digit H; vm_compute in E; subst c; vm_compute in Hw;
    discriminate.
Qed.

Lemma split_sign_digits d ds (rest : pystr) : is_dec d ->
  Num.split_sign (write_digits (d :: ds) ++ rest) = (false, write_digits (d :: ds) ++ rest).
Proof. apply split_sign_digit. Qed.

Lemma not_a_word_digits d ds (rest : pystr) (word : string) : is_dec d ->
  match u word with c :: _ => (57 < c)%N | [] => True end ->
  str_eqb (lower (write_digits (d :: ds) ++ rest)) (u word) = false.
Proof. apply not_a_word. Qed.

Lemma lower_digits ds : Forall is_dec ds -> lower (write_digits ds) = write_digits ds.
Proof.
  unfold lower, write_digits.
  induction 1 as [|d ds Hd _ IH]; [reflexivity|].
  cbn [map]. f_equal; [each_digit Hd; reflexivity | exact IH].
Qed.

(** A run of digits is read as those digits, up to a character that is
    neither a digit nor an underscore. *)
Lemma digit_run_digits ds : forall (rest : list N) acc b,
  Forall is_dec ds ->
  match rest with
  | c :: _ => is_digit c = false /\ c <> 95%N
  | [] => True
  end ->
  Num.digit_run (write_digits ds ++ rest) acc b
  = (acc ++ ds, rest).
Proof.
  induction ds as [|d ds IH]; intros rest acc b Hds Hrest.
  - rewrite app_nil_r. simpl. destruct rest as [|c rest]; [reflexivity|].
    destruct Hrest as [Hc Hu]. simpl. rewrite Hc.
    destruct (N.eqb_spec c 95); [contradiction | reflexivity].
  - inversion Hds as [|? ? Hd Hds']; subst.
    cbn [write_digits map app Num.digit_run].
    rewrite (digit_char_is_digit d Hd), (digit_char_value d Hd).
    change (map digit_char ds) with (write_digits ds).
    rewrite IH by assumption. rewrite <- app_assoc. reflexivity.
Qed.

Lemma float_of_decimal_text a :
  well_formed a -> Num.float_of_str (decimal_text a) = Some (value a).
Proof.
  intros (Hne & Hint & Hdec).
  assert (Hplain : Forall (fun c => is_space c = false) (decimal_text a)).
  { unfold decimal_text. apply Forall_app. split; [apply digits_not_space, Hint|].
    unfold decimal_digits in Hdec. destruct (decimals a) as [[x y]|]; [|constructor].
    constructor; [reflexivity | apply digits_not_space, Hdec]. }
  unfold Num.float_of_str. rewrite (strip_plain _ Hplain).
  unfold decimal_text, value, numerator, denominator.
  assert (Hhead : exists d ds, integer_digits a = d :: ds).
  { unfold integer_digits. destruct (leading a) as [|d ds]; [contradiction|].
    exists d, (ds ++ flat_map group_digits (thousands a)). reflexivity. }
  destruct Hhead as (d & ds & Hhead). rewrite Hhead in *.
  inversion Hint as [|? ? Hd Hds]; subst.
  rewrite (split_sign_digits d ds _ Hd). cbv beta iota zeta.
  rewrite (not_a_word_digits d ds _ "inf" Hd eq_refl),
    (not_a_word_digits d ds _ "infinity" Hd eq_refl),
    (not_a_word_digits d ds _ "nan" Hd eq_refl).
  cbn [orb].
  unfold decimal_digits in *.
  destruct (decimals a) as [[x y]|].
  - rewrite (digit_run_digits (d :: ds) (46%N :: write_digits [x; y]) [] false Hint)
      by (split; [reflexivity | discriminate]).
    cbv beta iota zeta.
    pose proof (digit_run_digits [x; y] [] [] false Hdec I) as Hfrac.
    rewrite app_nil_r in Hfrac. rewrite Hfrac.
    cbv beta iota zeta. reflexivity.
  - rewrite app_nil_r.
    pose proof (digit_run_digits (d :: ds) [] [] false Hint I) as Hrun.
    rewrite app_nil_r in Hrun. rewrite Hrun.
    cbv beta iota zeta. cbn [app length Z.of_nat]. rewrite app_nil_r.
    cbn [Z.sub Z.leb Z.compare Z.opp]. rewrite Z.pow_0_r, Z.mul_1_r. reflexivity.
Qed.

(** C6.  An amount written with periods between the groups of three digits
    and a comma before two decimals is parsed to the float of the decimal
    number it denotes; [parse_amount("10.000,50")] is 10000.5. *)
Theorem parse_amount_reads_german_notation (a : german_amount) :
  well_formed a ->
  GermanNLP.parse_amount (write a) = value a.
Proof.
  intros H. unfold GermanNLP.parse_amount.
  rewrite (german_to_decimal_write a H), (float_of_decimal_text a H). reflexivity.
Qed.

(** *** Ten thousand euros and fifty cents *)

Definition ten_thousand_fifty : german_amount :=
  {| leading := [1; 0]; thousands := [(0, 0, 0)]; decimals := Some (5, 0) |}.

Lemma well_formed_ten_thousand_fifty : well_formed ten_thousand_fifty.
Proof.
  split; [discriminate|].
  split; repeat constructor; unfold is_dec; lia.
Defined.

Lemma parse_amount_witness :
  well_formed ten_thousand_fifty
  /\ write ten_thousand_fifty = u "10.000,50"
  /\ value ten_thousand_fifty = 10000.5%float
  /\ GermanNLP.parse_amount (write ten_thousand_fifty) = value ten_thousand_fifty.
Proof.
  split; [exact well_formed_ten_thousand_fifty|].
  split; [reflexivity|]. split; [vm_compute; reflexivity|].
  exact (parse_amount_reads_german_notation ten_thousand_fifty
           well_formed_ten_thousand_fifty).
Defined.

(** Both interpreters on the text itself. *)
Example parse_amount_10_000_50 :
  GermanNLP.parse_amount (u "10.000,50") = 10000.5%float.
Proof. vm_compute. reflexivity. Qed.

Example extract_amounts_10_000_50 :
  NLP._extract_amounts (u "10.000,50") = [(u "amount", NLP.EFloat 10000.5)].
Proof. vm_compute. reflexivity. Qed.

End AmountFacts.

(** * The known-facts store over time *)

Module StoreFacts.
Import Py FactChecker FactCheckerFacts.

Section Store.

Variable fromisoformat_year : pystr -> option Z.

Abbreviation verify_one := (_verify_single_result fromisoformat_year).

(** The fingerprints of the verified-facts table. *)
Definition known_fingerprints (c : Checker) : gset pystr :=
  match known_facts_db c with
  | OpenDb st => dom (verified_facts st)
  | _ => ∅
  end.

(** The result has no row in the verified-facts table. *)
Definition unknown (c : Checker) (result : dict) : Prop :=
  match known_facts_db c with
  | OpenDb st => verified_facts st !! _calculate_result_hash result = None
  | _ => True
  end.

(** What the consistency check answers for a fact the open store does not
    know. *)
Definition unknown_levels : list float := [0.8; 0.3; 0.6; 0.5]%float.

Lemma unknown_level c st result :
  known_facts_db c = OpenDb st ->
  verified_facts st !! _calculate_result_hash result = None ->
  In (fst (_check_consistency_with_known_facts c result)) unknown_levels.
Proof.
  intros Hdb Hrow. unfold _check_consistency_with_known_facts. rewrite Hdb, Hrow.
  assert (Hs : In (_find_similar_facts_confidence result) unknown_levels).
  { unfold _find_similar_facts_confidence, unknown_levels.
    destruct (has (u "kategorie") result), (has (u "jahr") result); simpl; tauto. }
  destruct (suspicious_entries st !! _calculate_result_hash result) as [entry|];
    [destruct (resolved entry)|]; try exact Hs.
  simpl. tauto.
Qed.

(** With one of these levels as the consistency factor the product stays
    at 0.8 or below, under the 0.9 that storing takes. *)
Lemma unknown_level_bound (b1 b2 b3 b4 b6 : bool) (cc : float) :
  In cc unknown_levels ->
  let conf := product (factor_of b6 0.9)
                (product (factor_of (cc <? 1.0) cc)
                   (product (factor_of b4 0.3)
                      (product (factor_of b3 0.8)
                         (product (factor_of b2 0.6)
                            (product (factor_of b1 0.7) 1.0)))))%float in
  (conf <=? 0.8)%float = true /\ (0.9 <=? conf)%float = false.
Proof.
  unfold unknown_levels. simpl In.
  intros [<-|[<-|[<-|[<-|[]]]]];
    destruct b1, b2, b3, b4, b6; vm_compute; split; reflexivity.
Qed.

(** A result the store does not know: the call leaves the checker as it
    was, and with the database open the confidence is at most 0.8. *)
Lemma unknown_confidence c st result query :
  known_facts_db c = OpenDb st ->
  verified_facts st !! _calculate_result_hash result = None ->
  (confidence (fst (verify_one c result query)) <=? 0.8)%float = true
  /\ snd (verify_one c result query) = c.
Proof.
  intros Hdb Hrow. pose proof (unknown_level c st result Hdb Hrow) as Hlevel.
  unfold _verify_single_result, run_checks.
  destruct (_check_data_structure result) as [s|e]; cbn [bind];
    [|split; reflexivity].
  destruct (_check_value_ranges c result) as [r|e]; cbn [bind]; [|split; reflexivity].
  destruct (_check_plausibility fromisoformat_year result) as [p|e]; cbn [bind];
    [|split; reflexivity].
  match goal with
  | |- context [match ?acc with (_, _) => _ end] =>
      assert (Hb : (snd acc <=? 0.8)%float = true /\ (0.9 <=? snd acc)%float = false);
      [| destruct acc as [found conf]; simpl in Hb |- *; destruct Hb as [Hle Hlt];
         rewrite Hlt, andb_false_r; split; [exact Hle | reflexivity]]
  end.
  rewrite !penalise_confidence.
  apply (unknown_level_bound _ _ _ _ _ _ Hlevel).
Qed.

Lemma store_without_database c result methods :
  (forall st, known_facts_db c <> OpenDb st) ->
  _store_verified_fact c result methods = c.
Proof.
  intros H. unfold _store_verified_fact.
  destruct (known_facts_db c) as [| |st]; try reflexivity. destruct (H st eq_refl).
Qed.

Lemma unknown_unchanged c result query :
  unknown c result -> snd (verify_one c result query) = c.
Proof.
  unfold unknown. intros H. destruct (known_facts_db c) as [| |st] eqn:Hdb.
  - unfold _verify_single_result.
    destruct (run_checks fromisoformat_year c result query) as [[found conf]|e];
      [|reflexivity].
    simpl. destruct (_ && _); [|reflexivity].
    apply store_without_database. congruence.
  - unfold _verify_single_result.
    destruct (run_checks fromisoformat_year c result query) as [[found conf]|e];
      [|reflexivity].
    simpl. destruct (_ && _); [|reflexivity].
    apply store_without_database. congruence.
  - apply (unknown_confidence c st result query Hdb H).
Qed.

(** Storing a fact the table knows, or logging, keeps the fingerprints. *)
Lemma known_fingerprints_verify c result query :
  known_fingerprints (snd (verify_one c result query)) = known_fingerprints c.
Proof.
  destruct (known_facts_db c) as [| |st] eqn:Hdb.
  - rewrite unknown_unchanged; [reflexivity | unfold unknown; rewrite Hdb; exact I].
  - rewrite unknown_unchanged; [reflexivity | unfold unknown; rewrite Hdb; exact I].
  - destruct (verified_facts st !! _calculate_result_hash result) as [row|] eqn:Hrow.
    + unfold _verify_single_result.
      destruct (run_checks fromisoformat_year c result query) as [[found conf]|e];
        [|reflexivity].
      simpl. destruct (_ && _); [|reflexivity].
      unfold known_fingerprints, _store_verified_fact. rewrite Hdb. simpl.
      apply dom_insert_lookup_L. rewrite Hrow. eauto.
    + rewrite unknown_unchanged; [reflexivity | unfold unknown; rewrite Hdb; exact Hrow].
Qed.

Lemma known_fingerprints_log c result found :
  known_fingerprints (_log_suspicious_entry c result found) = known_fingerprints c.
Proof.
  unfold known_fingerprints, _log_suspicious_entry.
  destruct (known_facts_db c) as [| |st] eqn:Hdb; rewrite ?Hdb; reflexivity.
Qed.

Lemma known_fingerprints_loop query results : forall s,
  match fst (loop fromisoformat_year query s results) with
  | inl s' => known_fingerprints (checker s') = known_fingerprints (checker s)
  | inr (_, s') => known_fingerprints (checker s') = known_fingerprints (checker s)
  end.
Proof.
  induction results as [|r results IH]; intros s; [reflexivity|].
  simpl. unfold loop_body.
  pose proof (known_fingerprints_verify (checker s) (fields r) query) as Hv.
  destruct (verify_one (checker s) (fields r) query) as [fc c']. simpl in Hv.
  destruct (annotation fc) as [note|].
  - destruct (assign r (u "_fact_check") note) as [a|e]; [|exact Hv].
    match goal with |- context [loop _ query ?s1 results] => specialize (IH s1) end.
    destruct (fst (loop fromisoformat_year query _ results)) as [s'|[e s']];
      simpl in IH; congruence.
  - match goal with |- context [loop _ query ?s1 results] => specialize (IH s1) end.
    destruct (fst (loop fromisoformat_year query _ results)) as [s'|[e s']];
      simpl in IH; rewrite IH, known_fingerprints_log; exact Hv.
Qed.

(** Batch verification never learns a fact: however the call ends, the
    verified-facts table holds the fingerprints it held before.  (A new
    result meets a consistency factor of 0.8 at most, and storing takes a
    confidence of 0.9.) *)
Theorem batch_never_learns (c : Checker) (results : list candidate) (query : pystr) :
  known_fingerprints (checker_after (verify_results fromisoformat_year c results query))
  = known_fingerprints c.
Proof.
  unfold verify_results. destruct results as [|r results]; [reflexivity|].
  match goal with |- context [loop _ query ?s0 ?rs] =>
    pose proof (known_fingerprints_loop query rs s0) as Hl;
    destruct (loop fromisoformat_year query s0 rs) as [[s'|[e s']] unreached]
  end; exact Hl.
Qed.

(** A never-seen result and the open database: the confidence is 0.8 at
    most, and the call leaves the checker, both tables included, as it
    was. *)
Theorem unknown_result_confidence_capped (c : Checker) (st : Store) (result : dict)
    (query : pystr) :
  known_facts_db c = OpenDb st ->
  verified_facts st !! _calculate_result_hash result = None ->
  (confidence (fst (verify_one c result query)) <=? 0.8)%float = true
  /\ snd (verify_one c result query) = c.
Proof. exact (unknown_confidence c st result query). Qed.

(** *** Flagged results *)

(** The result has an unresolved row in the suspicious-entries table and
    none in the verified-facts table. *)
Definition flagged (c : Checker) (result : dict) (reason : pystr) : Prop :=
  match known_facts_db c with
  | OpenDb st =>
      verified_facts st !! _calculate_result_hash result = None
      /\ exists entry,
           suspicious_entries st !! _calculate_result_hash result = Some entry
           /\ resolved entry = false /\ suspicion_reason entry = reason
  | _ => False
  end.

Definition already_flagged (reason : pystr) : pystr :=
  u "Bereits als verdächtig markiert: " ++ reason.

Lemma flagged_consistency c result reason :
  flagged c result reason ->
  _check_consistency_with_known_facts c result = (0.3%float, [already_flagged reason]).
Proof.
  unfold flagged, _check_consistency_with_known_facts.
  destruct (known_facts_db c) as [| |st]; try contradiction.
  intros (Hrow & entry & Hentry & Hres & Hreason).
  rewrite Hrow, Hentry, Hres, <- Hreason. unfold already_flagged. reflexivity.
Qed.

(** With 0.3 as the consistency factor the product is no more than 0.3. *)
Lemma flagged_bound (b1 b2 b3 b4 b6 : bool) :
  let conf := product (factor_of b6 0.9)
                (product (factor_of (0.3 <? 1.0) 0.3)
                   (product (factor_of b4 0.3)
                      (product (factor_of b3 0.8)
                         (product (factor_of b2 0.6)
                            (product (factor_of b1 0.7) 1.0)))))%float in
  (conf <=? 0.3)%float = true /\ (0.5 <? conf)%float = false
  /\ (0.7 <=? conf)%float = false.
Proof. destruct b1, b2, b3, b4, b6; vm_compute; repeat split. Qed.

(** The outcome for a flagged result: it is in the third tier, and when the
    checks ran through, the earlier flag is among the issues. *)
Lemma flagged_outcome c result reason query :
  flagged c result reason ->
  let fc := fst (verify_one c result query) in
  annotation fc = None
  /\ (source fc = u "error" \/ In (already_flagged reason) (issues fc)).
Proof.
  intros Hf. pose proof (flagged_consistency c result reason Hf) as Hc.
  unfold _verify_single_result, run_checks. rewrite Hc.
  destruct (_check_data_structure result) as [s|e]; cbn [bind];
    [|split; [reflexivity | left; reflexivity]].
  destruct (_check_value_ranges c result) as [r|e]; cbn [bind];
    [|split; [reflexivity | left; reflexivity]].
  destruct (_check_plausibility fromisoformat_year result) as [p|e]; cbn [bind];
    [|split; [reflexivity | left; reflexivity]].
  match goal with
  | |- context [match ?acc with (_, _) => _ end] =>
      assert (Hb : ((0.5 <? snd acc)%float = false /\ (0.7 <=? snd acc)%float = false)
                   /\ In (already_flagged reason) (fst acc));
      [| destruct acc as [found conf]; simpl in Hb |- *;
         destruct Hb as [[Hlow Hhigh] Hin];
         unfold annotation; simpl; rewrite Hlow, Hhigh;
         split; [reflexivity | right; exact Hin]]
  end.
  split.
  - rewrite !penalise_confidence. apply (flagged_bound _ _ _ _ _).
  - cbn [fst snd]. unfold penalise at 1 2.
    destruct (negb (_check_query_relevance result query));
      change (0.3 <? 1.0)%float with true; cbn [fst snd];
      rewrite ?in_app_iff; simpl; tauto.
Qed.

Lemma log_flags c st result found :
  known_facts_db c = OpenDb st ->
  verified_facts st !! _calculate_result_hash result = None ->
  flagged (_log_suspicious_entry c result found) result (join (u "; ") found).
Proof.
  intros Hdb Hrow. unfold flagged, _log_suspicious_entry. rewrite Hdb. simpl.
  split; [exact Hrow|]. eexists. rewrite lookup_insert_eq. repeat split.
Qed.

(** *** A flag stays until it is cleared *)

Definition is_flagged (c : Checker) (result : dict) : Prop :=
  exists reason, flagged c result reason.

(** What a verification does to the checker: nothing, or it stores the
    result. *)
Lemma verify_one_checker c result query :
  snd (verify_one c result query) = c
  \/ snd (verify_one c result query) = _store_verified_fact c result verification_methods.
Proof.
  unfold _verify_single_result.
  destruct (run_checks fromisoformat_year c result query) as [[found conf]|e];
    [|left; reflexivity].
  simpl. destruct (_ && _); [right | left]; reflexivity.
Qed.

Lemma flagged_verify c result other query :
  is_flagged c result -> is_flagged (snd (verify_one c other query)) result.
Proof.
  intros Hf. pose proof (known_fingerprints_verify c other query) as Hdom.
  destruct (verify_one_checker c other query) as [-> | Hstore]; [exact Hf|].
  rewrite Hstore in Hdom |- *. destruct Hf as [reason Hf]. exists reason.
  unfold flagged, known_fingerprints, _store_verified_fact in *.
  destruct (known_facts_db c) as [| |st]; try contradiction.
  simpl in Hdom |- *. destruct Hf as [Hrow Hentry]. split; [|exact Hentry].
  apply not_elem_of_dom. rewrite Hdom. apply not_elem_of_dom. exact Hrow.
Qed.

Lemma flagged_log c result other found :
  is_flagged c result -> is_flagged (_log_suspicious_entry c other found) result.
Proof.
  intros [reason Hf]. unfold is_flagged, flagged, _log_suspicious_entry in *.
  destruct (known_facts_db c) as [| |st]; try contradiction. simpl.
  destruct Hf as (Hrow & entry & Hentry & Hres & Hreason).
  destruct (decide (_calculate_result_hash other = _calculate_result_hash result))
    as [Heq|Hne].
  - exists (join (u "; ") found). split; [exact Hrow|].
    rewrite Heq, lookup_insert_eq. eexists. repeat split.
  - exists reason. split; [exact Hrow|].
    rewrite lookup_insert_ne by exact Hne. exists entry. repeat split; assumption.
Qed.

Lemma flagged_loop result query results : forall s,
  is_flagged (checker s) result ->
  match fst (loop fromisoformat_year query s results) with
  | inl s' => is_flagged (checker s') result
  | inr (_, s') => is_flagged (checker s') result
  end.
Proof.
  induction results as [|r results IH]; intros s Hf; [exact Hf|].
  simpl. unfold loop_body.
  pose proof (flagged_verify (checker s) result (fields r) query Hf) as Hv.
  destruct (verify_one (checker s) (fields r) query) as [fc c']. simpl in Hv.
  destruct (annotation fc) as [note|].
  - destruct (assign r (u "_fact_check") note) as [a|e]; [apply IH|]; exact Hv.
  - apply IH. simpl. apply flagged_log, Hv.
Qed.

Lemma flagged_batch c result results query :
  is_flagged c result ->
  is_flagged (checker_after (verify_results fromisoformat_year c results query)) result.
Proof.
  intros Hf. unfold verify_results. destruct results as [|r results]; [exact Hf|].
  match goal with |- context [loop _ query ?s0 ?rs] =>
    pose proof (flagged_loop result query rs s0 Hf) as Hl;
    destruct (loop fromisoformat_year query s0 rs) as [[s'|[e s']] unreached]
  end; exact Hl.
Qed.

(** The checker after further calls of [verify_results], each with its
    batch and its query. *)
Fixpoint after_batches (c : Checker) (batches : list (list candidate * pystr))
    : Checker :=
  match batches with
  | [] => c
  | (results, query) :: later =>
      after_batches (checker_after (verify_results fromisoformat_year c results query))
                    later
  end.

Lemma flagged_after_batches result batches : forall c,
  is_flagged c result -> is_flagged (after_batches c batches) result.
Proof.
  induction batches as [|[results query] later IH]; intros c Hf; [exact Hf|].
  simpl. apply IH, flagged_batch, Hf.
Qed.

(** The confidence of a flagged result. *)
Lemma flagged_confidence c result reason query :
  flagged c result reason ->
  (confidence (fst (verify_one c result query)) <=? 0.3)%float = true.
Proof.
  intros Hf. pose proof (flagged_consistency c result reason Hf) as Hc.
  unfold _verify_single_result, run_checks. rewrite Hc.
  destruct (_check_data_structure result) as [s|e]; cbn [bind]; [|reflexivity].
  destruct (_check_value_ranges c result) as [r|e]; cbn [bind]; [|reflexivity].
  destruct (_check_plausibility fromisoformat_year result) as [p|e]; cbn [bind];
    [|reflexivity].
  match goal with
  | |- context [match ?acc with (_, _) => _ end] =>
      assert (Hb : (snd acc <=? 0.3)%float = true);
      [| destruct acc as [found conf]; exact Hb]
  end.
  rewrite !penalise_confidence. apply (flagged_bound _ _ _ _ _).
Qed.

(** Once a result has been dropped and logged with the database open, every
    later verification of it, and of every result with its fingerprint,
    after any number of further batches, ends the same way: the flag alone
    brings the confidence to 0.3 or below, so the result is not verified
    and not shown, and the flag that is then stored is among its issues.
    (Only [clear_suspicious_entries] lifts a flag.) *)
Theorem logged_result_is_dropped_again (c : Checker) (st : Store)
    (result again : dict) (found : list pystr)
    (batches : list (list candidate * pystr)) (query : pystr) :
  known_facts_db c = OpenDb st ->
  verified_facts st !! _calculate_result_hash result = None ->
  _calculate_result_hash again = _calculate_result_hash result ->
  let later := after_batches (_log_suspicious_entry c result found) batches in
  let fc := fst (verify_one later again query) in
  is_verified fc = false
  /\ (confidence fc <=? 0.3)%float = true
  /\ annotation fc = None
  /\ exists reason,
       flagged later again reason
       /\ (source fc = u "error" \/ In (already_flagged reason) (issues fc)).
Proof.
  intros Hdb Hrow Hhash later fc.
  assert (Hf : is_flagged later again).
  { apply flagged_after_batches. exists (join (u "; ") found).
    pose proof (log_flags c st result found Hdb Hrow) as H.
    unfold flagged in *. rewrite Hhash. exact H. }
  destruct Hf as [reason Hf].
  destruct (flagged_outcome _ _ _ query Hf) as [Hnone Hissue]. fold fc in Hnone, Hissue.
  pose proof (flagged_confidence _ _ _ query Hf) as Hconf. fold fc in Hconf.
  split; [|split; [exact Hconf | split; [exact Hnone|]]].
  - unfold annotation in Hnone. destruct (is_verified fc); [discriminate | reflexivity].
  - exists reason. split; assumption.
Qed.

Lemma join_length (sep x : pystr) (parts : list pystr) :
  In x parts -> (length x <= length (join sep parts))%nat.
Proof.
  induction parts as [|p parts IH]; [contradiction|].
  intros [->|Hin].
  - destruct parts; simpl; rewrite ?length_app; lia.
  - specialize (IH Hin). destruct parts as [|p' parts]; [contradiction|].
    change (join sep (p :: p' :: parts)) with (p ++ sep ++ join sep (p' :: parts)).
    rewrite !length_app. lia.
Qed.

Lemma already_flagged_length reason :
  length (already_flagged reason) = (33 + length reason)%nat.
Proof.
  unfold already_flagged. rewrite length_app. f_equal.
Qed.

(** A batch of one result that lands in the third tier. *)
Lemma singleton_batch_dropped c r query :
  annotation (fst (verify_one c (fields r) query)) = None ->
  let o := verify_results fromisoformat_year c [r] query in
  returned o = [] /\ caught o = None
  /\ checker_after o
     = _log_suspicious_entry (snd (verify_one c (fields r) query)) (fields r)
         (issues (fst (verify_one c (fields r) query))).
Proof.
  intros Hnone. unfold verify_results, loop, loop_body.
  cbn [checker verified_results verification_stats visited].
  destruct (verify_one c (fields r) query) as [fc' c'].
  cbn [fst snd] in Hnone |- *. rewrite Hnone.
  cbn [returned caught checker_after checker verified_results].
  repeat split.
Qed.

(** Handing a flagged result in again drops it, and the reason stored for it
    grows: the new reason holds the old one behind
    [Bereits als verdächtig markiert: ], unless a check raised. *)
Theorem flagged_reason_grows (c : Checker) (r : candidate) (reason : pystr)
    (query : pystr) :
  flagged c (fields r) reason ->
  let o := verify_results fromisoformat_year c [r] query in
  let fc := fst (verify_one c (fields r) query) in
  returned o = [] /\ caught o = None
  /\ flagged (checker_after o) (fields r) (join (u "; ") (issues fc))
  /\ (source fc = u "error"
      \/ (length reason + 33 <= length (join (u "; ") (issues fc)))%nat).
Proof.
  intros Hf o fc.
  destruct (flagged_outcome c (fields r) reason query Hf) as [Hnone Hissue].
  fold fc in Hnone, Hissue.
  assert (Hsame : snd (verify_one c (fields r) query) = c).
  { apply unknown_unchanged. unfold unknown, flagged in *.
    destruct (known_facts_db c); try exact I. apply Hf. }
  destruct (singleton_batch_dropped c r query Hnone) as (Hret & Hcaught & Hafter).
  fold o in Hret, Hcaught, Hafter. rewrite Hsame in Hafter. fold fc in Hafter.
  split; [exact Hret|]. split; [exact Hcaught|]. split.
  - rewrite Hafter. unfold flagged in Hf.
    destruct (known_facts_db c) as [| |st] eqn:Hdb; try contradiction.
    apply (log_flags c st _ _ Hdb). apply Hf.
  - destruct Hissue as [He|Hin]; [left; exact He | right].
    apply (join_length (u "; ")) in Hin. rewrite already_flagged_length in Hin. lia.
Qed.

(** *** [clear_suspicious_entries] *)

(** The checker with an empty suspicious-entries table. *)
Definition without_flags (c : Checker) : Checker :=
  match known_facts_db c with
  | OpenDb st =>
      {| year_now := year_now c;
         known_facts_db :=
           OpenDb {| verified_facts := verified_facts st; suspicious_entries := ∅ |} |}
  | _ => c
  end.

Lemma cleared_consistency c result :
  _check_consistency_with_known_facts (clear_suspicious_entries c) result
  = _check_consistency_with_known_facts (without_flags c) result.
Proof.
  unfold clear_suspicious_entries, without_flags, _check_consistency_with_known_facts.
  destruct (known_facts_db c) as [| |st] eqn:Hdb; rewrite ?Hdb; try reflexivity.
  simpl. destruct (verified_facts st !! _calculate_result_hash result); [reflexivity|].
  rewrite lookup_fmap, lookup_empty.
  destruct (suspicious_entries st !! _calculate_result_hash result); reflexivity.
Qed.

Lemma cleared_year c : year_now (clear_suspicious_entries c) = year_now (without_flags c).
Proof.
  unfold clear_suspicious_entries, without_flags.
  destruct (known_facts_db c); reflexivity.
Qed.

(** After [clear_suspicious_entries] every result is judged as if nothing
    had ever been flagged: the outcome is the one an empty
    suspicious-entries table gives. *)
Theorem cleared_flags_are_forgotten (c : Checker) (result : dict) (query : pystr) :
  fst (verify_one (clear_suspicious_entries c) result query)
  = fst (verify_one (without_flags c) result query).
Proof.
  assert (H : run_checks fromisoformat_year (clear_suspicious_entries c) result query
              = run_checks fromisoformat_year (without_flags c) result query).
  { unfold run_checks, _check_value_ranges.
    rewrite cleared_consistency, cleared_year. reflexivity. }
  unfold _verify_single_result. rewrite H.
  destruct (run_checks fromisoformat_year (without_flags c) result query)
    as [[found conf]|e]; reflexivity.
Qed.

(** *** Fields that are not numbers *)




End Store.

(** *** On the sample data *)

Lemma road_repair_is_new :
  known_facts_db fresh_checker = OpenDb empty_store
  /\ verified_facts empty_store !! _calculate_result_hash road_repair = None
  /\ (confidence (fst (_verify_single_result isoformat_date_year fresh_checker
                         road_repair road_query)) <=? 0.8)%float = true
  /\ snd (_verify_single_result isoformat_date_year fresh_checker road_repair road_query)
     = fresh_checker.
Proof.
  split; [reflexivity|]. split; [apply lookup_empty|].
  exact (unknown_result_confidence_capped isoformat_date_year fresh_checker empty_store
           road_repair road_query eq_refl (lookup_empty _)).
Defined.

(** The implausible entry, as the store would hand it back. *)
Definition implausible_from_store : dict :=
  (u "quelle", PStr (u "Import")) :: implausible.

Lemma same_fingerprint_as_implausible :
  _calculate_result_hash implausible_from_store = _calculate_result_hash implausible.
Proof. vm_compute. reflexivity. Defined.

(** Two further batches between the logging and the verification. *)
Definition later_batches : list (list candidate * pystr) :=
  [ (mixed_batch, road_query);
    ([plain_dict implausible_from_store; plain_dict road_repair], u "Straßen 2023") ].

Lemma implausible_is_dropped_again :
  let found := [u "Beschreibung zu kurz"] in
  let later := after_batches isoformat_date_year
                 (_log_suspicious_entry fresh_checker implausible found) later_batches in
  known_facts_db fresh_checker = OpenDb empty_store
  /\ verified_facts empty_store !! _calculate_result_hash implausible = None
  /\ _calculate_result_hash implausible_from_store = _calculate_result_hash implausible
  /\ let fc := fst (_verify_single_result isoformat_date_year later
                      implausible_from_store road_query) in
     is_verified fc = false
     /\ (confidence fc <=? 0.3)%float = true
     /\ annotation fc = None
     /\ exists reason,
          flagged later implausible_from_store reason
          /\ (source fc = u "error" \/ In (already_flagged reason) (issues fc)).
Proof.
  split; [reflexivity|]. split; [apply lookup_empty|].
  split; [exact same_fingerprint_as_implausible|].
  exact (logged_result_is_dropped_again isoformat_date_year fresh_checker empty_store
           implausible implausible_from_store [u "Beschreibung zu kurz"] later_batches
           road_query eq_refl (lookup_empty _) same_fingerprint_as_implausible).
Defined.

(** The implausible entry after those batches, and after the flags were
    cleared: the factor 0.3 of the flag gives way to the 0.6 of a result
    the store does not know. *)
Example implausible_confidence_later :
  let later := after_batches isoformat_date_year
                 (_log_suspicious_entry fresh_checker implausible
                    [u "Beschreibung zu kurz"]) later_batches in
  let judged (c : Checker) :=
    fst (_verify_single_result isoformat_date_year c implausible_from_store road_query) in
  (confidence (judged later) <? 0.05)%float = true
  /\ (0.05 <? confidence (judged (clear_suspicious_entries later)))%float = true
  /\ judged (clear_suspicious_entries later) = judged fresh_checker.
Proof. repeat split; vm_compute; reflexivity. Qed.

Definition checker_with_flag : Checker :=
  _log_suspicious_entry fresh_checker implausible [u "Beschreibung zu kurz"].

Lemma implausible_is_flagged :
  flagged checker_with_flag implausible (u "Beschreibung zu kurz").
Proof.
  exact (log_flags fresh_checker empty_store implausible [u "Beschreibung zu kurz"]
           eq_refl (lookup_empty _)).
Defined.

Lemma implausible_reason_grows :
  flagged checker_with_flag (fields (plain_dict implausible)) (u "Beschreibung zu kurz")
  /\ let o := verify_results isoformat_date_year checker_with_flag
                [plain_dict implausible] road_query in
     let fc := fst (_verify_single_result isoformat_date_year checker_with_flag
                      (fields (plain_dict implausible)) road_query) in
     returned o = [] /\ caught o = None
     /\ flagged (checker_after o) (fields (plain_dict implausible))
          (join (u "; ") (issues fc))
     /\ (source fc = u "error"
         \/ (length (u "Beschreibung zu kurz") + 33
             <= length (join (u "; ") (issues fc)))%nat).
Proof.
  split; [exact implausible_is_flagged|].
  exact (flagged_reason_grows isoformat_date_year checker_with_flag
           (plain_dict implausible) (u "Beschreibung zu kurz") road_query
           implausible_is_flagged).
Defined.

(** The reasons stored for the implausible entry after one and after two
    batches. *)
Example reasons_of_two_batches :
  let q := road_query in
  let first := checker_after (verify_results isoformat_date_year fresh_checker
                                [plain_dict implausible] q) in
  let second := checker_after (verify_results isoformat_date_year first
                                 [plain_dict implausible] q) in
  let reason (c : Checker) :=
    match known_facts_db c with
    | OpenDb st =>
        option_map suspicion_reason
          (suspicious_entries st !! _calculate_result_hash implausible)
    | _ => None
    end in
  option_map (@length char) (reason first) = Some 216%nat
  /\ option_map (@length char) (reason second) = Some 420%nat.
Proof. split; vm_compute; reflexivity. Qed.



(** The same entry with the year as a number is verified. *)
Example year_as_number_is_verified :
  is_verified (fst (_verify_single_result isoformat_date_year fresh_checker
                      road_repair road_query)) = true.
Proof. vm_compute. reflexivity. Qed.

End StoreFacts.

(** * What the first system's validators report *)

Module ValidationFacts.
Import Py AiFactChecker.

(** The three validators that only warn always answer [is_valid = True]. *)
Lemma temporal_is_valid self result v :
  validate_temporal_data self result = Ok v -> is_valid v = true.
Proof.
  unfold validate_temporal_data.
  destruct (match get (u "jahr") result with Some _ => _ | None => _ end) as [w|e];
    cbn [bind]; [|discriminate].
  intros [= <-]. reflexivity.
Qed.

Lemma document_is_valid result v :
  validate_document_data result = Ok v -> is_valid v = true.
Proof.
  unfold validate_document_data.
  destruct (match get (u "filename") result with Some _ => _ | None => _ end) as [w1|e];
    cbn [bind]; [|discriminate].
  destruct (match get (u "filesize") result with Some _ => _ | None => _ end) as [w2|e];
    cbn [bind]; [|discriminate].
  destruct (match get (u "typ") result with Some _ => _ | None => _ end) as [w3|e];
    cbn [bind]; [|discriminate].
  intros [= <-]. reflexivity.
Qed.

Lemma consistency_is_valid result v :
  validate_consistency result = Ok v -> is_valid v = true.
Proof.
  unfold validate_consistency.
  destruct (match get (u "betrag") result, get (u "beschreibung") result with
            | Some _, Some _ => _ | _, _ => _ end) as [w|e]; cbn [bind]; [|discriminate].
  intros [= <-]. reflexivity.
Qed.

Lemma when_valid cond m r :
  (forall v, m = Ok v -> is_valid v = true) ->
  when cond m = Ok r -> warnings_if_invalid r = [].
Proof.
  intros Hm. unfold when. destruct cond; [|intros [= <-]; reflexivity].
  destruct m as [v|e]; cbn [bind]; [|discriminate].
  intros [= <-]. simpl. rewrite (Hm v eq_refl). reflexivity.
Qed.

(** The amount is over the limit of a single expense. *)
Definition over_limit (result : dict) : bool :=
  match get (u "betrag") result with
  | Some betrag =>
      match gt_int betrag max_single_expense with Ok b => b | Err _ => false end
  | None => false
  end.

Lemma financial_outcome result v :
  has (u "betrag") result = true ->
  validate_financial_data result = Ok v ->
  is_valid v = negb (over_limit result)
  /\ length (errors v) = (if over_limit result then 1 else 0)%nat.
Proof.
  unfold has, validate_financial_data, over_limit.
  destruct (get (u "betrag") result) as [betrag|]; [intros _|discriminate].
  destruct (gt_int betrag max_single_expense) as [too_high|e]; cbn [bind]; [|discriminate].
  destruct too_high.
  - destruct (format_float betrag) as [[]|e]; cbn [bind]; [|discriminate].
    destruct (lt_int betrag 0) as [n|e]; cbn [bind]; [|discriminate].
    destruct (lower_of _) as [k|e]; cbn [bind]; [|discriminate].
    intros [= <-]. split; reflexivity.
  - cbn [bind].
    destruct (lt_int betrag 0) as [n|e]; cbn [bind]; [|discriminate].
    destruct (lower_of _) as [k|e]; cbn [bind]; [|discriminate].
    intros [= <-]. split; reflexivity.
Qed.

Lemma single_result_shape self result v :
  verify_single_result self result = Ok v ->
  warnings v = []
  /\ is_valid v = negb (over_limit result)
  /\ length (errors v) = (if over_limit result then 1 else 0)%nat.
Proof.
  unfold verify_single_result.
  destruct (when (has (u "betrag") result) (validate_financial_data result))
    as [finance|e] eqn:Hf; cbn [bind]; [|discriminate].
  destruct (when (has (u "datum") result || has (u "jahr") result)
              (validate_temporal_data self result)) as [date|e] eqn:Hd;
    cbn [bind]; [|discriminate].
  destruct (when (has (u "filename") result || has (u "dokument") result)
              (validate_document_data result)) as [doc|e] eqn:Hdoc;
    cbn [bind]; [|discriminate].
  destruct (validate_consistency result) as [cons|e] eqn:Hc; cbn [bind]; [|discriminate].
  intros [= <-]. cbn [warnings is_valid errors].
  rewrite (when_valid _ _ _ (temporal_is_valid self result) Hd).
  rewrite (when_valid _ _ _ (document_is_valid result) Hdoc).
  cbn [warnings_if_invalid]. rewrite (consistency_is_valid _ _ Hc).
  split; [reflexivity|].
  unfold when in Hf. destruct (has (u "betrag") result) eqn:Hb.
  - destruct (validate_financial_data result) as [fv|e] eqn:Hfv; cbn [bind] in Hf;
      [|discriminate].
    injection Hf as <-.
    destruct (financial_outcome result fv Hb Hfv) as [Hv He].
    rewrite Hv, negb_involutive. split; [reflexivity|].
    destruct (over_limit result); [exact He | reflexivity].
  - injection Hf as <-. unfold over_limit, has in *.
    destruct (get (u "betrag") result); [discriminate|]. split; reflexivity.
Qed.

(** Whatever its dates, documents and descriptions, a result is invalid
    exactly when its [betrag] is above the limit of a single expense, and no
    warning of any validator is passed on: the validators that warn answer
    [is_valid = True], and their warnings are read only otherwise. *)
Theorem single_result_validity (self : Checker) (result : dict) (v : validation) :
  verify_single_result self result = Ok v ->
  warnings v = []
  /\ is_valid v = negb (over_limit result)
  /\ (is_valid v = true <-> errors v = []).
Proof.
  intros H. destruct (single_result_shape self result v H) as (Hw & Hv & He).
  split; [exact Hw|]. split; [exact Hv|].
  rewrite Hv. destruct (over_limit result); simpl; split; intros Hx;
    try discriminate; try reflexivity.
  - rewrite Hx in He. discriminate.
  - destruct (errors v); [reflexivity | discriminate].
Qed.

(** *** The report of a batch *)

Definition over_limit_count (results : list dict) : nat :=
  length (List.filter over_limit results).

Lemma tally_shape self results : forall n ws es n' ws' es',
  tally self results (n, ws, es) = Ok (n', ws', es') ->
  ws' = ws
  /\ (n' + over_limit_count results = n + length results)%nat
  /\ length es' = (length es + over_limit_count results)%nat.
Proof.
  unfold over_limit_count.
  induction results as [|r results IH]; intros n ws es n' ws' es' H.
  - simpl in H. injection H as <- <- <-. simpl. repeat split; lia.
  - simpl in H.
    destruct (verify_single_result self r) as [v|e] eqn:Hv; cbn [bind] in H;
      [|discriminate].
    destruct (single_result_shape self r v Hv) as (Hw & Hvalid & He).
    rewrite Hvalid in H. simpl. destruct (over_limit r); simpl in H |- *.
    + apply IH in H. destruct H as (-> & Hn & Hes).
      rewrite Hw, app_nil_r. rewrite length_app, He in Hes. repeat split; simpl; lia.
    + apply IH in H. destruct H as (-> & Hn & Hes). repeat split; lia.
Qed.

Lemma report_shape self results report :
  verify_results self results = Ok report ->
  report_warnings report = []
  /\ (verified_results report + over_limit_count results = length results)%nat
  /\ length (report_errors report) = over_limit_count results.
Proof.
  unfold verify_results. destruct results as [|r results].
  - intros [= <-]. repeat split.
  - destruct (tally self (r :: results) (0%nat, [], [])) as [[[n ws] es]|e] eqn:Ht;
      cbn [bind]; [|discriminate].
    apply tally_shape in Ht. destruct Ht as (-> & Hn & Hes).
    destruct (if (0 <? length (r :: results))%nat then _ else _) as [sc|e];
      cbn [bind]; [|discriminate].
    intros [= <-]. cbn [report_warnings verified_results report_errors].
    simpl in Hn, Hes. repeat split; simpl; lia.
Qed.

(** The report of a batch never carries a warning, and it counts and
    reports exactly the results whose [betrag] is over the limit: one error
    each, and every other result counts as verified, whatever its year,
    date, file or description. *)
Theorem report_judges_amounts_only (self : Checker) (results : list dict)
    (report : Report) :
  verify_results self results = Ok report ->
  report_warnings report = []
  /\ (verified_results report + over_limit_count results = length results)%nat
  /\ length (report_errors report) = over_limit_count results.
Proof. exact (report_shape self results report). Qed.

(** The suggestions for the report of a batch: the two on completeness below
    a score of 90, the two on errors when an amount was over the limit, and
    never the two on warnings. *)
Theorem suggestions_never_mention_warnings (self : Checker) (results : list dict)
    (report : Report) :
  verify_results self results = Ok report ->
  suggest_data_improvements report
  = (if score report <? 90
     then [u "Überprüfen Sie die Datenquellen auf Vollständigkeit";
           u "Implementieren Sie zusätzliche Validierungsregeln"]
     else [])
    ++ (if existsb over_limit results
        then [u "Korrigieren Sie die identifizierten Datenfehler";
              u "Überprüfen Sie die Datenimport-Prozesse"]
        else []).
Proof.
  intros H. destruct (report_shape self results report H) as (Hw & _ & He).
  unfold suggest_data_improvements. rewrite Hw, app_nil_r. f_equal.
  unfold over_limit_count in He.
  assert (Hx : existsb over_limit results
               = match report_errors report with [] => false | _ => true end).
  { destruct (report_errors report) as [|x xs].
    - simpl in He. destruct (List.filter over_limit results) as [|y ys] eqn:Hfl;
        [|discriminate].
      apply not_true_is_false. intros Hex. apply existsb_exists in Hex.
      destruct Hex as (x & Hin & Hx).
      assert (Hin' : In x (List.filter over_limit results))
        by (apply filter_In; split; assumption).
      rewrite Hfl in Hin'. destruct Hin'.
    - destruct (List.filter over_limit results) as [|y ys] eqn:Hfl; [discriminate|].
      assert (Hin : In y (List.filter over_limit results)) by (rewrite Hfl; left; reflexivity).
      apply filter_In in Hin. apply existsb_exists. exists y. exact Hin. }
  rewrite Hx. destruct (report_errors report); reflexivity.
Qed.

(** *** A year that is not a number *)




(** *** On a batch with every kind of flaw but a high amount *)

Definition checker_2026 : Checker :=
  {| built_year := 2026; built_month := 11; built_day := 4 |}.

(** A year before 1990, a date that is no date, an unknown category, a
    negative amount, an unknown file type. *)
Definition flawed : dict :=
  [ (u "jahr", PInt 1850); (u "datum", PStr (u "gestern"));
    (u "kategorie", PStr (u "raumfahrt")); (u "betrag", PInt (-500));
    (u "filename", PStr (u "beleg.exe")); (u "typ", PStr (u "notiz"));
    (u "beschreibung", PStr (u "unklar")) ].

Definition flawed_validation : validation :=
  {| is_valid := true; errors := []; warnings := [] |}.

Lemma flawed_is_valid :
  verify_single_result checker_2026 flawed = Ok flawed_validation
  /\ warnings flawed_validation = []
  /\ is_valid flawed_validation = negb (over_limit flawed)
  /\ (is_valid flawed_validation = true <-> errors flawed_validation = []).
Proof.
  assert (H : verify_single_result checker_2026 flawed = Ok flawed_validation)
    by (vm_compute; reflexivity).
  split; [exact H|].
  exact (single_result_validity checker_2026 flawed flawed_validation H).
Defined.

(** The validators did warn. *)
Example flawed_warnings_are_lost :
  option_map (fun v => length (warnings v))
    (match validate_temporal_data checker_2026 flawed with
     | Ok v => Some v | Err _ => None end) = Some 2%nat
  /\ option_map (fun v => length (warnings v))
       (match validate_financial_data flawed with
        | Ok v => Some v | Err _ => None end) = Some 2%nat
  /\ option_map (fun v => length (warnings v))
       (match validate_document_data flawed with
        | Ok v => Some v | Err _ => None end) = Some 2%nat.
Proof. repeat split; vm_compute; reflexivity. Qed.

Definition too_expensive : dict := [ (u "betrag", PInt 20000000) ].

Definition flawed_batch : list dict := [flawed; too_expensive; flawed].

Definition flawed_report : Report :=
  {| total_results := 3; verified_results := 2;
     report_warnings := []; report_errors := [UnrealisticAmount (PInt 20000000)];
     score := 66; confidence := u "low"; data_quality := u "questionable" |}.

Lemma flawed_batch_report : verify_results checker_2026 flawed_batch = Ok flawed_report.
Proof. vm_compute. reflexivity. Defined.

Lemma flawed_batch_judged_by_amount :
  verify_results checker_2026 flawed_batch = Ok flawed_report
  /\ report_warnings flawed_report = []
  /\ (verified_results flawed_report + over_limit_count flawed_batch
      = length flawed_batch)%nat
  /\ length (report_errors flawed_report) = over_limit_count flawed_batch.
Proof.
  split; [exact flawed_batch_report|].
  exact (report_judges_amounts_only checker_2026 flawed_batch flawed_report
           flawed_batch_report).
Defined.

Lemma flawed_batch_suggestions :
  verify_results checker_2026 flawed_batch = Ok flawed_report
  /\ suggest_data_improvements flawed_report
     = (if score flawed_report <? 90
        then [u "Überprüfen Sie die Datenquellen auf Vollständigkeit";
              u "Implementieren Sie zusätzliche Validierungsregeln"]
        else [])
       ++ (if existsb over_limit flawed_batch
           then [u "Korrigieren Sie die identifizierten Datenfehler";
                 u "Überprüfen Sie die Datenimport-Prozesse"]
           else []).
Proof.
  split; [exact flawed_batch_report|].
  exact (suggestions_never_mention_warnings checker_2026 flawed_batch flawed_report
           flawed_batch_report).
Defined.



End ValidationFacts.

(** * The normalized query *)

Module NormalizeFacts.
Import Py NLP.

(** *** What the matcher and the string operations leave of a text *)

(** A match ends inside the subject: the continuation of [run] is entered
    at a position whose rest is a suffix of the rest it started from. *)
Lemma run_suffix {A} ci (r : Re.regex) :
  forall (p : Re.pos) (cs : Re.caps) (k : Re.pos -> Re.caps -> option A) (x : A),
  Re.run ci r p cs k = Some x ->
  exists p' cs', Re.rest p' `suffix_of` Re.rest p /\ k p' cs' = Some x.
Proof.
  induction r as [|c|f|a IHa b IHb|a IHa b IHb|a IHa|i a IHa|]; intros p cs k x H.
  - exists p, cs. split; [reflexivity | exact H].
  - simpl in H. destruct (Re.rest p) as [|y s'] eqn:Hp; [discriminate|].
    destruct (Re.chr_eqb ci c y); [|discriminate].
    eexists _, cs. split; [|exact H]. simpl. apply suffix_cons_r. reflexivity.
  - simpl in H. destruct (Re.rest p) as [|y s'] eqn:Hp; [discriminate|].
    destruct (f y); [|discriminate].
    eexists _, cs. split; [|exact H]. simpl. apply suffix_cons_r. reflexivity.
  - simpl in H. apply IHa in H. destruct H as (p1 & cs1 & Hs1 & H).
    apply IHb in H. destruct H as (p2 & cs2 & Hs2 & H).
    exists p2, cs2. split; [etrans; eassumption | exact H].
  - simpl in H. destruct (Re.run ci a p cs k) as [y|] eqn:Ha.
    + injection H as <-. apply IHa in Ha. exact Ha.
    + apply IHb in H. exact H.
  - assert (Hloop : forall n p cs x,
              (fix loop (n : nat) (p : Re.pos) (cs : Re.caps) {struct n} : option A :=
                 match n with
                 | O => k p cs
                 | S n' =>
                     match Re.run ci a p cs (fun p' cs' =>
                             if (length (Re.rest p') <? length (Re.rest p))%nat
                             then loop n' p' cs' else None) with
                     | Some x => Some x
                     | None => k p cs
                     end
                 end) n p cs = Some x ->
              exists p' cs', Re.rest p' `suffix_of` Re.rest p /\ k p' cs' = Some x).
    { clear p cs x H. induction n as [|n IHn]; intros p cs x H.
      - exists p, cs. split; [reflexivity | exact H].
      - match type of H with
        | match ?m with _ => _ end = _ => destruct m as [y|] eqn:Hm
        end.
        + injection H as <-. apply IHa in Hm. destruct Hm as (p1 & cs1 & Hs1 & Hm).
          destruct (length (Re.rest p1) <? length (Re.rest p))%nat; [|discriminate].
          apply IHn in Hm. destruct Hm as (p2 & cs2 & Hs2 & Hm).
          exists p2, cs2. split; [etrans; eassumption | exact Hm].
        + exists p, cs. split; [reflexivity | exact H]. }
    exact (Hloop (S (length (Re.rest p))) p cs x H).
  - simpl in H. apply IHa in H. destruct H as (p1 & cs1 & Hs1 & H).
    eexists p1, _. split; [exact Hs1 | exact H].
  - simpl in H. destruct (xorb _ _); [|discriminate].
    exists p, cs. split; [reflexivity | exact H].
Qed.

Lemma match_after ci r p m :
  Re.match_at ci r p = Some m -> Re.rest (Re.after m) `suffix_of` Re.rest p.
Proof.
  unfold Re.match_at. intros H. apply run_suffix in H.
  destruct H as (p' & cs' & Hs & [= <-]). exact Hs.
Qed.

Lemma in_suffix {A} (x : A) (s t : list A) : s `suffix_of` t -> In x s -> In x t.
Proof. intros [pre ->] H. apply in_or_app. right. exact H. Qed.

Lemma step_suffix p : Re.rest (Re.step p) `suffix_of` Re.rest p.
Proof.
  unfold Re.step. destruct (Re.rest p) as [|x s] eqn:Hp.
  - rewrite Hp. reflexivity.
  - simpl. apply suffix_cons_r. reflexivity.
Qed.

(** [re.sub] writes characters of the subject and of the replacement. *)
Lemma sub_scan_chars (c : char) r repl : forall fuel p,
  In c (Re.sub_scan fuel r repl p) -> In c repl \/ In c (Re.rest p).
Proof.
  induction fuel as [|fuel IH]; intros p H; [right; exact H|].
  simpl in H. destruct (Re.match_at false r p) as [m|] eqn:Hm.
  - destruct (Re.whole m) as [|w ws]; destruct (Re.rest p) as [|x s] eqn:Hp.
    + left. exact H.
    + apply in_app_or in H. destruct H as [H|[->|H]]; [left; exact H | right; left; reflexivity|].
      apply IH in H. destruct H as [H|H]; [left; exact H | right].
      eapply in_suffix; [|exact H]. rewrite <- Hp. apply step_suffix.
    + apply in_app_or in H. destruct H as [H|H]; [left; exact H|].
      apply IH in H. destruct H as [H|H]; [left; exact H | right].
      apply match_after in Hm. rewrite Hp in Hm. eapply in_suffix; eassumption.
    + apply in_app_or in H. destruct H as [H|H]; [left; exact H|].
      apply IH in H. destruct H as [H|H]; [left; exact H | right].
      apply match_after in Hm. rewrite Hp in Hm. eapply in_suffix; eassumption.
  - destruct (Re.rest p) as [|x s] eqn:Hp; [destruct H|].
    destruct H as [->|H]; [right; left; reflexivity|].
    apply IH in H. destruct H as [H|H]; [left; exact H | right].
    eapply in_suffix; [|exact H]. rewrite <- Hp. apply step_suffix.
Qed.

Lemma sub_chars (c : char) r repl s :
  In c (Re.sub r repl s) -> In c repl \/ In c s.
Proof. unfold Re.sub. intros H. apply sub_scan_chars in H. exact H. Qed.

(** [s.replace(c, new)] for a character [c]: what is left of [c], and what
    can appear. *)
Lemma replace_removes (c : char) (new s : pystr) :
  ~ In c new -> ~ In c (replace [c] new s).
Proof.
  intros Hnew. rewrite AmountFacts.replace_char. intros H.
  apply in_flat_map in H. destruct H as (x & _ & Hx).
  destruct (N.eqb_spec c x) as [->|Hne]; [exact (Hnew Hx)|].
  destruct Hx as [->|[]]. exact (Hne eq_refl).
Qed.

Lemma replace_chars (d c : char) (new s : pystr) :
  In d (replace [c] new s) -> In d new \/ In d s.
Proof.
  rewrite AmountFacts.replace_char. intros H.
  apply in_flat_map in H. destruct H as (x & Hin & Hx).
  destruct (c =? x)%N; [left; exact Hx|].
  destruct Hx as [->|[]]. right. exact Hin.
Qed.

Lemma starts_with_chars (c : char) (p s : pystr) :
  starts_with p s = true -> In c p -> In c s.
Proof.
  revert s. induction p as [|a p IH]; intros s H Hin; [destruct Hin|].
  destruct s as [|b s]; [discriminate|]. simpl in H.
  apply andb_prop in H. destruct H as [Hab H]. apply N.eqb_eq in Hab. subst b.
  destruct Hin as [->|Hin]; [left; reflexivity | right; apply IH; assumption].
Qed.

(** [needle in hay] needs every character of the needle in the hay. *)
Lemma contains_chars (c : char) (needle hay : pystr) :
  contains needle hay = true -> In c needle -> In c hay.
Proof.
  induction hay as [|x hay IH]; simpl; intros H Hin.
  - rewrite orb_false_r in H. exact (starts_with_chars c needle [] H Hin).
  - apply orb_prop in H. destruct H as [H|H].
    + exact (starts_with_chars c needle (x :: hay) H Hin).
    + right. apply IH; assumption.
Qed.

(** *** [_normalize_query] *)

(** The characters the replacements write out: a-umlaut, o-umlaut,
    u-umlaut, sharp s, the euro sign and the ampersand. *)
Definition replaced_characters : list char := [228; 246; 252; 223; 8364; 38]%N.

Lemma replaced_characters_are_the_keys :
  map fst replacements = map (fun c => [c]) replaced_characters.
Proof. vm_compute. reflexivity. Qed.

Lemma replacements_eq :
  replacements
  = [ ([228], [97; 101]); ([246], [111; 101]); ([252], [117; 101]);
      ([223], [115; 115]); ([8364], [101; 117; 114; 111]); ([38], [117; 110; 100]) ]%N.
Proof. vm_compute. reflexivity. Qed.

Ltac peel H :=
  repeat match type of H with
         | In ?c (replace [?c] ?new ?s) =>
             exfalso; revert H; apply replace_removes; simpl; intuition discriminate
         | In ?c (replace [?d] ?new ?s) =>
             apply replace_chars in H; destruct H as [H|H];
             [exfalso; simpl in H; intuition discriminate|]
         end.

Lemma normalized_characters (query : pystr) (c : char) :
  In c replaced_characters -> ~ In c (_normalize_query query).
Proof.
  intros Hc Hin. unfold _normalize_query in Hin. rewrite replacements_eq in Hin.
  cbn [fold_left fst snd] in Hin.
  apply sub_chars in Hin.
  unfold replaced_characters in Hc. simpl in Hc.
  destruct Hc as [<-|[<-|[<-|[<-|[<-|[<-|[]]]]]]];
    (destruct Hin as [Hin|Hin];
     [change (u " ") with [32%N] in Hin; simpl in Hin; intuition discriminate|]);
    peel Hin.
Qed.

(** Whether a keyword holds one of the replaced characters. *)
Definition written_out (keyword : pystr) : bool :=
  existsb (fun c => existsb (N.eqb c) keyword) replaced_characters.

Lemma written_out_never_found (query keyword : pystr) :
  written_out keyword = true -> contains keyword (_normalize_query query) = false.
Proof.
  intros H. apply existsb_exists in H. destruct H as (c & Hc & H).
  apply existsb_exists in H. destruct H as (x & Hx & Heq).
  apply N.eqb_eq in Heq. subst x.
  apply not_true_is_false. intros Hfound.
  exact (normalized_characters query c Hc (contains_chars c _ _ Hfound Hx)).
Qed.

(** No keyword written with an umlaut, a sharp s, a euro sign or an
    ampersand is ever found in a normalized query, so every keyword list
    gives for a normalized query the answer it gives without these
    keywords: the normalization has written the characters out ([ae], [oe],
    [ue], [ss], [euro], [und]) before the tables are searched. *)
Theorem written_out_keywords_are_dead (query : pystr) :
  (forall keyword, written_out keyword = true ->
     contains keyword (_normalize_query query) = false)
  /\ (forall row : list pystr,
        any_in row (_normalize_query query)
        = any_in (List.filter (fun k => negb (written_out k)) row)
                 (_normalize_query query)).
Proof.
  split; [intros keyword; apply written_out_never_found|].
  intros row. induction row as [|k row IH]; [reflexivity|].
  unfold any_in in *. simpl. destruct (written_out k) eqn:Hk; simpl.
  - rewrite (written_out_never_found query k Hk). exact IH.
  - rewrite IH. reflexivity.
Qed.

(** The keywords of the tables that can never be found: 26 of 162. *)
Definition searched_keywords : list pystr :=
  concat (map snd (finance_keywords ++ category_keywords ++ document_keywords
                   ++ question_keywords))
  ++ time_keywords_aktuell ++ time_keywords_vergangen
  ++ comparison_mehr ++ comparison_weniger ++ comparison_zwischen ++ stats_keywords.

Example dead_keywords :
  List.filter written_out searched_keywords
  = map u ["erlös"; "erlöse"; "höhe"; "€"; "straße"; "straßen"; "brücke"; "brücken";
           "kanäle"; "gehälter"; "löhne"; "grün"; "grünfläche"; "grünflächen"; "bäume";
           "kindergärten"; "unterstützung"; "büro"; "ämter"; "beschlüsse"; "verträge";
           "über"; "größer"; "höher"; "höchstens"; "übersicht"]%string
  /\ length searched_keywords = 162%nat.
Proof. split; vm_compute; reflexivity. Qed.

(** The question about the roads: no year and not the infrastructure, but
    the administration, an [amount_min] and a comparison, the last two from
    the [ab] of [gab]. *)
Example road_query_entities :
  found_entities (analyze_query {| nlp_model_loaded := false |}
                    {| current_year := 2026; now_isoformat := u "2026-11-04T09:30:00" |}
                    (u "Wie viel gab die Gemeinde 2023 für Straßen aus?"))
  = [ (u "amount_min", EFloat 2023); (u "category", EStr (u "verwaltung"));
      (u "comparison_type", EStr (u "greater_than")) ].
Proof. vm_compute. reflexivity. Qed.

(** *** [_extract_keywords] *)

Lemma mem_In (x : pystr) (xs : list pystr) : mem x xs = true <-> In x xs.
Proof.
  unfold mem. rewrite existsb_exists. split.
  - intros (y & Hin & Heq). unfold str_eqb in Heq. apply bool_decide_eq_true in Heq.
    subst y. exact Hin.
  - intros Hin. exists x. split; [exact Hin|]. unfold str_eqb.
    apply bool_decide_eq_true. reflexivity.
Qed.

Lemma unique_In (x : pystr) xs : forall seen,
  In x (unique seen xs) <-> In x xs /\ ~ In x seen.
Proof.
  induction xs as [|y xs IH]; intros seen; simpl; [tauto|].
  destruct (mem y seen) eqn:Hm.
  - apply mem_In in Hm. rewrite IH. split.
    + intros [H1 H2]. tauto.
    + intros [[->|H1] H2]; [contradiction | tauto].
  - assert (Hn : ~ In y seen) by (rewrite <- mem_In, Hm; discriminate).
    simpl. rewrite IH. simpl. split.
    + intros [->|[H1 H2]]; [tauto | tauto].
    + intros [[->|H1] H2]; [tauto|].
      destruct (decide (y = x)) as [->|Hne]; [tauto | right; tauto].
Qed.

Lemma unique_NoDup xs : forall seen, List.NoDup (unique seen xs).
Proof.
  induction xs as [|y xs IH]; intros seen; simpl; [constructor|].
  destruct (mem y seen); [apply IH|].
  constructor; [|apply IH]. rewrite unique_In. simpl. tauto.
Qed.

(** The keywords of a query are words of the lowered query, each once,
    longer than two characters, and none of them a stop word. *)
Theorem keywords_are_distinct_words (query : pystr) :
  List.NoDup (_extract_keywords query)
  /\ forall word, In word (_extract_keywords query) ->
       In word (Re.findall0 false (Re.seqs [Re.WordB; Re.plus Re.wordc; Re.WordB])
                  (lower query))
       /\ (2 < length word)%nat
       /\ ~ In word keyword_stopwords.
Proof.
  unfold _extract_keywords. split; [apply unique_NoDup|].
  intros word H. apply unique_In in H. destruct H as [H _].
  apply filter_In in H. destruct H as [Hin H].
  apply andb_prop in H. destruct H as [Hstop Hlen].
  split; [exact Hin|]. split; [apply Nat.ltb_lt; exact Hlen|].
  rewrite <- mem_In. destruct (mem word keyword_stopwords); [discriminate | discriminate].
Qed.

(** *** [_analyze_specificity] *)

(** The specificity lies in [0, 1), and the cap of 1.0 is never needed: all
    five terms together make 0.9999999999999999. *)
Theorem specificity_below_one (found : entities) :
  (0 <=? _analyze_specificity found)%float = true
  /\ (_analyze_specificity found <? 1)%float = true
  /\ (_analyze_specificity found <=? 0.9999999999999999)%float = true.
Proof.
  unfold _analyze_specificity.
  destruct (has_key (u "year") found), (has_key (u "category") found),
    (has_key (u "amount") found || has_key (u "amount_min") found
     || has_key (u "amount_max") found),
    (has_key (u "document_type") found), (3 <? length found)%nat;
    vm_compute; repeat split.
Qed.

End NormalizeFacts.

(** * The first system's reading of amounts and years *)

Module GermanFacts.
Import Py GermanNLP.

(** *** [parse_amount] *)

Lemma german_to_decimal_period (a b : pystr) :
  NLP.german_to_decimal (a ++ [46%N] ++ b) = NLP.german_to_decimal (a ++ b).
Proof.
  unfold NLP.german_to_decimal. change (u ".") with [46%N].
  rewrite !AmountFacts.replace_char, !flat_map_app. reflexivity.
Qed.

(** A period is dropped wherever it stands, also where it was meant as a
    decimal point: [1.5] is read as 15. *)
Theorem parse_amount_drops_periods (a b : pystr) :
  parse_amount (a ++ [46%N] ++ b) = parse_amount (a ++ b).
Proof. unfold parse_amount. rewrite german_to_decimal_period. reflexivity. Qed.

Example parse_amount_decimal_point :
  parse_amount (u "1.5") = 15%float /\ parse_amount (u "19.99") = 1999%float
  /\ parse_amount (u "1,5") = 1.5%float /\ parse_amount (u "1,2,3") = 0%float
  /\ parse_amount [] = 0%float.
Proof. repeat split; vm_compute; reflexivity. Qed.

(** *** [validate_query] *)

Definition year_warning (century : pystr) : pystr :=
  u "Jahr " ++ century ++ u " liegt außerhalb des erwarteten Bereichs".

Lemma year_notes_all current_year (year_matches : list pystr) :
  Forall (fun s => s = u "19" \/ s = u "20") year_matches ->
  year_notes current_year year_matches
  = Ok (map year_warning year_matches,
        map (fun _ => u "Verfügbare Jahre: 1990-" ++ str_of_Z current_year) year_matches).
Proof.
  induction 1 as [|s rest Hs _ IH]; [reflexivity|].
  simpl. rewrite IH. destruct Hs as [-> | ->]; reflexivity.
Qed.

(** Every year written in a query, 2023 as well as 1850, draws the warning
    that the year (read as 19 or 20) is out of range, and the suggestion of
    the available years; the query is valid all the same. *)
Theorem every_year_is_warned_about (current_year : Z) (query : pystr) :
  let years := Re.findall1 false pattern_jahr query in
  Forall (fun s => s = u "19" \/ s = u "20") years
  /\ validate_query current_year query
     = Ok {| query_is_valid := true;
             query_warnings :=
               map year_warning years
               ++ amount_notes (Re.findall1 false pattern_any_amount query);
             query_suggestions :=
               map (fun _ => u "Verfügbare Jahre: 1990-" ++ str_of_Z current_year)
                   years |}.
Proof.
  assert (H : Forall (fun s => s = u "19" \/ s = u "20")
                (Re.findall1 false pattern_jahr query)).
  { unfold Re.findall1, Re.finditer. apply Forall_map.
    apply (NLPFacts.scan_Forall
             (fun m => Re.group 1 (Re.groups m) = u "19"
                       \/ Re.group 1 (Re.groups m) = u "20")).
    exact NLPFacts.year_group. }
  split; [exact H|].
  unfold validate_query. rewrite (year_notes_all current_year _ H). reflexivity.
Qed.

Example road_query_is_warned_about :
  validate_query 2026 (u "Wie viel gab die Gemeinde 2023 für Straßen aus?")
  = Ok {| query_is_valid := true;
          query_warnings := [u "Jahr 20 liegt außerhalb des erwarteten Bereichs"];
          query_suggestions := [u "Verfügbare Jahre: 1990-2026"] |}.
Proof. vm_compute. reflexivity. Qed.

End GermanFacts.

(** * What a match consumes and captures *)

Module MatcherFacts.
Import Py.

(** The words of a pattern, whatever stands around them: a word
    boundary counts as the empty word. *)
Inductive lang (ci : bool) : Re.regex -> pystr -> Prop :=
| lang_eps : lang ci Re.Eps []
| lang_chr c x : Re.chr_eqb ci c x = true -> lang ci (Re.Chr c) [x]
| lang_cls (g : char -> bool) x : g x = true -> lang ci (Re.Cls g) [x]
| lang_seq a b w1 w2 : lang ci a w1 -> lang ci b w2 -> lang ci (Re.Seq a b) (w1 ++ w2)
| lang_alt_l a b w : lang ci a w -> lang ci (Re.Alt a b) w
| lang_alt_r a b w : lang ci b w -> lang ci (Re.Alt a b) w
| lang_star_nil a : lang ci (Re.Star a) []
| lang_star_more a w1 w2 :
    lang ci a w1 -> lang ci (Re.Star a) w2 -> lang ci (Re.Star a) (w1 ++ w2)
| lang_grp i a w : lang ci a w -> lang ci (Re.Grp i a) w
| lang_wordb : lang ci Re.WordB [].

(** Every match of the pattern sets group [i]. *)
Fixpoint sets (i : nat) (r : Re.regex) : Prop :=
  match r with
  | Re.Grp j a => j = i \/ sets i a
  | Re.Seq a b => sets i a \/ sets i b
  | Re.Alt a b => sets i a /\ sets i b
  | Re.Eps | Re.Chr _ | Re.Cls _ | Re.Star _ | Re.WordB => False
  end.

Definition has_group (i : nat) (cs : Re.caps) : Prop := exists s, In (i, s) cs.

(** [w] stands somewhere in [s]. *)
Definition part_of (w s : pystr) : Prop := exists before after, s = before ++ w ++ after.

Section Run.

(** [re.IGNORECASE], the subject, and what is to hold of the text of each
    group. *)
Variable ci : bool.
Variable subject : pystr.
Variable holds : nat -> pystr -> Prop.

Fixpoint groups_hold (r : Re.regex) : Prop :=
  match r with
  | Re.Grp j a => (forall w, lang ci a w -> holds j w) /\ groups_hold a
  | Re.Seq a b | Re.Alt a b => groups_hold a /\ groups_hold b
  | Re.Star a => groups_hold a
  | Re.Eps | Re.Chr _ | Re.Cls _ | Re.WordB => True
  end.

Definition caps_hold (cs : Re.caps) : Prop :=
  Forall (fun e => holds (fst e) (snd e) /\ part_of (snd e) subject) cs.

(** What [run] hands to its continuation. *)
Record reached (r : Re.regex) (p p' : Re.pos) (cs cs' : Re.caps) (w : pystr) : Prop := {
  reached_word : Re.rest p = w ++ Re.rest p';
  reached_lang : lang ci r w;
  reached_caps : caps_hold cs';
  reached_kept : forall i, has_group i cs -> has_group i cs';
  reached_sets : forall i, sets i r -> has_group i cs'
}.

Lemma suffix_after (w s t : pystr) : s = w ++ t -> s `suffix_of` subject -> t `suffix_of` subject.
Proof. intros -> [pre ->]. exists (pre ++ w). rewrite <- app_assoc. reflexivity. Qed.

Lemma run_reached {A} (r : Re.regex) :
  forall (p : Re.pos) (cs : Re.caps) (k : Re.pos -> Re.caps -> option A) (x : A),
  groups_hold r -> caps_hold cs -> Re.rest p `suffix_of` subject ->
  Re.run ci r p cs k = Some x ->
  exists w p' cs', reached r p p' cs cs' w /\ k p' cs' = Some x.
Proof.
  induction r as [|c|g|a IHa b IHb|a IHa b IHb|a IHa|i a IHa|];
    intros p cs k x Hg Hcs Hp H.
  - exists [], p, cs. split; [|exact H].
    constructor; simpl; try tauto. constructor.
  - simpl in H. destruct (Re.rest p) as [|y s'] eqn:Hr; [discriminate|].
    destruct (Re.chr_eqb ci c y) eqn:Hy; [|discriminate].
    exists [y], (Re.mkpos (Some y) s'), cs. split; [|exact H].
    constructor; simpl; try tauto. constructor. exact Hy.
  - simpl in H. destruct (Re.rest p) as [|y s'] eqn:Hr; [discriminate|].
    destruct (g y) eqn:Hy; [|discriminate].
    exists [y], (Re.mkpos (Some y) s'), cs. split; [|exact H].
    constructor; simpl; try tauto. constructor. exact Hy.
  - simpl in H, Hg. destruct Hg as [Hga Hgb].
    apply IHa in H; [|assumption..].
    destruct H as (w1 & p1 & cs1 & [Hw1 Hl1 Hd1 Hk1 Hs1] & H).
    apply IHb in H; [|assumption | assumption | exact (suffix_after _ _ _ Hw1 Hp)].
    destruct H as (w2 & p2 & cs2 & [Hw2 Hl2 Hd2 Hk2 Hs2] & H).
    exists (w1 ++ w2), p2, cs2. split; [|exact H].
    constructor; simpl.
    + rewrite <- app_assoc. congruence.
    + constructor; assumption.
    + assumption.
    + auto.
    + intros j [Hj|Hj]; auto.
  - simpl in H, Hg. destruct Hg as [Hga Hgb].
    destruct (Re.run ci a p cs k) as [y|] eqn:Ha.
    + injection H as <-. apply IHa in Ha; [|assumption..].
      destruct Ha as (w & p' & cs' & [Hw Hl Hd Hk Hs] & H).
      exists w, p', cs'. split; [|exact H].
      constructor; simpl; [exact Hw | apply lang_alt_l, Hl | exact Hd | exact Hk |].
      intros j [Hj _]. auto.
    + apply IHb in H; [|assumption..].
      destruct H as (w & p' & cs' & [Hw Hl Hd Hk Hs] & H).
      exists w, p', cs'. split; [|exact H].
      constructor; simpl; [exact Hw | apply lang_alt_r, Hl | exact Hd | exact Hk |].
      intros j [_ Hj]. auto.
  - simpl in Hg.
    assert (Hloop : forall n p cs x, caps_hold cs -> Re.rest p `suffix_of` subject ->
              (fix loop (n : nat) (p : Re.pos) (cs : Re.caps) {struct n} : option A :=
                 match n with
                 | O => k p cs
                 | S n' =>
                     match Re.run ci a p cs (fun p' cs' =>
                             if (length (Re.rest p') <? length (Re.rest p))%nat
                             then loop n' p' cs' else None) with
                     | Some x => Some x
                     | None => k p cs
                     end
                 end) n p cs = Some x ->
              exists w p' cs', reached (Re.Star a) p p' cs cs' w /\ k p' cs' = Some x).
    { clear p cs x Hcs Hp H. induction n as [|n IHn]; intros p cs x Hcs Hp H.
      - exists [], p, cs. split; [|exact H].
        constructor; simpl; try tauto. constructor.
      - match type of H with
        | match ?m with _ => _ end = _ => destruct m as [y|] eqn:Hm
        end.
        + injection H as <-. apply IHa in Hm; [|assumption..].
          destruct Hm as (w1 & p1 & cs1 & [Hw1 Hl1 Hd1 Hk1 Hs1] & Hm).
          destruct (length (Re.rest p1) <? length (Re.rest p))%nat; [|discriminate].
          apply IHn in Hm; [|assumption | exact (suffix_after _ _ _ Hw1 Hp)].
          destruct Hm as (w2 & p2 & cs2 & [Hw2 Hl2 Hd2 Hk2 Hs2] & Hm).
          exists (w1 ++ w2), p2, cs2. split; [|exact Hm].
          constructor; simpl; try tauto.
          * rewrite <- app_assoc. congruence.
          * apply lang_star_more; assumption.
          * auto.
        + exists [], p, cs. split; [|exact H].
          constructor; simpl; try tauto. constructor. }
    exact (Hloop (S (length (Re.rest p))) p cs x Hcs Hp H).
  - simpl in H, Hg. destruct Hg as (Hhold & Hga).
    apply IHa in H; [|assumption..].
    destruct H as (w & p' & cs' & [Hw Hl Hd Hk Hs] & H).
    rewrite Hw, length_app, Nat.add_sub, take_app_length in H.
    exists w, p', ((i, w) :: cs'). split; [|exact H].
    constructor; simpl.
    + assumption.
    + constructor. exact Hl.
    + constructor; [|assumption]. simpl. split; [apply Hhold, Hl|].
      destruct Hp as [pre Hpre]. exists pre, (Re.rest p'). rewrite Hpre, Hw. reflexivity.
    + intros j [s Hin]. destruct (Hk j (ex_intro _ s Hin)) as [s' Hs'].
      exists s'. right. exact Hs'.
    + intros j [<-|Hj]; [exists w; left; reflexivity|].
      destruct (Hs j Hj) as [s' Hs']. exists s'. right. exact Hs'.
  - simpl in H. destruct (xorb _ _); [|discriminate].
    exists [], p, cs. split; [|exact H].
    constructor; simpl; try tauto. constructor.
Qed.

Lemma group_holds i cs :
  has_group i cs -> caps_hold cs ->
  holds i (Re.group i cs) /\ part_of (Re.group i cs) subject.
Proof.
  intros [s Hin] Hcs. induction Hcs as [|[j t] cs Ht _ IH]; [destruct Hin|].
  simpl. destruct (Nat.eqb_spec i j) as [->|Hne]; [exact Ht|].
  apply IH. destruct Hin as [[= -> ->]|Hin]; [contradiction | exact Hin].
Qed.

(** After a match inside the subject, a group that every match sets holds
    a text of the subject with the property of the group. *)
Lemma match_group r i p m :
  groups_hold r -> sets i r -> Re.rest p `suffix_of` subject ->
  Re.match_at ci r p = Some m ->
  holds i (Re.group i (Re.groups m)) /\ part_of (Re.group i (Re.groups m)) subject.
Proof.
  intros Hg Hs Hp H. unfold Re.match_at in H.
  apply run_reached in H; [|exact Hg | constructor | exact Hp].
  destruct H as (w & p' & cs' & [Hw Hl Hd Hk Hset] & [= <-]). simpl.
  apply group_holds; auto.
Qed.

(** The matches of a scan are matches at positions of the subject. *)
Lemma scan_matches (P : Re.rmatch -> Prop) r :
  (forall p m, Re.rest p `suffix_of` subject -> Re.match_at ci r p = Some m -> P m) ->
  forall fuel p, Re.rest p `suffix_of` subject -> Forall P (Re.scan fuel ci r p).
Proof.
  intros HP. induction fuel as [|fuel IH]; intros p Hp; simpl; [constructor|].
  assert (Hstep : Re.rest (Re.step p) `suffix_of` subject).
  { unfold Re.step. destruct (Re.rest p) as [|y s'] eqn:Hr; [rewrite Hr; exact Hp|].
    simpl. exact (suffix_after [y] _ _ eq_refl Hp). }
  destruct (Re.match_at ci r p) as [m|] eqn:Hm.
  - constructor; [eauto|].
    assert (Hafter : Re.rest (Re.after m) `suffix_of` subject)
      by (etrans; [exact (NormalizeFacts.match_after ci r p m Hm) | exact Hp]).
    destruct (Re.whole m); destruct (Re.rest p); auto.
  - destruct (Re.rest p); auto.
Qed.

(** The groups of the matches [finditer] yields. *)
Lemma finditer_groups r i :
  groups_hold r -> sets i r ->
  Forall (fun m => holds i (Re.group i (Re.groups m))
                   /\ part_of (Re.group i (Re.groups m)) subject)
         (Re.finditer ci r subject).
Proof.
  intros Hg Hs. unfold Re.finditer. apply scan_matches; [|reflexivity].
  intros p m Hp Hm. exact (match_group r i p m Hg Hs Hp Hm).
Qed.

Lemma search_group r i m :
  groups_hold r -> sets i r ->
  Re.search ci r subject = Some m ->
  holds i (Re.group i (Re.groups m)) /\ part_of (Re.group i (Re.groups m)) subject.
Proof.
  intros Hg Hs H. pose proof (finditer_groups r i Hg Hs) as HF.
  unfold Re.search in H. destruct (Re.finditer ci r subject) as [|m' ms]; [discriminate|].
  injection H as <-. inversion HF. assumption.
Qed.

(** Patterns without groups. *)
Lemma groups_hold_lit s : groups_hold (Re.lit s).
Proof.
  induction s as [|c s IH]; [exact I|]. destruct s; [exact I|]. split; [exact I | exact IH].
Qed.

Lemma groups_hold_txt s : groups_hold (Re.txt s).
Proof. apply groups_hold_lit. Qed.

End Run.

(** *** Words of digits *)

Definition digits (s : pystr) : Prop := s <> [] /\ Forall (fun c => is_digit c = true) s.

Lemma lang_digit ci w : lang ci Re.digit w -> exists c, w = [c] /\ is_digit c = true.
Proof. unfold Re.digit. inversion 1; subst. eauto. Qed.

Lemma lang_some_digits ci w : lang ci (Re.plus Re.digit) w -> digits w.
Proof.
  unfold Re.plus. inversion 1 as [| | |? ? w1 w2 H1 H2| | | | | |]; subst.
  apply lang_digit in H1. destruct H1 as (c & -> & Hc).
  split; [discriminate|]. constructor; [exact Hc|].
  clear Hc H. remember (Re.Star Re.digit) as r eqn:Hr.
  induction H2 as [| | | | | | |a v1 v2 Hv1 _ Hv2 IH| |]; try discriminate.
  - constructor.
  - injection Hr as ->. apply lang_digit in Hv1. destruct Hv1 as (d & -> & Hd).
    constructor; [exact Hd | apply IH; reflexivity].
Qed.

(** [\d{n}] *)
Lemma lang_rep_digits ci n w :
  lang ci (Re.rep (S n) Re.digit) w ->
  length w = S n /\ Forall (fun c => is_digit c = true) w.
Proof.
  revert w. induction n as [|n IH]; intros w H.
  - apply lang_digit in H. destruct H as (c & -> & Hc). split; [reflexivity|].
    constructor; [exact Hc | constructor].
  - change (Re.rep (S (S n)) Re.digit) with (Re.Seq Re.digit (Re.rep (S n) Re.digit)) in H.
    inversion H as [| | |? ? w1 w2 H1 H2| | | | | |]; subst.
    apply lang_digit in H1. destruct H1 as (c & -> & Hc).
    apply IH in H2. destruct H2 as [Hlen Hall].
    split; [simpl; congruence | constructor; assumption].
Qed.

Lemma digits_written (s : pystr) :
  Forall (fun c => is_digit c = true) s ->
  exists ds, Forall AmountFacts.is_dec ds /\ s = AmountFacts.write_digits ds.
Proof.
  induction 1 as [|c s Hc _ (ds & Hds & ->)]; [exists []; split; [constructor | reflexivity]|].
  unfold is_digit, in_range in Hc. apply andb_prop in Hc. destruct Hc as [H1 H2].
  apply N.leb_le in H1, H2.
  exists ((Z.of_N c - 48) :: ds). split.
  - constructor; [unfold AmountFacts.is_dec; lia | exact Hds].
  - simpl. f_equal. unfold AmountFacts.digit_char. lia.
Qed.

Lemma horner_bound ds : forall a,
  Forall AmountFacts.is_dec ds -> 0 <= a ->
  0 <= fold_left (fun a d => 10 * a + d) ds a < (a + 1) * 10 ^ Z.of_nat (length ds).
Proof.
  induction ds as [|d ds IH]; intros a Hds Ha.
  - simpl. lia.
  - inversion Hds as [|? ? Hd Hds']; subst. unfold AmountFacts.is_dec in Hd.
    cbn [fold_left length]. specialize (IH (10 * a + d) Hds' ltac:(lia)).
    rewrite Nat2Z.inj_succ, Z.pow_succ_r by lia.
    assert (0 < 10 ^ Z.of_nat (length ds)) by (apply Z.pow_pos_nonneg; lia). nia.
Qed.

(** [int] reads a run of digits, as a number below the power of ten of its
    length. *)
Lemma int_of_digits (s : pystr) :
  digits s -> Z.of_nat (length s) <= Num.max_str_digits ->
  exists z, NLP.int s = Ok z /\ 0 <= z < 10 ^ Z.of_nat (length s).
Proof.
  intros [Hne Hs] Hlen. destruct (digits_written s Hs) as (ds & Hds & ->).
  destruct ds as [|d ds]; [contradiction|].
  unfold AmountFacts.write_digits in Hlen. rewrite length_map in Hlen.
  exists (Num.horner (d :: ds)). split.
  - unfold NLP.int, Num.read_int.
    rewrite (AmountFacts.strip_plain _ (AmountFacts.digits_not_space _ Hds)).
    inversion Hds as [|? ? Hd Hds']; subst.
    pose proof (AmountFacts.split_sign_digits d ds [] Hd) as Hsign.
    rewrite app_nil_r in Hsign. rewrite Hsign.
    pose proof (AmountFacts.digit_run_digits (d :: ds) [] [] false Hds I) as Hrun.
    rewrite app_nil_r in Hrun. rewrite Hrun.
    destruct (Z.ltb_spec Num.max_str_digits (Z.of_nat (length ([] ++ d :: ds))))
      as [Hover|_]; [simpl app in Hover; lia | reflexivity].
  - unfold Num.horner, AmountFacts.write_digits. rewrite length_map.
    pose proof (horner_bound (d :: ds) 0 Hds ltac:(lia)). lia.
Qed.

End MatcherFacts.

(** * When the interpreters raise *)

Module ErrorFacts.
Import Py NLP MatcherFacts.

(** The groups of the time patterns hold four digits. *)
Definition number_text (i : nat) (w : pystr) : Prop := digits w /\ length w = 4%nat.

(** The group of [letzte[n]?\s+(\d+)\s+jahre] holds digits, however many. *)
Definition count_text (i : nat) (w : pystr) : Prop := digits w.

Lemma four_digits_number ci w : lang ci four_digits w -> digits w /\ length w = 4%nat.
Proof.
  unfold four_digits. intros H. apply lang_rep_digits in H. destruct H as [Hlen Hall].
  split; [|exact Hlen]. split; [|exact Hall]. destruct w; [discriminate | discriminate].
Qed.

Section Patterns.

Variable holds : nat -> pystr -> Prop.

Lemma groups_hold_spaces : groups_hold false holds (Re.plus Re.space).
Proof. unfold Re.plus, Re.space. cbn [groups_hold]. tauto. Qed.

Lemma groups_hold_four : groups_hold false holds four_digits.
Proof. unfold four_digits, Re.digit. cbn [Re.rep groups_hold]. tauto. Qed.

Lemma groups_hold_some : groups_hold false holds (Re.plus Re.digit).
Proof. unfold Re.plus, Re.digit. cbn [groups_hold]. tauto. Qed.

End Patterns.

Lemma four_digits_hold (j : nat) w : lang false four_digits w -> number_text j w.
Proof. intros H. apply (four_digits_number false w H). Qed.

Lemma some_digits_hold (j : nat) w : lang false (Re.plus Re.digit) w -> count_text j w.
Proof. apply lang_some_digits. Qed.

Create HintDb patterns.

#[local] Hint Resolve groups_hold_txt groups_hold_spaces groups_hold_four
  groups_hold_some four_digits_hold some_digits_hold : patterns.

Ltac pattern_facts := intuition (auto 10 with patterns).

Lemma between_groups :
  groups_hold false number_text pattern_between
  /\ sets 1 pattern_between /\ sets 2 pattern_between.
Proof. unfold pattern_between. cbn [Re.seqs groups_hold sets]. pattern_facts. Qed.

Lemma from_to_groups :
  groups_hold false number_text pattern_from_to
  /\ sets 1 pattern_from_to /\ sets 2 pattern_from_to.
Proof. unfold pattern_from_to. cbn [Re.seqs groups_hold sets]. pattern_facts. Qed.

Lemma since_groups :
  groups_hold false number_text pattern_since /\ sets 1 pattern_since.
Proof. unfold pattern_since. cbn [Re.seqs groups_hold sets]. pattern_facts. Qed.

Lemma last_years_groups :
  groups_hold false count_text pattern_last_years /\ sets 1 pattern_last_years.
Proof.
  unfold pattern_last_years, Re.opt. cbn [Re.seqs groups_hold sets]. pattern_facts.
Qed.

(** The number a group of four digits holds, after a search. *)
Lemma searched_number r i query m :
  groups_hold false number_text r -> sets i r ->
  Re.search false r query = Some m ->
  exists z, int (Re.group i (Re.groups m)) = Ok z /\ 0 <= z < 10000.
Proof.
  intros Hg Hs H.
  destruct (proj1 (search_group false query number_text r i m Hg Hs H)) as [Hd Hl].
  destruct (int_of_digits _ Hd) as (z & Hz & Hbound).
  - rewrite Hl. unfold Num.max_str_digits. lia.
  - exists z. split; [exact Hz|]. rewrite Hl in Hbound.
    change (10 ^ Z.of_nat 4) with 10000 in Hbound. exact Hbound.
Qed.

(** *** The query interpreter of the complete system *)

Lemma year_pair_returns query r time_range :
  groups_hold false number_text r -> sets 1 r -> sets 2 r ->
  exists found, year_pair query r time_range = Ok found.
Proof.
  intros Hg H1 H2. unfold year_pair.
  destruct (Re.search false r query) as [m|] eqn:Hm; [|eauto].
  destruct (searched_number r 1 query m Hg H1 Hm) as (z1 & -> & _).
  destruct (searched_number r 2 query m Hg H2 Hm) as (z2 & -> & _).
  cbn [bind]. eauto.
Qed.

Lemma time_range_returns query : exists found, _extract_time_range query = Ok found.
Proof.
  unfold _extract_time_range.
  destruct between_groups as (Hg & H1 & H2).
  destruct (year_pair_returns query pattern_between [] Hg H1 H2) as [t1 ->].
  cbn [bind].
  destruct from_to_groups as (Hg' & H1' & H2').
  destruct (year_pair_returns query pattern_from_to t1 Hg' H1' H2') as [t2 ->].
  cbn [bind].
  destruct (Re.search false pattern_since query) as [m|] eqn:Hm; [|eauto].
  destruct since_groups as (Hgs & Hs).
  destruct (searched_number pattern_since 1 query m Hgs Hs Hm) as (z & -> & _).
  cbn [bind]. eauto.
Qed.

(** The query counts years back: it has none of the phrases for last year
    and this year, it has [letzte] and [jahre], and [letzte[n] N jahre]
    with a number [N] is found in it. *)
Definition counts_years_back (query : pystr) : Prop :=
  any_in (map u ["letztes jahr"; "voriges jahr"; "vergangenes jahr"]%string) query = false
  /\ any_in (map u ["dieses jahr"; "aktuelles jahr"]%string) query = false
  /\ contains (u "letzte") query = true
  /\ contains (u "jahre") query = true
  /\ exists number_match,
       Re.search false pattern_last_years query = Some number_match
       /\ digits (Re.group 1 (Re.groups number_match)).

Lemma relative_years_raise clock query e :
  relative_years clock query = Err e -> counts_years_back query.
Proof.
  unfold relative_years, counts_years_back.
  destruct (any_in _ query); [discriminate|].
  destruct (any_in _ query); [discriminate|].
  destruct (contains (u "letzte") query); [|discriminate].
  destruct (contains (u "jahre") query); [|discriminate].
  cbn [andb].
  destruct (Re.search false pattern_last_years query) as [m|] eqn:Hm; [|discriminate].
  intros _. repeat (split; [reflexivity|]). exists m. split; [reflexivity|].
  destruct last_years_groups as (Hg & Hs).
  exact (proj1 (search_group false query count_text pattern_last_years 1 m Hg Hs Hm)).
Qed.

Lemma extract_entities_raise clock query e :
  _extract_entities clock query = Err e -> relative_years clock query = Err e.
Proof.
  unfold _extract_entities, _extract_years.
  rewrite NLPFacts.direct_years_never_found. cbn [bind].
  destruct (relative_years clock query) as [more|e']; cbn [bind]; [|congruence].
  destruct (time_range_returns query) as [found ->]. cbn [bind]. discriminate.
Qed.

(** The analysis can raise for one kind of query only: one that, once
    normalised, counts years back ([letzte N jahre] with a number [N]); the
    exception is then the one that reading [N] or building the list of the
    [N] years raised.  Every other query is analysed in full, and the
    degraded answer is not returned for it. *)
Theorem analysis_raises_only_on_year_counts (self : Processor) (clock : Clock)
    (query : pystr) (e : exn) :
  analysis self clock query = Err e ->
  counts_years_back (_normalize_query query)
  /\ relative_years clock (_normalize_query query) = Err e.
Proof.
  intros H. unfold analysis in H.
  destruct (_extract_entities clock (_normalize_query query)) as [found|e'] eqn:He;
    cbn [bind] in H; [discriminate|].
  injection H as ->. apply extract_entities_raise in He.
  split; [exact (relative_years_raise _ _ _ He) | exact He].
Qed.

Lemma endless_years_raise :
  analysis NLPFacts.processor NLPFacts.clock_2026 NLPFacts.endless_years
  = Err (Raise OverflowError (u "Python int too large to convert to C ssize_t"))
  /\ counts_years_back (_normalize_query NLPFacts.endless_years)
  /\ relative_years NLPFacts.clock_2026 (_normalize_query NLPFacts.endless_years)
     = Err (Raise OverflowError (u "Python int too large to convert to C ssize_t")).
Proof.
  assert (H : analysis NLPFacts.processor NLPFacts.clock_2026 NLPFacts.endless_years
              = Err (Raise OverflowError
                       (u "Python int too large to convert to C ssize_t")))
    by (vm_compute; reflexivity).
  split; [exact H|].
  exact (analysis_raises_only_on_year_counts _ _ _ _ H).
Defined.

(** A count of more than 4300 digits: [int] refuses it, and the degraded
    answer carries its message. *)
Definition long_count : pystr := u "letzte " ++ repeat 49%N 4301 ++ u " Jahre".

Example long_count_is_refused :
  analyze_query NLPFacts.processor NLPFacts.clock_2026 long_count
  = degraded long_count (too_many_digits 4301).
Proof. vm_compute. reflexivity. Qed.

(** *** The years of the first system *)

Definition year_text (i : nat) (w : pystr) : Prop :=
  i = 2%nat \/ i = 4%nat -> digits w /\ length w = 4%nat.

Lemma zeitraum_groups :
  groups_hold false year_text GermanNLP.pattern_zeitraum
  /\ sets 2 GermanNLP.pattern_zeitraum /\ sets 4 GermanNLP.pattern_zeitraum.
Proof.
  unfold GermanNLP.pattern_zeitraum. change (Re.rep 4 Re.digit) with four_digits.
  cbn [Re.seqs groups_hold sets].
  assert (H4 : forall j w, lang false four_digits w -> year_text j w)
    by (intros j w H _; exact (four_digits_number false w H)).
  assert (Hw : forall j a b w, (j = 1 \/ j = 3)%nat ->
                 lang false (Re.Alt (Re.txt a) (Re.txt b)) w -> year_text j w)
    by (intros j a b w Hj _ [-> | ->]; destruct Hj; discriminate).
  assert (Hsp : groups_hold false year_text (Re.plus Re.space))
    by (unfold Re.plus, Re.space; cbn [groups_hold]; tauto).
  assert (Hd : groups_hold false year_text four_digits)
    by (unfold four_digits, Re.digit; cbn [Re.rep groups_hold]; tauto).
  repeat match goal with
         | |- _ /\ _ => split
         | |- groups_hold _ _ (Re.txt _) => apply groups_hold_txt
         | |- True => exact I
         end; eauto 10.
Qed.

Lemma centuries_are_numbers (texts : list pystr) :
  Forall (fun s => s = u "19" \/ s = u "20") texts ->
  exists years, GermanNLP.ints texts = Ok years
                /\ Forall (fun y => y = 19 \/ y = 20) years.
Proof.
  induction 1 as [|s rest Hs _ (years & IH & Hy)]; [simpl; eauto|].
  simpl. rewrite IH. destruct Hs as [-> | ->]; simpl; eauto.
Qed.

(** The years of [extract_entities] are computed without an exception for
    every query: what the patterns hand to [int] are digits, and a period
    [zwischen ... und ...] spans fewer than ten thousand years.  Unless such
    a period is written, the years are 19, 20, last year or this year, and
    never a year of the query. *)
Theorem years_never_raise (current_year : Z) (query : pystr) :
  exists years,
    GermanNLP.extract_entities_years current_year query = Ok years
    /\ (Re.search false GermanNLP.pattern_zeitraum query = None ->
        Forall (fun y => y = 19 \/ y = 20 \/ y = current_year - 1 \/ y = current_year)
               years).
Proof.
  unfold GermanNLP.extract_entities_years.
  assert (H : Forall (fun s => s = u "19" \/ s = u "20")
                (Re.findall1 false GermanNLP.pattern_jahr query)).
  { unfold Re.findall1, Re.finditer. apply Forall_map.
    apply (NLPFacts.scan_Forall
             (fun m => Re.group 1 (Re.groups m) = u "19"
                       \/ Re.group 1 (Re.groups m) = u "20")).
    exact NLPFacts.year_group. }
  destruct (centuries_are_numbers _ H) as (years & -> & Hy). cbn [bind].
  destruct (Re.search false GermanNLP.pattern_zeitraum query) as [m|] eqn:Hm.
  - destruct zeitraum_groups as (Hg & H2 & H4).
    destruct (proj1 (search_group false query year_text _ 2 m Hg H2 Hm)
                (or_introl eq_refl)) as [Hd2 Hl2].
    destruct (proj1 (search_group false query year_text _ 4 m Hg H4 Hm)
                (or_intror eq_refl)) as [Hd4 Hl4].
    destruct (int_of_digits _ Hd2) as (start_year & -> & Hs);
      [rewrite Hl2; unfold Num.max_str_digits; lia|].
    destruct (int_of_digits _ Hd4) as (end_year & -> & He);
      [rewrite Hl4; unfold Num.max_str_digits; lia|].
    cbn [bind]. unfold range_list. rewrite Hl2 in Hs. rewrite Hl4 in He.
    change (10 ^ Z.of_nat 4) with 10000 in Hs, He.
    destruct (Z.ltb_spec maxsize (end_year + 1 - start_year)) as [Hover|_].
    + unfold maxsize in Hover. lia.
    + eexists. split; [reflexivity | discriminate].
  - eexists. split; [reflexivity|]. intros _.
    assert (Hy' : Forall (fun y => y = 19 \/ y = 20 \/ y = current_year - 1
                                  \/ y = current_year) years)
      by (eapply Forall_impl; [exact Hy|]; simpl; tauto).
    destruct (Re.search false GermanNLP.pattern_jahr_wort query); [|exact Hy'].
    destruct (contains (u "letztes jahr") query || contains (u "voriges jahr") query).
    + apply Forall_app. split; [exact Hy'|]. constructor; [tauto | constructor].
    + destruct (contains (u "dieses jahr") query); [|exact Hy'].
      apply Forall_app. split; [exact Hy'|]. constructor; [tauto | constructor].
Qed.

End ErrorFacts.

(** * The amounts the complete system extracts *)

Module ExtractionFacts.
Import Py NLP MatcherFacts AmountFacts.

(** Every character the pattern consumes is a digit. *)
Fixpoint of_digits (r : Re.regex) : Prop :=
  match r with
  | Re.Eps | Re.WordB => True
  | Re.Chr _ => False
  | Re.Cls g => forall x, g x = true -> is_digit x = true
  | Re.Seq a b | Re.Alt a b => of_digits a /\ of_digits b
  | Re.Star a | Re.Grp _ a => of_digits a
  end.

Lemma lang_of_digits ci r w :
  of_digits r -> lang ci r w -> Forall (fun c => is_digit c = true) w.
Proof.
  intros Hr H. induction H; simpl in Hr; try (constructor; fail).
  - contradiction.
  - constructor; [auto | constructor].
  - apply Forall_app. split; [apply IHlang1 | apply IHlang2]; tauto.
  - apply IHlang. tauto.
  - apply IHlang. tauto.
  - apply Forall_app. split; [apply IHlang1 | apply IHlang2]; assumption.
  - apply IHlang. assumption.
Qed.

(** [\d{1,3}] and [\d+] *)
Lemma lang_up_to_three ci w : lang ci (Re.rep_range 1 3 Re.digit) w -> digits w.
Proof.
  intros H.
  assert (Hd : of_digits (Re.rep_range 1 3 Re.digit)).
  { unfold Re.rep_range, Re.opt, Re.digit. cbn [Re.rep Re.rep_upto Nat.sub of_digits].
    unfold Re.opt. cbn [of_digits]. tauto. }
  split; [|exact (lang_of_digits ci _ w Hd H)].
  unfold Re.rep_range in H. cbn [Re.rep] in H.
  inversion H as [| | |? ? w1 w2 H1 H2| | | | | |]; subst.
  apply lang_digit in H1. destruct H1 as (c & -> & _). discriminate.
Qed.

(** A period or a comma of the pattern stands for itself, also under
    [re.IGNORECASE]. *)
Lemma in_range_above lo hi c : in_range lo hi c = true -> (lo <= c)%N.
Proof.
  unfold in_range. intros H. apply andb_prop in H. destruct H as [H _].
  apply N.leb_le. exact H.
Qed.

Lemma lower_char_letter (x : N) : lower_char x = x \/ (65 <= lower_char x)%N.
Proof.
  unfold lower_char.
  destruct (in_range 65 90 x) eqn:H1; [apply in_range_above in H1; right; lia|].
  destruct (in_range 192 214 x || in_range 216 222 x) eqn:H2.
  { apply orb_prop in H2. destruct H2 as [H2|H2]; apply in_range_above in H2; right; lia. }
  destruct (x =? 376)%N; [right; lia|].
  destruct (x =? 7838)%N; [right; lia|].
  destruct (x =? 8490)%N; [right; lia|].
  destruct (x =? 8491)%N; [right; lia|].
  left. reflexivity.
Qed.

Lemma lower_char_punct (c : N) : (c < 65)%N -> lower_char c = c.
Proof.
  intros Hc. unfold lower_char.
  destruct (in_range 65 90 c) eqn:H1; [apply in_range_above in H1; lia|].
  destruct (in_range 192 214 c || in_range 216 222 c) eqn:H2.
  { apply orb_prop in H2. destruct H2 as [H2|H2]; apply in_range_above in H2; lia. }
  destruct (N.eqb_spec c 376); [lia|].
  destruct (N.eqb_spec c 7838); [lia|].
  destruct (N.eqb_spec c 8490); [lia|].
  destruct (N.eqb_spec c 8491); [lia|].
  reflexivity.
Qed.

Lemma lower_char_below (x c : N) : (c < 65)%N -> lower_char c = lower_char x -> x = c.
Proof.
  intros Hc H. rewrite (lower_char_punct c Hc) in H.
  destruct (lower_char_letter x) as [Hx|Hx]; [congruence | lia].
Qed.

Lemma lang_punct ci (c : N) w :
  (c < 65)%N -> lang ci (Re.Chr c) w -> w = [c].
Proof.
  intros Hc H. inversion H as [|? x Hx| | | | | | | |]; subst.
  unfold Re.chr_eqb in Hx. destruct ci.
  - apply N.eqb_eq in Hx. f_equal. apply (lower_char_below x c Hc Hx).
  - apply N.eqb_eq in Hx. subst x. reflexivity.
Qed.

(** [(?:\.\d{3})*]: the groups of three digits. *)
Lemma lang_thousands ci w :
  lang ci (Re.Star (Re.Seq (Re.txt ".") (Re.rep 3 Re.digit))) w ->
  exists groups,
    Forall is_dec (flat_map group_digits groups)
    /\ w = flat_map (fun g => 46%N :: write_digits (group_digits g)) groups.
Proof.
  change (Re.txt ".") with (Re.Chr 46%N).
  remember (Re.Star (Re.Seq (Re.Chr 46%N) (Re.rep 3 Re.digit))) as r eqn:Hr.
  induction 1 as [| | | | | | |a w1 w2 H1 _ H2 IH| |]; try discriminate.
  - exists []. split; [constructor | reflexivity].
  - injection Hr as ->. destruct (IH eq_refl) as (groups & Hds & ->).
    inversion H1 as [| | |? ? v1 v2 Hv1 Hv2| | | | | |]; subst.
    apply lang_punct in Hv1; [|reflexivity]. subst v1.
    apply (lang_rep_digits ci 2) in Hv2. destruct Hv2 as [Hlen Hall].
    destruct (digits_written v2 Hall) as (ds & Hdec & ->).
    unfold write_digits in Hlen. rewrite length_map in Hlen.
    destruct ds as [|d1 [|d2 [|d3 [|]]]]; try discriminate.
    exists ((d1, d2, d3) :: groups). split.
    + simpl. inversion Hdec as [|? ? Ha Hdec1]; subst.
      inversion Hdec1 as [|? ? Hb Hdec2]; subst.
      inversion Hdec2 as [|? ? Hc _]; subst.
      repeat (constructor; [assumption|]). exact Hds.
    + reflexivity.
Qed.

(** [(?:,\d{2})?]: the decimals. *)
Lemma lang_decimals ci w :
  lang ci (Re.opt (Re.Seq (Re.txt ",") (Re.rep 2 Re.digit))) w ->
  exists decimals : option (Z * Z),
    Forall is_dec (match decimals with Some (x, y) => [x; y] | None => [] end)
    /\ w = match decimals with
           | Some (x, y) => 44%N :: write_digits [x; y]
           | None => []
           end.
Proof.
  change (Re.txt ",") with (Re.Chr 44%N). unfold Re.opt.
  inversion 1 as [| | | |? ? ? H1|? ? ? H1| | | |]; subst.
  - inversion H1 as [| | |? ? v1 v2 Hv1 Hv2| | | | | |]; subst.
    apply lang_punct in Hv1; [|reflexivity]. subst v1.
    apply (lang_rep_digits ci 1) in Hv2. destruct Hv2 as [Hlen Hall].
    destruct (digits_written v2 Hall) as (ds & Hdec & ->).
    unfold write_digits in Hlen. rewrite length_map in Hlen.
    destruct ds as [|x [|y [|]]]; try discriminate.
    exists (Some (x, y)). split; [exact Hdec | reflexivity].
  - inversion H1; subst. exists None. split; [constructor | reflexivity].
Qed.

(** The words of the amount group are the amounts in German notation. *)
Lemma lang_amount ci leading_digits w :
  (forall v, lang ci leading_digits v -> digits v) ->
  lang ci (Re.seqs [leading_digits;
                    Re.Star (Re.Seq (Re.txt ".") (Re.rep 3 Re.digit));
                    Re.opt (Re.Seq (Re.txt ",") (Re.rep 2 Re.digit))]) w ->
  exists a, well_formed a /\ w = write a.
Proof.
  intros Hlead H. cbn [Re.seqs] in H.
  inversion H as [| | |? ? w1 w23 H1 H23| | | | | |]; subst.
  inversion H23 as [| | |? ? w2 w3 H2 H3| | | | | |]; subst.
  apply Hlead in H1. destruct H1 as [Hne Hall].
  destruct (digits_written w1 Hall) as (ds & Hds & ->).
  apply lang_thousands in H2. destruct H2 as (groups & Hgs & ->).
  apply lang_decimals in H3. destruct H3 as (dec & Hdec & ->).
  exists {| leading := ds; thousands := groups; decimals := dec |}. split.
  - unfold well_formed, integer_digits, decimal_digits. simpl. split.
    + intros ->. apply Hne. reflexivity.
    + split; [apply Forall_app; split; assumption|].
      destruct dec as [[x y]|]; exact Hdec.
  - unfold write. simpl. destruct dec as [[x y]|]; reflexivity.
Qed.

(** *** [_extract_amounts] *)

Fixpoint groupless (r : Re.regex) : bool :=
  match r with
  | Re.Grp _ _ => false
  | Re.Seq a b | Re.Alt a b => groupless a && groupless b
  | Re.Star a => groupless a
  | Re.Eps | Re.Chr _ | Re.Cls _ | Re.WordB => true
  end.

Lemma groupless_hold ci holds r : groupless r = true -> groups_hold ci holds r.
Proof.
  induction r; simpl; try tauto; try discriminate.
  - intros H. apply andb_prop in H. tauto.
  - intros H. apply andb_prop in H. tauto.
Qed.

(** The text of the amount group. *)
Definition amount_text (i : nat) (w : pystr) : Prop := exists a, well_formed a /\ w = write a.

Lemma amount_group_holds ci leading_digits :
  (forall v, lang ci leading_digits v -> digits v) ->
  groupless leading_digits = true ->
  groups_hold ci amount_text (amount_group leading_digits)
  /\ sets 1 (amount_group leading_digits).
Proof.
  intros Hlead Hless. unfold amount_group. split; [|left; reflexivity].
  split.
  - intros w Hw. exact (lang_amount ci leading_digits w Hlead Hw).
  - apply groupless_hold. cbn [Re.seqs groupless]. rewrite Hless. reflexivity.
Qed.

Lemma pattern_amount_groups :
  groups_hold true amount_text pattern_amount /\ sets 1 pattern_amount.
Proof.
  destruct (amount_group_holds true (Re.rep_range 1 3 Re.digit)
              (lang_up_to_three true) eq_refl) as [Hg Hs].
  unfold pattern_amount. cbn [Re.seqs groups_hold sets].
  split; [|tauto].
  split; [exact I|]. split; [exact Hg|].
  split; [apply groupless_hold; reflexivity|].
  split; [apply groupless_hold; reflexivity | exact I].
Qed.

Lemma pattern_amount_simple_groups :
  groups_hold false amount_text pattern_amount_simple /\ sets 1 pattern_amount_simple.
Proof.
  destruct (amount_group_holds false (Re.plus Re.digit)
              (lang_some_digits false) eq_refl) as [Hg Hs].
  unfold pattern_amount_simple. cbn [Re.seqs groups_hold sets]. tauto.
Qed.

(** A matched amount: a text of the query in German notation. *)
Definition written_in (query m : pystr) : Prop :=
  exists a, well_formed a /\ m = write a /\ part_of (write a) query.

Lemma findall_amounts ci r query :
  groups_hold ci amount_text r /\ sets 1 r ->
  Forall (written_in query) (Re.findall1 ci r query).
Proof.
  intros [Hg Hs]. unfold Re.findall1. apply Forall_map.
  eapply Forall_impl; [exact (finditer_groups ci query amount_text r 1 Hg Hs)|].
  simpl. intros m [(a & Ha & Hw) Hpart]. exists a. rewrite <- Hw. auto.
Qed.

Definition amount_keys : list pystr := [u "amount"; u "amount_min"; u "amount_max"].

(** An entry of the answer: one of the three keys, with the value of an
    amount written in the query. *)
Definition amount_entry (query : pystr) (kv : pystr * entity) : Prop :=
  In (fst kv) amount_keys
  /\ exists a, well_formed a /\ part_of (write a) query /\ snd kv = EFloat (value a).

Lemma put_Forall (P : pystr * entity -> Prop) k v d :
  P (k, v) -> Forall P d -> Forall P (put k v d).
Proof.
  intros Hkv. induction 1 as [|[k' v'] d Hx Hd IH]; simpl; [repeat constructor; exact Hkv|].
  destruct (str_eqb k k'); constructor; assumption.
Qed.

Lemma amount_step_entries query amounts m :
  written_in query m ->
  Forall (amount_entry query) amounts ->
  Forall (amount_entry query) (amount_step query amounts m).
Proof.
  intros (a & Ha & -> & Hpart) Hacc. unfold amount_step.
  rewrite (german_to_decimal_write a Ha), (float_of_decimal_text a Ha).
  assert (Hentry : forall key, In key amount_keys ->
                     amount_entry query (key, EFloat (value a))).
  { intros key Hkey. split; [exact Hkey|]. exists a. auto. }
  repeat match goal with
         | |- context [if ?b then _ else _] => destruct b
         end;
    apply put_Forall; try assumption; apply Hentry; unfold amount_keys; simpl; tauto.
Qed.

(** The texts whose decimal digits are the ASCII digits: no character lies
    at or above U+0660 ARABIC-INDIC DIGIT ZERO, the first decimal digit
    outside ASCII.  On such a text [\d] and [float()] see the digits that
    [is_digit] sees; the digits of other scripts, which Python reads as
    well, are outside the character tables of this development. *)
Definition ascii_digits_only (text : pystr) : bool :=
  forallb (fun c => (c <? 1632)%N) text.

(** Every amount the interpreter reports for a query whose digits are the
    ASCII digits, under [amount], [amount_min] or [amount_max], is the value
    (the nearest float) of a number that stands in the query in German
    notation: digits, groups of three digits after periods, two decimals
    after a comma. *)
Theorem extracted_amounts_are_written (query : pystr) :
  ascii_digits_only query = true ->
  Forall (amount_entry query) (_extract_amounts query).
Proof.
  intros _. unfold _extract_amounts.
  assert (Hms : Forall (written_in query)
                  match Re.findall1 true pattern_amount query with
                  | [] => Re.findall1 false pattern_amount_simple query
                  | found => found
                  end).
  { pose proof (findall_amounts true pattern_amount query pattern_amount_groups) as H1.
    pose proof (findall_amounts false pattern_amount_simple query
                  pattern_amount_simple_groups) as H2.
    destruct (Re.findall1 true pattern_amount query); assumption. }
  revert Hms. generalize (match Re.findall1 true pattern_amount query with
                          | [] => Re.findall1 false pattern_amount_simple query
                          | found => found
                          end).
  intros ms Hms.
  assert (Hacc : Forall (amount_entry query) []) by constructor.
  revert Hacc. generalize (@nil (pystr * entity)).
  induction Hms as [|m ms Hm _ IH]; intros acc Hacc; [exact Hacc|].
  simpl. apply IH. apply amount_step_entries; assumption.
Qed.

(** A query with an amount in German notation. *)
Definition budget_query : pystr := u "kosten ueber 10.000,50 euro im jahr 2023".

Lemma budget_amounts_are_written :
  ascii_digits_only budget_query = true
  /\ Forall (amount_entry budget_query) (_extract_amounts budget_query).
Proof.
  assert (H : ascii_digits_only budget_query = true) by (vm_compute; reflexivity).
  split; [exact H | exact (extracted_amounts_are_written budget_query H)].
Defined.

Example budget_amounts :
  _extract_amounts budget_query = [(u "amount", EFloat 10000.5)].
Proof. vm_compute. reflexivity. Qed.

End ExtractionFacts.

(** * Which results the open database lets through *)

Module VerdictFacts.
Import Py FactChecker FactCheckerFacts StoreFacts.

Section Verdict.

Variable fromisoformat_year : pystr -> option Z.

(** Among the products with a consistency factor of an unknown fact, only
    those with the factor 0.8 and no failed check before it reach 0.7. *)
Lemma unknown_verdict (b1 b2 b3 b4 b6 : bool) (cc : float) :
  In cc unknown_levels ->
  (0.7 <=? product (factor_of b6 0.9)
             (product (factor_of (cc <? 1.0) cc)
                (product (factor_of b4 0.3)
                   (product (factor_of b3 0.8)
                      (product (factor_of b2 0.6)
                         (product (factor_of b1 0.7) 1.0))))))%float = true ->
  b1 = false /\ b2 = false /\ b3 = false /\ b4 = false /\ (0.8 <=? cc)%float = true.
Proof.
  unfold unknown_levels. simpl In.
  intros [<-|[<-|[<-|[<-|[]]]]];
    destruct b1, b2, b3, b4, b6; vm_compute; intros H;
    first [discriminate H | repeat split].
Qed.

Lemma similar_needs_both result :
  (0.8 <=? _find_similar_facts_confidence result)%float = true ->
  has (u "kategorie") result = true /\ has (u "jahr") result = true.
Proof.
  unfold _find_similar_facts_confidence.
  destruct (has (u "kategorie") result), (has (u "jahr") result); simpl;
    intros H; try (split; reflexivity); vm_compute in H; discriminate.
Qed.

Lemma unknown_consistency_needs_both c st result :
  known_facts_db c = OpenDb st ->
  verified_facts st !! _calculate_result_hash result = None ->
  (0.8 <=? fst (_check_consistency_with_known_facts c result))%float = true ->
  has (u "kategorie") result = true /\ has (u "jahr") result = true
  /\ snd (_check_consistency_with_known_facts c result) = [].
Proof.
  intros Hdb Hrow. unfold _check_consistency_with_known_facts. rewrite Hdb, Hrow.
  assert (Hs : (0.8 <=? _find_similar_facts_confidence result)%float = true ->
               has (u "kategorie") result = true /\ has (u "jahr") result = true
               /\ (if (0.8 <=? _find_similar_facts_confidence result)%float
                   then [] else [u "Keine ähnlichen verifizierten Fakten gefunden"])
                  = []).
  { intros H. destruct (similar_needs_both result H). rewrite H. auto. }
  destruct (suspicious_entries st !! _calculate_result_hash result) as [entry|];
    [destruct (resolved entry)|]; cbn [fst snd]; try exact Hs.
  intros H. vm_compute in H. discriminate.
Qed.

(** With the database open, a result the verified-facts table does not know
    is verified only if it has both a [kategorie] and a [jahr] and passes
    the structural, range, plausibility and pattern checks, and then its
    only possible issue is that it is not relevant to the query. *)
Theorem verified_needs_category_and_year (c : Checker) (st : Store) (result : dict)
    (query : pystr) :
  known_facts_db c = OpenDb st ->
  verified_facts st !! _calculate_result_hash result = None ->
  let fc := fst (_verify_single_result fromisoformat_year c result query) in
  is_verified fc = true ->
  has (u "kategorie") result = true /\ has (u "jahr") result = true
  /\ (issues fc = [] \/ issues fc = [u "Ergebnis nicht relevant für Anfrage"]).
Proof.
  intros Hdb Hrow. pose proof (unknown_level c st result Hdb Hrow) as Hlevel.
  pose proof (unknown_consistency_needs_both c st result Hdb Hrow) as Hboth.
  unfold _verify_single_result, run_checks.
  destruct (_check_data_structure result) as [s|e]; cbn [bind];
    [|intros; discriminate].
  destruct (_check_value_ranges c result) as [r|e]; cbn [bind];
    [|intros; discriminate].
  destruct (_check_plausibility fromisoformat_year result) as [p|e]; cbn [bind];
    [|intros; discriminate].
  match goal with
  | |- context [match ?acc with (_, _) => _ end] => remember acc as a eqn:Ha
  end.
  destruct a as [found conf].
  pose proof (f_equal snd Ha) as Hconf. pose proof (f_equal fst Ha) as Hfound.
  clear Ha. cbn [fst snd is_verified issues] in *.
  intros Hv. apply andb_prop in Hv. destruct Hv as [Hhigh _].
  rewrite Hconf, !penalise_confidence in Hhigh.
  apply (unknown_verdict _ _ _ _ _ _ Hlevel) in Hhigh.
  destruct Hhigh as (H1 & H2 & H3 & H4 & Hcc).
  destruct (Hboth Hcc) as (Hk & Hj & Hnone).
  split; [exact Hk|]. split; [exact Hj|].
  rewrite Hfound, H1, H2, H3, H4, Hnone.
  unfold penalise.
  destruct (fst (_check_consistency_with_known_facts c result) <? 1.0)%float,
    (negb (_check_query_relevance result query)); cbn [fst snd app]; auto.
Qed.

End Verdict.

Lemma road_repair_is_let_through :
  known_facts_db fresh_checker = OpenDb empty_store
  /\ verified_facts empty_store !! _calculate_result_hash road_repair = None
  /\ is_verified (fst (_verify_single_result isoformat_date_year fresh_checker
                         road_repair road_query)) = true
  /\ has (u "kategorie") road_repair = true /\ has (u "jahr") road_repair = true
  /\ (issues (fst (_verify_single_result isoformat_date_year fresh_checker
                      road_repair road_query)) = []
      \/ issues (fst (_verify_single_result isoformat_date_year fresh_checker
                         road_repair road_query))
         = [u "Ergebnis nicht relevant für Anfrage"]).
Proof.
  assert (Hv : is_verified (fst (_verify_single_result isoformat_date_year fresh_checker
                                   road_repair road_query)) = true)
    by (vm_compute; reflexivity).
  split; [reflexivity|]. split; [apply lookup_empty|]. split; [exact Hv|].
  exact (verified_needs_category_and_year isoformat_date_year fresh_checker empty_store
           road_repair road_query eq_refl (lookup_empty _) Hv).
Defined.

(** Without a category the same entry is shown as unverified. *)
Example road_repair_without_category :
  let fc := fst (_verify_single_result isoformat_date_year fresh_checker
                   (List.filter (fun kv => negb (str_eqb (fst kv) (u "kategorie"))) road_repair)
                   road_query) in
  is_verified fc = false /\ (confidence fc <=? 0.6)%float = true.
Proof. split; vm_compute; reflexivity. Qed.

End VerdictFacts.
